(** * FemPosDeviationSqpOsqpInterface: the SQP smoother over OSQP

    A shallow embedding of
    [modules/planning/math/discretized_points_smoothing/fem_pos_deviation_sqp_osqp_interface.cc].

    - [c_float] is OSQP's [double]: Rocq's primitive binary64 floats, so the
      literals ([1.0], [-1e20], [5.0], ...) and the operations ([+], [-], [*],
      [/], [std::abs], [<]) are the IEEE ones the compiled code runs.
    - [int] and [c_int] values are integers in [Z]; vector positions are taken
      with [Z.to_nat].  The arithmetic on them ([2 * N], [N - 2], [col - 4]) is
      exact as long as [4 * N - 4] fits an [int]; beyond that the C++ arithmetic
      is undefined and is not modelled.
    - [std::vector] is [list]; [push_back] appends, [resize] truncates or pads
      with the value-initialised element, [v[i] = a] is [vset].
    - The OSQP library is an external collaborator: [Solve] is parametrised by
      an interface record of its entry points, and records every call it makes
      in a trace.
    - A failing glog [CHECK] aborts the process: [Fatal]. *)

From Stdlib Require Import ZArith List Bool Lia Floats.
Import ListNotations.

Set Warnings "-inexact-float".
Local Open Scope Z_scope.

(** OSQP's scalar types: [typedef double c_float; typedef long long c_int;]. *)
Abbreviation c_float := float (only parsing).
Abbreviation c_int := Z (only parsing).

(** ** std::vector *)

Module Vec.

(** [v.resize(n)]: keeps the first [n] elements, pads with [d]. *)
Definition resize {A : Type} (d : A) (n : Z) (v : list A) : list A :=
  firstn (Z.to_nat n) v ++ repeat d (Z.to_nat n - length v)%nat.

(** [v[i]] read; [d] stands for what is outside the vector. *)
Definition get {A : Type} (d : A) (v : list A) (i : Z) : A :=
  if i <? 0 then d else nth (Z.to_nat i) v d.

Fixpoint upd {A : Type} (v : list A) (n : nat) (a : A) : list A :=
  match v, n with
  | [], _ => []
  | _ :: t, O => a :: t
  | h :: t, S n' => h :: upd t n' a
  end.

(** [v[i] = a]; every write of the source is in range, the model leaves the
    vector alone otherwise. *)
Definition vset {A : Type} (v : list A) (i : Z) (a : A) : list A :=
  if i <? 0 then v else upd v (Z.to_nat i) a.

Definition push_back {A : Type} (v : list A) (a : A) : list A := v ++ [a].

End Vec.

(** ** Counted loops: [for (int k = lo; k < hi; ++k) body] *)

Definition for_int {S : Type} (lo hi : Z) (body : Z -> S -> S) (s : S) : S :=
  fold_left (fun acc k => body (lo + Z.of_nat k) acc)
            (seq 0 (Z.to_nat (hi - lo))) s.

(** ** glog CHECK *)

Inductive checked (A : Type) : Type :=
| Pass (a : A)
| Fatal.
Arguments Pass {A} a.
Arguments Fatal {A}.

(** ** The object *)

Record FemPosDeviationSqpOsqpInterface : Set := mkFem {
  (* Reference points and deviation bounds *)
  ref_points_ : list (c_float * c_float);
  bounds_around_refs_ : list c_float;
  (* Weights in optimization cost function *)
  weight_fem_pos_deviation_ : c_float;
  weight_path_length_ : c_float;
  weight_ref_deviation_ : c_float;
  weight_curvature_constraint_slack_var_ : c_float;
  (* Settings of osqp *)
  max_iter_ : Z;
  time_limit_ : c_float;
  verbose_ : bool;
  scaled_termination_ : bool;
  warm_start_ : bool;
  (* Settings of sqp *)
  sqp_max_iter_ : Z;
  sqp_jtol_ : c_float;
  (* Optimization problem definitions *)
  num_of_points_ : Z;
  num_of_pos_variables_ : Z;
  num_of_slack_variables_ : Z;
  num_of_variables_ : Z;
  num_of_variable_constraints_ : Z;
  num_of_curvature_constraints_ : Z;
  num_of_constraints_ : Z;
  (* Optimized result *)
  x_ : list c_float;
  y_ : list c_float
}.

Definition INT_MAX : Z := 2147483647.

(** Lines 54-62 of [Solve]: "Calculate optimization states definitions". *)
Definition set_problem_definitions (this : FemPosDeviationSqpOsqpInterface)
  : FemPosDeviationSqpOsqpInterface :=
  let num_of_points := Z.of_nat (length (ref_points_ this)) in
  let num_of_pos_variables := num_of_points * 2 in
  let num_of_slack_variables := num_of_points - 2 in
  let num_of_variables := num_of_pos_variables + num_of_slack_variables in
  let num_of_variable_constraints := num_of_variables in
  let num_of_curvature_constraints := num_of_points - 2 in
  let num_of_constraints :=
    num_of_variable_constraints + num_of_curvature_constraints in
  {| ref_points_ := ref_points_ this;
     bounds_around_refs_ := bounds_around_refs_ this;
     weight_fem_pos_deviation_ := weight_fem_pos_deviation_ this;
     weight_path_length_ := weight_path_length_ this;
     weight_ref_deviation_ := weight_ref_deviation_ this;
     weight_curvature_constraint_slack_var_ :=
       weight_curvature_constraint_slack_var_ this;
     max_iter_ := max_iter_ this;
     time_limit_ := time_limit_ this;
     verbose_ := verbose_ this;
     scaled_termination_ := scaled_termination_ this;
     warm_start_ := warm_start_ this;
     sqp_max_iter_ := sqp_max_iter_ this;
     sqp_jtol_ := sqp_jtol_ this;
     num_of_points_ := num_of_points;
     num_of_pos_variables_ := num_of_pos_variables;
     num_of_slack_variables_ := num_of_slack_variables;
     num_of_variables_ := num_of_variables;
     num_of_variable_constraints_ := num_of_variable_constraints;
     num_of_curvature_constraints_ := num_of_curvature_constraints;
     num_of_constraints_ := num_of_constraints;
     x_ := x_ this;
     y_ := y_ this |}.

(** [x_] and [y_] replaced, as [OptimizeWithOsqp] does. *)
Definition set_result (this : FemPosDeviationSqpOsqpInterface)
           (x y : list c_float) : FemPosDeviationSqpOsqpInterface :=
  {| ref_points_ := ref_points_ this;
     bounds_around_refs_ := bounds_around_refs_ this;
     weight_fem_pos_deviation_ := weight_fem_pos_deviation_ this;
     weight_path_length_ := weight_path_length_ this;
     weight_ref_deviation_ := weight_ref_deviation_ this;
     weight_curvature_constraint_slack_var_ :=
       weight_curvature_constraint_slack_var_ this;
     max_iter_ := max_iter_ this;
     time_limit_ := time_limit_ this;
     verbose_ := verbose_ this;
     scaled_termination_ := scaled_termination_ this;
     warm_start_ := warm_start_ this;
     sqp_max_iter_ := sqp_max_iter_ this;
     sqp_jtol_ := sqp_jtol_ this;
     num_of_points_ := num_of_points_ this;
     num_of_pos_variables_ := num_of_pos_variables_ this;
     num_of_slack_variables_ := num_of_slack_variables_ this;
     num_of_variables_ := num_of_variables_ this;
     num_of_variable_constraints_ := num_of_variable_constraints_ this;
     num_of_curvature_constraints_ := num_of_curvature_constraints_ this;
     num_of_constraints_ := num_of_constraints_ this;
     x_ := x;
     y_ := y |}.

(** ** CalculateKernel *)

Section Kernel.

Variable this : FemPosDeviationSqpOsqpInterface.

Local Open Scope float_scope.

(** [std::vector<std::vector<std::pair<c_int, c_float>>> columns]. *)
Definition Columns : Set := list (list (c_int * c_float)).

(** [columns[col].emplace_back(row, value)]. *)
Definition emplace_back (columns : Columns) (col : Z) (row : c_int)
           (value : c_float) : Columns :=
  Vec.vset columns col (Vec.push_back (Vec.get [] columns col) (row, value)).

(** The three weights, read from the object. *)
Let w_fem := weight_fem_pos_deviation_ this.
Let w_len := weight_path_length_ this.
Let w_ref := weight_ref_deviation_ this.

(** Lines 205-210: the first point's two columns. *)
Definition kernel_first_point (st : Columns * Z) : Columns * Z :=
  for_int 0 2 (fun col '(columns, col_num) =>
    let columns := emplace_back columns col col (w_fem + w_len + w_ref) in
    (columns, (col_num + 1)%Z)) st.

(** Lines 212-219: the second point's two columns. *)
Definition kernel_second_point (st : Columns * Z) : Columns * Z :=
  for_int 2 4 (fun col '(columns, col_num) =>
    let columns :=
      emplace_back columns col (col - 2)%Z (-2.0 * w_fem - w_len) in
    let columns :=
      emplace_back columns col col (5.0 * w_fem + 2.0 * w_len + w_ref) in
    (columns, (col_num + 1)%Z)) st.

(** Lines 225-235: the two columns of one interior point; [col_index] is
    advanced by [col_index += col]. *)
Definition kernel_interior_point (point_index : Z) (st : Columns * Z)
  : Columns * Z :=
  let col_index := (point_index * 2)%Z in
  let '(_, columns, col_num) :=
    for_int 0 2 (fun col '(col_index, columns, col_num) =>
      let col_index := (col_index + col)%Z in
      let columns :=
        emplace_back columns col_index (col_index - 4)%Z w_fem in
      let columns :=
        emplace_back columns col_index (col_index - 2)%Z
                     (-4.0 * w_fem - w_len) in
      let columns :=
        emplace_back columns col_index col_index
                     (6.0 * w_fem + 2.0 * w_len + w_ref) in
      (col_index, columns, (col_num + 1)%Z))
      (col_index, fst st, snd st) in
  (columns, col_num).

(** Lines 221-236. *)
Definition kernel_interior_points (st : Columns * Z) : Columns * Z :=
  let second_point_from_last_index := (num_of_points_ this - 2)%Z in
  for_int 2 second_point_from_last_index kernel_interior_point st.

(** Lines 238-249: the second point from the last. *)
Definition kernel_second_from_last (st : Columns * Z) : Columns * Z :=
  let second_point_col_from_last_col := (num_of_pos_variables_ this - 4)%Z in
  let last_point_col_from_last_col := (num_of_pos_variables_ this - 2)%Z in
  for_int second_point_col_from_last_col last_point_col_from_last_col
    (fun col '(columns, col_num) =>
      let columns := emplace_back columns col (col - 4)%Z w_fem in
      let columns :=
        emplace_back columns col (col - 2)%Z (-4.0 * w_fem - w_len) in
      let columns :=
        emplace_back columns col col (5.0 * w_fem + 2.0 * w_len + w_ref) in
      (columns, (col_num + 1)%Z)) st.

(** Lines 251-260: the last point. *)
Definition kernel_last_point (st : Columns * Z) : Columns * Z :=
  let last_point_col_from_last_col := (num_of_pos_variables_ this - 2)%Z in
  for_int last_point_col_from_last_col (num_of_pos_variables_ this)
    (fun col '(columns, col_num) =>
      let columns := emplace_back columns col (col - 4)%Z w_fem in
      let columns :=
        emplace_back columns col (col - 2)%Z (-2.0 * w_fem - w_len) in
      let columns := emplace_back columns col col (w_fem + w_len + w_ref) in
      (columns, (col_num + 1)%Z)) st.

(** Lines 201-260: [columns] and [col_num] when the [CHECK_EQ] is reached. *)
Definition kernel_columns : Columns * Z :=
  let columns : Columns := Vec.resize [] (num_of_variables_ this) [] in
  let col_num := 0%Z in
  kernel_last_point
    (kernel_second_from_last
       (kernel_interior_points
          (kernel_second_point
             (kernel_first_point (columns, col_num))))).

(** The three output vectors of the kernel, threaded through the calls. *)
Definition Csc : Set := list c_float * list c_int * list c_int.

(** Lines 267-273: one column's entries, rescaled by 2.0. *)
Definition emit_column (column : list (c_int * c_float))
           (st : list c_float * list c_int * Z)
  : list c_float * list c_int * Z :=
  fold_left (fun '(P_data, P_indices, ind_p) row_data_pair =>
               (Vec.push_back P_data (snd row_data_pair * 2.0),
                Vec.push_back P_indices (fst row_data_pair),
                (ind_p + 1)%Z))
            column st.

(** Lines 264-275. *)
Definition emit_columns (columns : Columns) (col_num : Z) (out : Csc) : Csc :=
  let '(P_data, P_indices, P_indptr) := out in
  let '(P_data, P_indices, P_indptr, ind_p) :=
    for_int 0 col_num (fun i '(P_data, P_indices, P_indptr, ind_p) =>
      let P_indptr := Vec.push_back P_indptr ind_p in
      let '(P_data, P_indices, ind_p) :=
        emit_column (Vec.get [] columns i) (P_data, P_indices, ind_p) in
      (P_data, P_indices, P_indptr, ind_p))
      (P_data, P_indices, P_indptr, 0%Z) in
  (P_data, P_indices, Vec.push_back P_indptr ind_p).

Definition CalculateKernel (out : Csc) : checked Csc :=
  (* CHECK_GT(num_of_points_, 2) *)
  if negb (num_of_points_ this >? 2)%Z then Fatal
  else
    let '(columns, col_num) := kernel_columns in
    (* CHECK_EQ(col_num, num_of_pos_variables_) *)
    if negb (col_num =? num_of_pos_variables_ this)%Z then Fatal
    else Pass (emit_columns columns col_num out).

End Kernel.

(** ** CalculateOffset *)

Section Builder.

Variable this : FemPosDeviationSqpOsqpInterface.

Local Open Scope float_scope.

(** [ref_points_[i]] and [bounds_around_refs_[i]]. *)
Definition ref_point (i : Z) : c_float * c_float :=
  Vec.get (0, 0) (ref_points_ this) i.
Definition bound_around_ref (i : Z) : c_float :=
  Vec.get 0 (bounds_around_refs_ this) i.

Definition CalculateOffset (q : list c_float) : list c_float :=
  let q := Vec.resize 0 (num_of_variables_ this) q in
  let q :=
    for_int 0 (num_of_points_ this) (fun i q =>
      let ref_point_xy := ref_point i in
      let q := Vec.vset q (2 * i)%Z
                 (-2.0 * weight_ref_deviation_ this * fst ref_point_xy) in
      Vec.vset q (2 * i + 1)%Z
               (-2.0 * weight_ref_deviation_ this * snd ref_point_xy)) q in
  for_int 0 (num_of_slack_variables_ this) (fun i q =>
    Vec.vset q (num_of_pos_variables_ this + i)%Z
             (weight_curvature_constraint_slack_var_ this)) q.

(** ** CalculateAffineConstraint *)

(** The five vectors [Solve] hands to the constraint builders. *)
Record Affine : Set := mkAffine {
  A_data : list c_float;
  A_indices : list c_int;
  A_indptr : list c_int;
  lower_bounds : list c_float;
  upper_bounds : list c_float
}.

(** Lines 294-301: one unit entry per variable column. *)
Definition affine_identity (a : list c_float * list c_int * list c_int)
  : list c_float * list c_int * list c_int :=
  let '(A_data, A_indices, A_indptr) := a in
  let '(A_data, A_indices, A_indptr, ind_A) :=
    for_int 0 (num_of_variables_ this)
      (fun i '(A_data, A_indices, A_indptr, ind_A) =>
         (Vec.push_back A_data 1.0,
          Vec.push_back A_indices i,
          Vec.push_back A_indptr ind_A,
          (ind_A + 1)%Z))
      (A_data, A_indices, A_indptr, 0%Z) in
  (A_data, A_indices, Vec.push_back A_indptr ind_A).

(** Lines 306-312: the box of every point; the state is
    [(lower_bounds, upper_bounds)]. *)
Definition affine_position_bounds (lu : list c_float * list c_float)
  : list c_float * list c_float :=
  for_int 0 (num_of_points_ this) (fun i '(lower, upper) =>
    let ref_point_xy := ref_point i in
    let upper := Vec.vset upper (i * 2)%Z
                   (fst ref_point_xy + bound_around_ref i) in
    let upper := Vec.vset upper (i * 2 + 1)%Z
                   (snd ref_point_xy + bound_around_ref i) in
    let lower := Vec.vset lower (i * 2)%Z
                   (fst ref_point_xy - bound_around_ref i) in
    let lower := Vec.vset lower (i * 2 + 1)%Z
                   (snd ref_point_xy - bound_around_ref i) in
    (lower, upper)) lu.

(** Lines 314-318: the slack loop; it writes position [i]. *)
Definition affine_slack_bounds (lu : list c_float * list c_float)
  : list c_float * list c_float :=
  for_int 0 (num_of_slack_variables_ this) (fun i '(lower, upper) =>
    let upper := Vec.vset upper i 1.0 in
    let lower := Vec.vset lower i (-1e20) in
    (lower, upper)) lu.

Definition CalculateAffineConstraint (a : Affine) : Affine :=
  let '(A_data, A_indices, A_indptr) :=
    affine_identity (A_data a, A_indices a, A_indptr a) in
  let lower := Vec.resize 0 (num_of_constraints_ this) (lower_bounds a) in
  let upper := Vec.resize 0 (num_of_constraints_ this) (upper_bounds a) in
  let '(lower, upper) :=
    affine_slack_bounds (affine_position_bounds (lower, upper)) in
  mkAffine A_data A_indices A_indptr lower upper.

(** ** UpdateAffineConstraint: the body is empty. *)
Definition UpdateAffineConstraint (a : Affine) : Affine := a.

(** ** SetPrimalWarmStart *)
Definition SetPrimalWarmStart (primal_warm_start : list c_float)
  : checked (list c_float) :=
  (* CHECK_EQ(ref_points_.size(), num_of_points_) *)
  if negb (Z.of_nat (length (ref_points_ this)) =? num_of_points_ this)%Z
  then Fatal
  else
    let w := Vec.resize 0 (num_of_variables_ this) primal_warm_start in
    Pass (for_int 0 (Z.of_nat (length (ref_points_ this))) (fun i w =>
            let w := Vec.vset w (2 * i)%Z (fst (ref_point i)) in
            Vec.vset w (2 * i + 1)%Z (snd (ref_point i))) w).

(** ** UpdatePrimalWarmStart: the same body as [SetPrimalWarmStart]; no
    function of the file calls it. *)
Definition UpdatePrimalWarmStart (primal_warm_start : list c_float)
  : checked (list c_float) :=
  (* CHECK_EQ(ref_points_.size(), num_of_points_) *)
  if negb (Z.of_nat (length (ref_points_ this)) =? num_of_points_ this)%Z
  then Fatal
  else
    let w := Vec.resize 0 (num_of_variables_ this) primal_warm_start in
    Pass (for_int 0 (Z.of_nat (length (ref_points_ this))) (fun i w =>
            let w := Vec.vset w (2 * i)%Z (fst (ref_point i)) in
            Vec.vset w (2 * i + 1)%Z (snd (ref_point i))) w).

End Builder.

(** ** The OSQP boundary *)

(** [csc_matrix(m, n, nzmax, x, i, p)]. *)
Record csc : Set := mkCsc {
  csc_m : Z;
  csc_n : Z;
  csc_nzmax : Z;
  csc_x : list c_float;
  csc_i : list c_int;
  csc_p : list c_int
}.

Record OSQPData : Set := mkData {
  data_n : Z;
  data_m : Z;
  data_P : csc;
  data_q : list c_float;
  data_A : csc;
  data_l : list c_float;
  data_u : list c_float
}.

(** The settings [Solve] overrides after [osqp_set_default_settings]. *)
Record OSQPSettings : Set := mkSettings {
  settings_max_iter : Z;
  settings_time_limit : c_float;
  settings_verbose : bool;
  settings_scaled_termination : bool;
  settings_warm_start : bool
}.

(** The entry points of the library and the fields of [OSQPWorkspace] the
    source reads: [work->info->status_val], [work->info->obj_val] and
    [work->solution->x]. *)
Record OSQP (OSQPWorkspace : Type) : Type := mkOSQP {
  osqp_setup : OSQPData -> OSQPSettings -> OSQPWorkspace;
  osqp_warm_start_x : OSQPWorkspace -> list c_float -> OSQPWorkspace;
  osqp_solve : OSQPWorkspace -> OSQPWorkspace;
  osqp_update_A : OSQPWorkspace -> list c_float -> Z -> OSQPWorkspace;
  osqp_update_bounds :
    OSQPWorkspace -> list c_float -> list c_float -> OSQPWorkspace;
  info_status_val : OSQPWorkspace -> c_int;
  info_obj_val : OSQPWorkspace -> c_float;
  solution_x : OSQPWorkspace -> list c_float
}.
Arguments osqp_setup {OSQPWorkspace} _ _ _.
Arguments osqp_warm_start_x {OSQPWorkspace} _ _ _.
Arguments osqp_solve {OSQPWorkspace} _ _.
Arguments osqp_update_A {OSQPWorkspace} _ _ _ _.
Arguments osqp_update_bounds {OSQPWorkspace} _ _ _ _.
Arguments info_status_val {OSQPWorkspace} _ _.
Arguments info_obj_val {OSQPWorkspace} _ _.
Arguments solution_x {OSQPWorkspace} _ _.

(** The messages of the [AERROR] lines. *)
Inductive Diagnostic : Set :=
| reference_points_empty
| ref_points_and_bounds_size_not_equal
| ref_points_size_smaller_than_3
| ref_points_size_too_large
| failed_optimization_status
| initial_iteration_solving_fails
| iteration_solving_fails (itr sqp_max_iter : Z)
| objective_not_converged (eps sqp_jtol : c_float).

(** What a run of [Solve] does, in order: the builders it runs, the
    allocations, the calls into OSQP (a solve with what the solver reported)
    and the error lines. *)
Inductive Call : Set :=
| call_CalculateKernel
| call_CalculateOffset
| call_CalculateAffineConstraint
| call_SetPrimalWarmStart
| call_UpdateAffineConstraint
| call_c_malloc
| call_csc_matrix (M : csc)
| call_osqp_set_default_settings
| call_osqp_setup (data : OSQPData) (settings : OSQPSettings)
| call_osqp_warm_start_x (x : list c_float)
| call_osqp_solve (status_val : c_int) (obj_val : c_float)
                  (solution : list c_float)
| call_osqp_update_A (Ax_new : list c_float) (A_n : Z)
| call_osqp_update_bounds (l_new u_new : list c_float)
| call_osqp_cleanup
| call_c_free
| AERROR (d : Diagnostic).

(** How a run ends: [Solve] returns its [bool], a [CHECK] kills the process,
    or the loop is still running when the fuel of the model is spent. *)
Inductive Outcome : Set :=
| Returned (b : bool)
| Aborted
| OutOfFuel.

(** The five teardown calls of every exit path after [osqp_setup]:
    [osqp_cleanup(work)], [c_free(data->A)], [c_free(data->P)],
    [c_free(data)], [c_free(settings)]. *)
Definition release : list Call :=
  [call_osqp_cleanup; call_c_free; call_c_free; call_c_free; call_c_free].

Section Solve.

Variable OSQPWorkspace : Type.
Variable osqp : OSQP OSQPWorkspace.

(** ** OptimizeWithOsqp *)

(** Lines 366-372: "Extract primal results". *)
Definition extract_primal (this : FemPosDeviationSqpOsqpInterface)
           (solution : list c_float) : FemPosDeviationSqpOsqpInterface :=
  let x := Vec.resize 0%float (num_of_points_ this) (x_ this) in
  let y := Vec.resize 0%float (num_of_points_ this) (y_ this) in
  let '(x, y) :=
    for_int 0 (num_of_points_ this) (fun i '(x, y) =>
      let index := i * 2 in
      (Vec.vset x i (Vec.get 0%float solution index),
       Vec.vset y i (Vec.get 0%float solution (index + 1)))) (x, y) in
  set_result this x y.

Definition OptimizeWithOsqp (this : FemPosDeviationSqpOsqpInterface)
           (primal_warm_start : list c_float) (work : OSQPWorkspace)
           (trace : list Call)
  : bool * FemPosDeviationSqpOsqpInterface * OSQPWorkspace * list Call :=
  let work := osqp_warm_start_x osqp work primal_warm_start in
  let trace := trace ++ [call_osqp_warm_start_x primal_warm_start] in
  (* Solve Problem *)
  let work := osqp_solve osqp work in
  let status := info_status_val osqp work in
  let trace :=
    trace ++ [call_osqp_solve status (info_obj_val osqp work)
                              (solution_x osqp work)] in
  if status <? 0 then
    (false, this, work, trace ++ [AERROR failed_optimization_status])
  else if negb (status =? 1) && negb (status =? 2) then
    (false, this, work, trace ++ [AERROR failed_optimization_status])
  else
    (true, extract_primal this (solution_x osqp work), work, trace).

(** ** Solve *)

(** The locals of the sequential part of [Solve] (lines 126-129) together
    with the object, the workspace and the trace. *)
Record Sqp : Type := mkSqp {
  sqp_this : FemPosDeviationSqpOsqpInterface;
  sqp_work : OSQPWorkspace;
  sqp_trace : list Call;
  sqp_affine : Affine;
  itr : Z;
  iterative_solve_res : bool;
  eps : c_float;
  last_jvalue : c_float
}.

(** One pass through the body of [while (itr < sqp_max_iter_)], lines
    132-163: either [Solve] returns, or the loop goes on with the new
    locals.  Nothing in the body assigns [itr]. *)
Definition sqp_iteration (primal_warm_start : list c_float) (s : Sqp)
  : (bool * FemPosDeviationSqpOsqpInterface * list Call) + Sqp :=
  let this := sqp_this s in
  (* linearize and update matrices *)
  let a := UpdateAffineConstraint (sqp_affine s) in
  let trace := sqp_trace s ++ [call_UpdateAffineConstraint] in
  let work :=
    osqp_update_A osqp (sqp_work s) (A_data a)
                  (Z.of_nat (length (A_data a))) in
  let trace :=
    trace ++ [call_osqp_update_A (A_data a) (Z.of_nat (length (A_data a)))] in
  let work := osqp_update_bounds osqp work (lower_bounds a) (upper_bounds a) in
  let trace :=
    trace ++ [call_osqp_update_bounds (lower_bounds a) (upper_bounds a)] in
  let '(res, this, work, trace) :=
    OptimizeWithOsqp this primal_warm_start work trace in
  if negb res then
    inl (false, this,
         trace ++ [AERROR (iteration_solving_fails (itr s) (sqp_max_iter_ this))]
               ++ release)
  else
    (* check objective meets sqp_jtol, if return true *)
    let eps :=
      abs ((last_jvalue s - info_obj_val osqp work) / last_jvalue s)%float in
    if (eps <? sqp_jtol_ this)%float then
      inl (true, this, trace ++ release)
    else
      inr {| sqp_this := this;
             sqp_work := work;
             sqp_trace := trace;
             sqp_affine := a;
             itr := itr s;
             iterative_solve_res := res;
             eps := eps;
             last_jvalue := info_obj_val osqp work |}.

(** The workspace after the solve of one pass of the loop. *)
Definition solved_in_pass (w : list c_float) (s : Sqp)
  : OSQPWorkspace :=
  let a := sqp_affine s in
  osqp_solve osqp
    (osqp_warm_start_x osqp
       (osqp_update_bounds osqp
          (osqp_update_A osqp (sqp_work s) (A_data a)
                         (Z.of_nat (length (A_data a))))
          (lower_bounds a) (upper_bounds a))
       w).

(** Lines 131-173: the loop and the exit below it. *)
Fixpoint sqp_loop (fuel : nat) (primal_warm_start : list c_float) (s : Sqp)
  : Outcome * FemPosDeviationSqpOsqpInterface * list Call :=
  match fuel with
  | O => (OutOfFuel, sqp_this s, sqp_trace s)
  | S fuel' =>
      if itr s <? sqp_max_iter_ (sqp_this s) then
        match sqp_iteration primal_warm_start s with
        | inl (b, this, trace) => (Returned b, this, trace)
        | inr s' => sqp_loop fuel' primal_warm_start s'
        end
      else
        (Returned false, sqp_this s,
         sqp_trace s
           ++ [AERROR (objective_not_converged (eps s)
                                               (sqp_jtol_ (sqp_this s)))]
           ++ release)
  end.

(** Lines 87-97: "Load matrices and vectors into OSQPData". *)
Definition load_data (this : FemPosDeviationSqpOsqpInterface) (P : Csc)
           (q : list c_float) (a : Affine) : OSQPData :=
  let '(P_data, P_indices, P_indptr) := P in
  let n := num_of_variables_ this in
  let m := num_of_constraints_ this in
  {| data_n := n;
     data_m := m;
     data_P := mkCsc n n (Z.of_nat (length P_data)) P_data P_indices P_indptr;
     data_q := q;
     data_A := mkCsc m n (Z.of_nat (length (A_data a)))
                     (A_data a) (A_indices a) (A_indptr a);
     data_l := lower_bounds a;
     data_u := upper_bounds a |}.

(** Lines 99-107: "Define osqp solver settings". *)
Definition load_settings (this : FemPosDeviationSqpOsqpInterface)
  : OSQPSettings :=
  {| settings_max_iter := max_iter_ this;
     settings_time_limit := time_limit_ this;
     settings_verbose := verbose_ this;
     settings_scaled_termination := scaled_termination_ this;
     settings_warm_start := warm_start_ this |}.

Definition Solve (fuel : nat) (this : FemPosDeviationSqpOsqpInterface)
  : Outcome * FemPosDeviationSqpOsqpInterface * list Call :=
  (* Sanity Check *)
  if (length (ref_points_ this) =? 0)%nat then
    (Returned false, this, [AERROR reference_points_empty])
  else if negb (length (ref_points_ this)
                =? length (bounds_around_refs_ this))%nat then
    (Returned false, this, [AERROR ref_points_and_bounds_size_not_equal])
  else if (length (ref_points_ this) <? 3)%nat then
    (Returned false, this, [AERROR ref_points_size_smaller_than_3])
  else if Z.of_nat (length (ref_points_ this)) >? INT_MAX then
    (Returned false, this, [AERROR ref_points_size_too_large])
  else
    (* Calculate optimization states definitions *)
    let this := set_problem_definitions this in
    (* Calculate kernel *)
    let trace := [call_CalculateKernel] in
    match CalculateKernel this ([], [], []) with
    | Fatal => (Aborted, this, trace)
    | Pass P =>
        (* Calculate offset *)
        let q := CalculateOffset this [] in
        let trace := trace ++ [call_CalculateOffset] in
        (* Calculate affine constraints *)
        let a := CalculateAffineConstraint this (mkAffine [] [] [] [] []) in
        let trace := trace ++ [call_CalculateAffineConstraint] in
        (* Set primal warm start *)
        let trace := trace ++ [call_SetPrimalWarmStart] in
        match SetPrimalWarmStart this [] with
        | Fatal => (Aborted, this, trace)
        | Pass primal_warm_start =>
            (* Load matrices and vectors into OSQPData *)
            let data := load_data this P q a in
            let trace :=
              trace ++ [call_c_malloc; call_csc_matrix (data_P data);
                        call_csc_matrix (data_A data)] in
            (* Define osqp solver settings *)
            let settings := load_settings this in
            let trace :=
              trace ++ [call_c_malloc; call_osqp_set_default_settings] in
            (* Define osqp workspace *)
            let work := osqp_setup osqp data settings in
            let trace := trace ++ [call_osqp_setup data settings] in
            (* Initial solution *)
            let '(initial_solve_res, this, work, trace) :=
              OptimizeWithOsqp this primal_warm_start work trace in
            if negb initial_solve_res then
              (Returned false, this,
               trace ++ [AERROR initial_iteration_solving_fails] ++ release)
            else
              (* Sequential solution *)
              sqp_loop fuel primal_warm_start
                {| sqp_this := this;
                   sqp_work := work;
                   sqp_trace := trace;
                   sqp_affine := a;
                   itr := 1;
                   iterative_solve_res := true;
                   eps := 1.0%float;
                   last_jvalue := info_obj_val osqp work |}
        end
    end.

End Solve.

Arguments mkSqp {OSQPWorkspace}.
Arguments sqp_this {OSQPWorkspace} s.
Arguments sqp_work {OSQPWorkspace} s.
Arguments sqp_trace {OSQPWorkspace} s.
Arguments sqp_affine {OSQPWorkspace} s.
Arguments itr {OSQPWorkspace} s.
Arguments iterative_solve_res {OSQPWorkspace} s.
Arguments eps {OSQPWorkspace} s.
Arguments last_jvalue {OSQPWorkspace} s.
Arguments Solve {OSQPWorkspace} osqp fuel this.
Arguments sqp_loop {OSQPWorkspace} osqp fuel primal_warm_start s.
Arguments solved_in_pass {OSQPWorkspace} osqp w s.
Arguments sqp_iteration {OSQPWorkspace} osqp primal_warm_start s.
Arguments OptimizeWithOsqp {OSQPWorkspace} osqp this primal_warm_start work trace.

(** ** Reading the problem and the trace *)

(** The vectors [Solve] obtains from [CalculateAffineConstraint]: it passes
    five empty vectors, after the problem definitions are set. *)
Definition initial_affine (this : FemPosDeviationSqpOsqpInterface) : Affine :=
  CalculateAffineConstraint (set_problem_definitions this)
                            (mkAffine [] [] [] [] []).

(** The vector [Solve] obtains from [SetPrimalWarmStart]. *)
Definition initial_warm_start (this : FemPosDeviationSqpOsqpInterface)
  : list c_float :=
  match SetPrimalWarmStart (set_problem_definitions this) [] with
  | Pass primal_warm_start => primal_warm_start
  | Fatal => []
  end.

(** The stored entries of column [j] of a compressed-sparse-column matrix
    [(x, i, p)], as OSQP reads it: the positions [p[j] .. p[j+1] - 1] of [i]
    (row) and [x] (value). *)
Definition csc_column (x : list c_float) (i p : list c_int) (j : Z)
  : list (c_int * c_float) :=
  let lo := Vec.get 0 p j in
  let hi := Vec.get 0 p (j + 1) in
  map (fun k => (Vec.get 0 i (lo + Z.of_nat k),
                 Vec.get 0%float x (lo + Z.of_nat k)))
      (seq 0 (Z.to_nat (hi - lo))).

(** The entries of the columns [0 .. k-1] of [columns], in storage order. *)
Definition stored_before (columns : Columns) (k : nat)
  : list (c_int * c_float) :=
  concat (map (fun j => Vec.get [] columns (Z.of_nat j)) (seq 0 k)).

(** Column [j] of the position block of the kernel as the five loops of
    [CalculateKernel] write it from four points on (the picture in its
    comment, upper triangle, two columns per point), with the values
    rescaled by [2.0] as lines 268-270 do. *)
Definition kernel_band (this : FemPosDeviationSqpOsqpInterface) (j : Z)
  : list (c_int * c_float) :=
  let N := Z.of_nat (length (ref_points_ this)) in
  let X := weight_fem_pos_deviation_ this in
  let Y := weight_path_length_ this in
  let W := weight_ref_deviation_ this in
  if j <? 2 then
    [(j, ((X + Y + W) * 2.0)%float)]
  else if j <? 4 then
    [(j - 2, ((-2.0 * X - Y) * 2.0)%float);
     (j, ((5.0 * X + 2.0 * Y + W) * 2.0)%float)]
  else if j <? 2 * N - 4 then
    [(j - 4, (X * 2.0)%float);
     (j - 2, ((-4.0 * X - Y) * 2.0)%float);
     (j, ((6.0 * X + 2.0 * Y + W) * 2.0)%float)]
  else if j <? 2 * N - 2 then
    [(j - 4, (X * 2.0)%float);
     (j - 2, ((-4.0 * X - Y) * 2.0)%float);
     (j, ((5.0 * X + 2.0 * Y + W) * 2.0)%float)]
  else
    [(j - 4, (X * 2.0)%float);
     (j - 2, ((-2.0 * X - Y) * 2.0)%float);
     (j, ((X + Y + W) * 2.0)%float)].

(** The number of entries stored before column [j] of that block. *)
Definition kernel_band_start (j : Z) : Z :=
  if j <=? 2 then j else if j <=? 4 then 2 * j - 2 else 3 * j - 6.

(** The vectors given to [osqp_warm_start_x], in order. *)
Definition warm_starts (trace : list Call) : list (list c_float) :=
  flat_map (fun c => match c with
                     | call_osqp_warm_start_x x => [x]
                     | _ => []
                     end) trace.

(** The primal solutions the solver reported, in order. *)
Definition solutions (trace : list Call) : list (list c_float) :=
  flat_map (fun c => match c with
                     | call_osqp_solve _ _ solution => [solution]
                     | _ => []
                     end) trace.

(** The objective values the solver reported, in order. *)
Definition objectives (trace : list Call) : list c_float :=
  flat_map (fun c => match c with
                     | call_osqp_solve _ obj_val _ => [obj_val]
                     | _ => []
                     end) trace.

(** The status values the solver reported, in order. *)
Definition statuses (trace : list Call) : list c_int :=
  flat_map (fun c => match c with
                     | call_osqp_solve status_val _ _ => [status_val]
                     | _ => []
                     end) trace.

(** The vector the solver holds for its next solve after the calls of
    [trace], when it held [pending] before them: the one of the last
    [osqp_warm_start_x] since the last solve, [None] when there was no such
    call.  A solve uses it up. *)
Fixpoint pending_warm_start (pending : option (list c_float))
         (trace : list Call) : option (list c_float) :=
  match trace with
  | [] => pending
  | call_osqp_warm_start_x x :: rest => pending_warm_start (Some x) rest
  | call_osqp_solve _ _ _ :: rest => pending_warm_start None rest
  | _ :: rest => pending_warm_start pending rest
  end.

(** For each solve of [trace], in order, the vector the solver was given for
    it: the one of the last [osqp_warm_start_x] between the solve before it
    and the solve itself, [None] when the solver was given none there. *)
Fixpoint warm_start_of_each_solve (pending : option (list c_float))
         (trace : list Call) : list (option (list c_float)) :=
  match trace with
  | [] => []
  | call_osqp_warm_start_x x :: rest => warm_start_of_each_solve (Some x) rest
  | call_osqp_solve _ _ _ :: rest =>
      pending :: warm_start_of_each_solve None rest
  | _ :: rest => warm_start_of_each_solve pending rest
  end.

(** Every solve of [trace] was given [w], and [osqp_warm_start_x] was called
    for nothing else. *)
Definition every_solve_starts_from (w : list c_float) (trace : list Call)
  : Prop :=
  warm_start_of_each_solve None trace
  = repeat (Some w) (length (solutions trace)) /\
  warm_starts trace = repeat w (length (solutions trace)).

(** The two status values [OptimizeWithOsqp] accepts. *)
Definition accepted (status : c_int) : Prop := status = 1 \/ status = 2.

(** A call that pushes constraint data into the solver pushes the data of
    [a]. *)
Definition same_constraint_data (a : Affine) (c : Call) : Prop :=
  match c with
  | call_osqp_update_A Ax_new A_n =>
      Ax_new = A_data a /\ A_n = Z.of_nat (length (A_data a))
  | call_osqp_update_bounds l_new u_new =>
      l_new = lower_bounds a /\ u_new = upper_bounds a
  | _ => True
  end.

(** A call that warm-starts the solver gives it [w]. *)
Definition warm_started_with (w : list c_float) (c : Call) : Prop :=
  match c with
  | call_osqp_warm_start_x x => x = w
  | _ => True
  end.

Definition carries (a : Affine) (w : list c_float) (c : Call) : Prop :=
  same_constraint_data a c /\ warm_started_with w c.

(** Two objects hold the same request: the fields a caller sets before
    [Solve] (points, radii, weights, OSQP and SQP settings). *)
Definition same_request (a b : FemPosDeviationSqpOsqpInterface) : Prop :=
  ref_points_ a = ref_points_ b /\
  bounds_around_refs_ a = bounds_around_refs_ b /\
  weight_fem_pos_deviation_ a = weight_fem_pos_deviation_ b /\
  weight_path_length_ a = weight_path_length_ b /\
  weight_ref_deviation_ a = weight_ref_deviation_ b /\
  weight_curvature_constraint_slack_var_ a
  = weight_curvature_constraint_slack_var_ b /\
  max_iter_ a = max_iter_ b /\
  time_limit_ a = time_limit_ b /\
  verbose_ a = verbose_ b /\
  scaled_termination_ a = scaled_termination_ b /\
  warm_start_ a = warm_start_ b /\
  sqp_max_iter_ a = sqp_max_iter_ b /\
  sqp_jtol_ a = sqp_jtol_ b.

(** Two objects hold the same problem definitions. *)
Definition same_definitions (a b : FemPosDeviationSqpOsqpInterface) : Prop :=
  num_of_points_ a = num_of_points_ b /\
  num_of_pos_variables_ a = num_of_pos_variables_ b /\
  num_of_slack_variables_ a = num_of_slack_variables_ b /\
  num_of_variables_ a = num_of_variables_ b /\
  num_of_variable_constraints_ a = num_of_variable_constraints_ b /\
  num_of_curvature_constraints_ a = num_of_curvature_constraints_ b /\
  num_of_constraints_ a = num_of_constraints_ b.

(** A call that gives nothing back: neither [osqp_cleanup] nor [c_free]. *)
Definition holds_resources (c : Call) : Prop :=
  match c with
  | call_osqp_cleanup | call_c_free => False
  | _ => True
  end.

(** The kernel, the problem data and the workspace after the initial solve
    of a run of [Solve] that gets past [CalculateKernel]. *)
Definition initial_kernel (this : FemPosDeviationSqpOsqpInterface) : Csc :=
  match CalculateKernel (set_problem_definitions this) ([], [], []) with
  | Pass P => P
  | Fatal => ([], [], [])
  end.

Definition initial_data (this : FemPosDeviationSqpOsqpInterface) : OSQPData :=
  load_data (set_problem_definitions this) (initial_kernel this)
            (CalculateOffset (set_problem_definitions this) [])
            (initial_affine this).

Definition initial_work {OSQPWorkspace : Type} (osqp : OSQP OSQPWorkspace)
           (this : FemPosDeviationSqpOsqpInterface) : OSQPWorkspace :=
  osqp_solve osqp
    (osqp_warm_start_x osqp
       (osqp_setup osqp (initial_data this)
                   (load_settings (set_problem_definitions this)))
       (initial_warm_start this)).

(** What [Solve] does before the initial solve, from the builders to
    [osqp_setup]. *)
Definition setup_trace (this : FemPosDeviationSqpOsqpInterface) : list Call :=
  [call_CalculateKernel; call_CalculateOffset;
   call_CalculateAffineConstraint; call_SetPrimalWarmStart;
   call_c_malloc; call_csc_matrix (data_P (initial_data this));
   call_csc_matrix (data_A (initial_data this));
   call_c_malloc; call_osqp_set_default_settings;
   call_osqp_setup (initial_data this)
                   (load_settings (set_problem_definitions this))].

(** The trace of a pass of the loop up to and including its solve. *)
Definition pass_trace {OSQPWorkspace : Type} (osqp : OSQP OSQPWorkspace)
           (w : list c_float) (s : Sqp OSQPWorkspace) : list Call :=
  let a := sqp_affine s in
  let solved := solved_in_pass osqp w s in
  sqp_trace s
    ++ [call_UpdateAffineConstraint;
        call_osqp_update_A (A_data a) (Z.of_nat (length (A_data a)));
        call_osqp_update_bounds (lower_bounds a) (upper_bounds a);
        call_osqp_warm_start_x w;
        call_osqp_solve (info_status_val osqp solved)
                        (info_obj_val osqp solved)
                        (solution_x osqp solved)].

(** The locals with which [Solve] enters its loop after a successful
    initial solve. *)
Definition entering_the_loop {OSQPWorkspace : Type} (osqp : OSQP OSQPWorkspace)
           (this : FemPosDeviationSqpOsqpInterface) : Sqp OSQPWorkspace :=
  let solved := initial_work osqp this in
  {| sqp_this := extract_primal (set_problem_definitions this)
                                (solution_x osqp solved);
     sqp_work := solved;
     sqp_trace :=
       setup_trace this
         ++ [call_osqp_warm_start_x (initial_warm_start this);
             call_osqp_solve (info_status_val osqp solved)
                             (info_obj_val osqp solved)
                             (solution_x osqp solved)];
     sqp_affine := initial_affine this;
     itr := 1;
     iterative_solve_res := true;
     eps := 1.0%float;
     last_jvalue := info_obj_val osqp solved |}.

(** ** The words of the specification *)

(** "Re-solve, warm-started from the previous solution": the solve after
    the [k]-th one is warm-started from the solution of the [k]-th. *)
Definition warm_started_from_previous_solution (trace : list Call) : Prop :=
  forall k x,
    nth_error (warm_starts trace) (S k) = Some x ->
    nth_error (solutions trace) k = Some x.

(** "[eps = |prev_obj - cur_obj| / prev_obj]". *)
Definition spec_eps (prev_obj cur_obj : c_float) : c_float :=
  (abs (prev_obj - cur_obj) / prev_obj)%float.

(** ** Requests and solvers used as concrete inputs *)

(** The request with reference points [l], bound radius [0.1] around each,
    and the weights [w_fem = 1], [w_len = 1], [w_ref = 1],
    [w_slack = 0.01]; at most 100 passes, tolerance [0.0001]. *)
Definition pts (l : list (c_float * c_float)) : FemPosDeviationSqpOsqpInterface :=
  {| ref_points_ := l;
     bounds_around_refs_ := map (fun _ => 0.1%float) l;
     weight_fem_pos_deviation_ := 1%float;
     weight_path_length_ := 1%float;
     weight_ref_deviation_ := 1%float;
     weight_curvature_constraint_slack_var_ := 0.01%float;
     max_iter_ := 4000;
     time_limit_ := 0%float;
     verbose_ := false;
     scaled_termination_ := true;
     warm_start_ := true;
     sqp_max_iter_ := 100;
     sqp_jtol_ := 0.0001%float;
     num_of_points_ := 0;
     num_of_pos_variables_ := 0;
     num_of_slack_variables_ := 0;
     num_of_variables_ := 0;
     num_of_variable_constraints_ := 0;
     num_of_curvature_constraints_ := 0;
     num_of_constraints_ := 0;
     x_ := [];
     y_ := [] |}.

(** Four reference points at the origin. *)
Definition origin4 : FemPosDeviationSqpOsqpInterface :=
  pts [(0, 0); (0, 0); (0, 0); (0, 0)]%float.

(** Four reference points on a line, and a point of their boxes that pulls
    the two ends in. *)
Definition line4 : FemPosDeviationSqpOsqpInterface :=
  pts [(0, 0); (1, 0); (2, 0); (3, 0)]%float.
Definition line4_solution : list c_float :=
  [0.05; 0; 1; 0; 2; 0; 2.95; 0; 0; 0]%float.

(** A solver that reports "solved" at every solve, with the same point
    [solution] every time and with the objective value [objs k] at its
    [k]-th solve ([k = 1] is the initial solve of [Solve]).  Its workspace
    is the number of solves run so far. *)
Definition scripted_solver (objs : nat -> c_float) (solution : list c_float)
  : OSQP nat :=
  {| osqp_setup := fun _ _ => O;
     osqp_warm_start_x := fun w _ => w;
     osqp_solve := S;
     osqp_update_A := fun w _ _ => w;
     osqp_update_bounds := fun w _ _ => w;
     info_status_val := fun _ => 1;
     info_obj_val := objs;
     solution_x := fun _ => solution |}.

(** The solver that reports the all-zero point and the objective value 0:
    for reference points at the origin that is the optimum of the problem
    [Solve] sets up. *)
Definition zero_solver (n : nat) : OSQP nat :=
  scripted_solver (fun _ => 0%float) (repeat 0%float n).

(** The value of the objective of [line4] at [line4_solution] is about
    [-11.185]; this solver reports it at every solve. *)
Definition line4_solver : OSQP nat :=
  scripted_solver (fun _ => (-11.185)%float) line4_solution.

(** Objective values [-1] at the initial solve and [-2] at every later one. *)
Definition minus_one_then_minus_two (k : nat) : c_float :=
  if (k <=? 1)%nat then (-1)%float else (-2)%float.

(** The locals of [Solve] on [line4] when the loop is entered, after an
    initial solve that reported [line4_solution] with objective value [-1]. *)
Definition line4_entering_the_loop : Sqp nat :=
  {| sqp_this := extract_primal (set_problem_definitions line4) line4_solution;
     sqp_work := 1%nat;
     sqp_trace := [];
     sqp_affine := initial_affine line4;
     itr := 1;
     iterative_solve_res := true;
     eps := 1%float;
     last_jvalue := (-1)%float |}.

(** A solver that reports the status [status] at every solve, with the
    all-zero point and objective value 0. *)
Definition reporting_solver (status : c_int) (n : nat) : OSQP nat :=
  {| osqp_setup := fun _ _ => O;
     osqp_warm_start_x := fun w _ => w;
     osqp_solve := S;
     osqp_update_A := fun w _ _ => w;
     osqp_update_bounds := fun w _ _ => w;
     info_status_val := fun _ => status;
     info_obj_val := fun _ => 0%float;
     solution_x := fun _ => repeat 0%float n |}.

(** The request [this] with [sqp_max_iter_] set to [n]. *)
Definition with_sqp_max_iter (n : Z) (this : FemPosDeviationSqpOsqpInterface)
  : FemPosDeviationSqpOsqpInterface :=
  {| ref_points_ := ref_points_ this;
     bounds_around_refs_ := bounds_around_refs_ this;
     weight_fem_pos_deviation_ := weight_fem_pos_deviation_ this;
     weight_path_length_ := weight_path_length_ this;
     weight_ref_deviation_ := weight_ref_deviation_ this;
     weight_curvature_constraint_slack_var_ :=
       weight_curvature_constraint_slack_var_ this;
     max_iter_ := max_iter_ this;
     time_limit_ := time_limit_ this;
     verbose_ := verbose_ this;
     scaled_termination_ := scaled_termination_ this;
     warm_start_ := warm_start_ this;
     sqp_max_iter_ := n;
     sqp_jtol_ := sqp_jtol_ this;
     num_of_points_ := num_of_points_ this;
     num_of_pos_variables_ := num_of_pos_variables_ this;
     num_of_slack_variables_ := num_of_slack_variables_ this;
     num_of_variables_ := num_of_variables_ this;
     num_of_variable_constraints_ := num_of_variable_constraints_ this;
     num_of_curvature_constraints_ := num_of_curvature_constraints_ this;
     num_of_constraints_ := num_of_constraints_ this;
     x_ := x_ this;
     y_ := y_ this |}.

(** The four error lines of the validation of [Solve]. *)
Definition validation_error (d : Diagnostic) : Prop :=
  match d with
  | reference_points_empty
  | ref_points_and_bounds_size_not_equal
  | ref_points_size_smaller_than_3
  | ref_points_size_too_large => True
  | _ => False
  end.

(** A call other than the "objective not converged" error line. *)
Definition not_the_convergence_error (c : Call) : Prop :=
  match c with
  | AERROR (objective_not_converged _ _) => False
  | _ => True
  end.

(** * Properties *)

(** ** Vectors and loops *)

Section VecFacts.

Context {A : Type}.
Implicit Types (v : list A) (a d : A).

Lemma upd_length v n a : length (Vec.upd v n a) = length v.
Proof.
  revert n; induction v as [|h t IH]; intros [|n]; simpl; auto.
Qed.

Lemma nth_error_upd_eq v n a :
  (n < length v)%nat -> nth_error (Vec.upd v n a) n = Some a.
Proof.
  revert n; induction v as [|h t IH]; intros [|n] Hn; simpl in *;
    try lia; auto.
  apply IH; lia.
Qed.

Lemma nth_error_upd_neq v n m a :
  n <> m -> nth_error (Vec.upd v n a) m = nth_error v m.
Proof.
  revert n m; induction v as [|h t IH]; intros [|n] [|m] Hnm; simpl;
    try congruence.
  apply IH; congruence.
Qed.

Lemma vset_length v i a : length (Vec.vset v i a) = length v.
Proof.
  unfold Vec.vset; destruct (i <? 0); auto using upd_length.
Qed.

Lemma nth_error_vset_eq v i a :
  0 <= i < Z.of_nat (length v) ->
  nth_error (Vec.vset v i a) (Z.to_nat i) = Some a.
Proof.
  intros Hi; unfold Vec.vset.
  destruct (Z.ltb_spec i 0); [lia|].
  apply nth_error_upd_eq; lia.
Qed.

Lemma nth_error_vset_neq v i m a :
  i <> Z.of_nat m -> nth_error (Vec.vset v i a) m = nth_error v m.
Proof.
  intros Hi; unfold Vec.vset.
  destruct (Z.ltb_spec i 0); auto.
  apply nth_error_upd_neq; lia.
Qed.

Lemma resize_nil_length d n : length (Vec.resize d n []) = Z.to_nat n.
Proof.
  unfold Vec.resize; rewrite firstn_nil; simpl.
  rewrite repeat_length; lia.
Qed.

Lemma nth_error_resize_nil d n m :
  (m < Z.to_nat n)%nat -> nth_error (Vec.resize d n []) m = Some d.
Proof.
  intros Hm; unfold Vec.resize; rewrite firstn_nil; simpl.
  rewrite Nat.sub_0_r.
  apply nth_error_repeat; assumption.
Qed.

End VecFacts.

Section LoopFacts.

Context {S : Type}.

Lemma for_int_empty lo hi (body : Z -> S -> S) s :
  hi <= lo -> for_int lo hi body s = s.
Proof.
  intros H; unfold for_int.
  replace (Z.to_nat (hi - lo)) with 0%nat by lia; reflexivity.
Qed.

(** The usual rule of a counted loop: an invariant that holds on entry and
    is kept by every pass holds on exit, at [hi]. *)
Lemma for_int_invariant (P : Z -> S -> Prop) lo hi body s :
  lo <= hi ->
  P lo s ->
  (forall k t, lo <= k < hi -> P k t -> P (k + 1) (body k t)) ->
  P hi (for_int lo hi body s).
Proof.
  intros Hle H0 Hstep; unfold for_int.
  assert (G : forall n, lo + Z.of_nat n <= hi ->
            P (lo + Z.of_nat n)
              (fold_left (fun acc k => body (lo + Z.of_nat k) acc)
                         (seq 0 n) s)).
  { induction n as [|n IH]; intros Hn.
    - simpl; replace (lo + 0) with lo by lia; assumption.
    - rewrite seq_S, fold_left_app, Nat2Z.inj_succ.
      cbn [fold_left Nat.add].
      replace (lo + Z.succ (Z.of_nat n)) with (lo + Z.of_nat n + 1) by lia.
      apply Hstep; [lia|apply IH; lia]. }
  specialize (G (Z.to_nat (hi - lo))).
  replace (lo + Z.of_nat (Z.to_nat (hi - lo))) with hi in G by lia.
  apply G; lia.
Qed.

End LoopFacts.

(** ** CalculateAffineConstraint *)

Section AffineFacts.

Variable this : FemPosDeviationSqpOsqpInterface.

Lemma CalculateAffineConstraint_bounds a :
  let lu :=
    affine_slack_bounds this
      (affine_position_bounds this
         (Vec.resize 0%float (num_of_constraints_ this) (lower_bounds a),
          Vec.resize 0%float (num_of_constraints_ this) (upper_bounds a))) in
  lower_bounds (CalculateAffineConstraint this a) = fst lu /\
  upper_bounds (CalculateAffineConstraint this a) = snd lu.
Proof.
  unfold CalculateAffineConstraint.
  destruct (affine_identity this _) as [[d i] p].
  destruct (affine_slack_bounds this _) as [l u]; simpl; auto.
Qed.

Lemma CalculateAffineConstraint_matrix a :
  (A_data (CalculateAffineConstraint this a),
   A_indices (CalculateAffineConstraint this a),
   A_indptr (CalculateAffineConstraint this a))
  = affine_identity this (A_data a, A_indices a, A_indptr a).
Proof.
  unfold CalculateAffineConstraint.
  destruct (affine_identity this _) as [[d i] p].
  destruct (affine_slack_bounds this _) as [l u]; reflexivity.
Qed.

(** The position loop writes rows [0 .. 2 * num_of_points_ - 1] only. *)
Lemma affine_position_bounds_frame lu m :
  2 * num_of_points_ this <= Z.of_nat m ->
  nth_error (fst (affine_position_bounds this lu)) m = nth_error (fst lu) m /\
  nth_error (snd (affine_position_bounds this lu)) m = nth_error (snd lu) m.
Proof.
  intros Hm; unfold affine_position_bounds.
  destruct (Z.le_gt_cases 0 (num_of_points_ this)) as [HN|HN].
  - apply for_int_invariant with
      (P := fun (_ : Z) st =>
              nth_error (fst st) m = nth_error (fst lu) m /\
              nth_error (snd st) m = nth_error (snd lu) m); auto.
    intros k [l u] Hk [Hl Hu]; cbn [fst snd] in *.
    rewrite !nth_error_vset_neq by lia; auto.
  - rewrite for_int_empty by lia; auto.
Qed.

(** The slack loop writes rows [0 .. num_of_slack_variables_ - 1] only. *)
Lemma affine_slack_bounds_frame lu m :
  num_of_slack_variables_ this <= Z.of_nat m ->
  nth_error (fst (affine_slack_bounds this lu)) m = nth_error (fst lu) m /\
  nth_error (snd (affine_slack_bounds this lu)) m = nth_error (snd lu) m.
Proof.
  intros Hm; unfold affine_slack_bounds.
  destruct (Z.le_gt_cases 0 (num_of_slack_variables_ this)) as [HN|HN].
  - apply for_int_invariant with
      (P := fun (_ : Z) st =>
              nth_error (fst st) m = nth_error (fst lu) m /\
              nth_error (snd st) m = nth_error (snd lu) m); auto.
    intros k [l u] Hk [Hl Hu]; cbn [fst snd] in *.
    rewrite !nth_error_vset_neq by lia; auto.
  - rewrite for_int_empty by lia; auto.
Qed.

(** Lines 294-301 on empty vectors: [n] unit values, rows [0 .. n-1], column
    pointers [0 .. n]. *)
Lemma affine_identity_nil :
  0 <= num_of_variables_ this ->
  affine_identity this ([], [], [])
  = (repeat 1%float (Z.to_nat (num_of_variables_ this)),
     map Z.of_nat (seq 0 (Z.to_nat (num_of_variables_ this))),
     map Z.of_nat (seq 0 (S (Z.to_nat (num_of_variables_ this))))).
Proof.
  intros Hn; unfold affine_identity.
  match goal with
  | |- context [for_int ?lo ?hi ?b ?s0] =>
      assert (G : for_int lo hi b s0
                  = (repeat 1%float (Z.to_nat (num_of_variables_ this)),
                     map Z.of_nat (seq 0 (Z.to_nat (num_of_variables_ this))),
                     map Z.of_nat (seq 0 (Z.to_nat (num_of_variables_ this))),
                     num_of_variables_ this))
  end.
  { apply for_int_invariant with
      (P := fun k st =>
              st = (repeat 1%float (Z.to_nat k),
                    map Z.of_nat (seq 0 (Z.to_nat k)),
                    map Z.of_nat (seq 0 (Z.to_nat k)), k)); auto.
    intros k t Hk ->.
    replace (Z.to_nat (k + 1)) with (S (Z.to_nat k)) by lia.
    rewrite seq_S, map_app; simpl.
    unfold Vec.push_back.
    replace (Z.of_nat (Z.to_nat k)) with k by lia.
    rewrite <- repeat_cons; reflexivity. }
  rewrite G.
  rewrite seq_S, map_app; simpl.
  unfold Vec.push_back.
  replace (Z.of_nat (Z.to_nat (num_of_variables_ this)))
    with (num_of_variables_ this) by lia.
  reflexivity.
Qed.

End AffineFacts.

Lemma nth_map_of_nat_seq n k :
  (k < n)%nat -> nth k (map Z.of_nat (seq 0 n)) 0 = Z.of_nat k.
Proof.
  intros Hk.
  change 0 with (Z.of_nat 0); rewrite map_nth, seq_nth; auto.
Qed.

(** Column [j] of the matrix of [affine_identity_nil] stores the single entry
    [1.0] in row [j]. *)
Lemma identity_csc_column n j :
  0 <= j < Z.of_nat n ->
  csc_column (repeat 1%float n) (map Z.of_nat (seq 0 n))
             (map Z.of_nat (seq 0 (S n))) j
  = [(j, 1%float)].
Proof.
  intros Hj; unfold csc_column, Vec.get.
  destruct (Z.ltb_spec j 0); [lia|].
  destruct (Z.ltb_spec (j + 1) 0); [lia|].
  rewrite !nth_map_of_nat_seq by lia.
  replace (Z.to_nat (Z.of_nat (Z.to_nat (j + 1)) - Z.of_nat (Z.to_nat j)))
    with 1%nat by lia.
  simpl.
  replace (Z.of_nat (Z.to_nat j) + 0) with j by lia.
  destruct (Z.ltb_spec j 0); [lia|].
  rewrite nth_map_of_nat_seq by lia.
  rewrite nth_repeat_lt by lia.
  replace (Z.of_nat (Z.to_nat j)) with j by lia.
  reflexivity.
Qed.

(** C10.  With [N >= 3] reference points, after [CalculateAffineConstraint]
    (run as [Solve] runs it) every entry of the lower and of the upper bound
    vector at the indices [2N .. 4N-5] is [0.0], and the constraint matrix
    is the identity over the [3N-2] variables: column [j] stores the single
    value [1.0] in row [j].  The row [2N + i] of a slack variable is
    therefore [0.0 <= slack_i <= 0.0]. *)
Theorem slack_rows_pinned_to_zero (this : FemPosDeviationSqpOsqpInterface) :
  let N := Z.of_nat (length (ref_points_ this)) in
  let a := initial_affine this in
  3 <= N ->
  (forall k, 2 * N <= k <= 4 * N - 5 ->
     nth_error (lower_bounds a) (Z.to_nat k) = Some 0%float /\
     nth_error (upper_bounds a) (Z.to_nat k) = Some 0%float) /\
  (forall j, 0 <= j < 3 * N - 2 ->
     csc_column (A_data a) (A_indices a) (A_indptr a) j = [(j, 1%float)]).
Proof.
  intros N a HN; subst a; unfold initial_affine.
  set (t := set_problem_definitions this).
  assert (Hpts : num_of_points_ t = N) by reflexivity.
  assert (Hslack : num_of_slack_variables_ t = N - 2) by reflexivity.
  assert (Hvars : num_of_variables_ t = N * 2 + (N - 2)) by reflexivity.
  assert (Hcons : num_of_constraints_ t = N * 2 + (N - 2) + (N - 2))
    by reflexivity.
  split.
  - intros k Hk.
    destruct (CalculateAffineConstraint_bounds t (mkAffine [] [] [] [] []))
      as [-> ->].
    cbn [lower_bounds upper_bounds].
    set (lu0 := (Vec.resize 0%float (num_of_constraints_ t) [],
                 Vec.resize 0%float (num_of_constraints_ t) [])).
    destruct (affine_slack_bounds_frame t (affine_position_bounds t lu0)
                (Z.to_nat k)) as [S1 S2]; [lia|].
    destruct (affine_position_bounds_frame t lu0 (Z.to_nat k)) as [P1 P2];
      [lia|].
    split.
    + etransitivity; [exact S1|]. etransitivity; [exact P1|].
      apply nth_error_resize_nil; lia.
    + etransitivity; [exact S2|]. etransitivity; [exact P2|].
      apply nth_error_resize_nil; lia.
  - intros j Hj.
    pose proof (CalculateAffineConstraint_matrix t (mkAffine [] [] [] [] []))
      as E.
    cbn [A_data A_indices A_indptr] in E.
    rewrite affine_identity_nil in E by lia.
    injection E as -> -> ->.
    apply identity_csc_column; lia.
Qed.

Lemma slack_rows_pinned_to_zero_at_3 :
  let this := pts [(0, 0); (1, 0); (2, 0)]%float in
  let a := initial_affine this in
  3 <= Z.of_nat (length (ref_points_ this)) /\
  (forall k, 6 <= k <= 7 ->
     nth_error (lower_bounds a) (Z.to_nat k) = Some 0%float /\
     nth_error (upper_bounds a) (Z.to_nat k) = Some 0%float) /\
  (forall j, 0 <= j < 7 ->
     csc_column (A_data a) (A_indices a) (A_indptr a) j = [(j, 1%float)]).
Proof.
  intros this a; split; [simpl; lia|].
  apply (slack_rows_pinned_to_zero this); simpl; lia.
Defined.

(** ** CalculateKernel *)

(** A loop whose every pass adds [c] to a counter of its state adds
    [c * (hi - lo)] in all, and nothing when [hi <= lo]. *)
Lemma for_int_count {S : Type} (proj : S -> Z) c lo hi body (s : S) :
  (forall k t, proj (body k t) = proj t + c) ->
  proj (for_int lo hi body s) = proj s + c * Z.max 0 (hi - lo).
Proof.
  intros Hbody.
  destruct (Z.le_gt_cases lo hi) as [H|H].
  - replace (Z.max 0 (hi - lo)) with (hi - lo) by lia.
    apply for_int_invariant with
      (P := fun k t => proj t = proj s + c * (k - lo)); auto; [lia|].
    intros k t _ Ht; rewrite Hbody, Ht; lia.
  - rewrite for_int_empty by lia; lia.
Qed.

Section KernelFacts.

Variable this : FemPosDeviationSqpOsqpInterface.

Lemma kernel_first_point_col_num st :
  snd (kernel_first_point this st) = snd st + 2.
Proof.
  unfold kernel_first_point.
  rewrite (for_int_count snd 1); [lia|].
  intros k [columns col_num]; reflexivity.
Qed.

Lemma kernel_second_point_col_num st :
  snd (kernel_second_point this st) = snd st + 2.
Proof.
  unfold kernel_second_point.
  rewrite (for_int_count snd 1); [lia|].
  intros k [columns col_num]; reflexivity.
Qed.

Lemma kernel_interior_point_col_num point_index st :
  snd (kernel_interior_point this point_index st) = snd st + 2.
Proof.
  unfold kernel_interior_point.
  match goal with
  | |- context [for_int ?lo ?hi ?b ?s0] =>
      pose proof (for_int_count (fun t : Z * Columns * Z => snd t) 1
                                lo hi b s0) as E
  end.
  destruct (for_int _ _ _ _) as [[col_index columns] col_num].
  cbn [snd] in *; rewrite E; [lia|].
  intros k [[ci c] n]; reflexivity.
Qed.

Lemma kernel_interior_points_col_num st :
  snd (kernel_interior_points this st)
  = snd st + 2 * Z.max 0 (num_of_points_ this - 4).
Proof.
  unfold kernel_interior_points.
  rewrite (for_int_count snd 2).
  - replace (num_of_points_ this - 2 - 2) with (num_of_points_ this - 4)
      by lia; reflexivity.
  - intros; apply kernel_interior_point_col_num.
Qed.

Lemma kernel_second_from_last_col_num st :
  snd (kernel_second_from_last this st) = snd st + 2.
Proof.
  unfold kernel_second_from_last.
  rewrite (for_int_count snd 1); [lia|].
  intros k [columns col_num]; reflexivity.
Qed.

Lemma kernel_last_point_col_num st :
  snd (kernel_last_point this st) = snd st + 2.
Proof.
  unfold kernel_last_point.
  rewrite (for_int_count snd 1); [lia|].
  intros k [columns col_num]; reflexivity.
Qed.

(** [col_num] at the [CHECK_EQ]: the four fixed loops emit two columns
    each, the interior loop two per interior point. *)
Lemma kernel_columns_col_num :
  snd (kernel_columns this) = 8 + 2 * Z.max 0 (num_of_points_ this - 4).
Proof.
  unfold kernel_columns.
  rewrite kernel_last_point_col_num, kernel_second_from_last_col_num,
    kernel_interior_points_col_num, kernel_second_point_col_num,
    kernel_first_point_col_num.
  cbn [snd]; lia.
Qed.

(** Lines 264-275 from empty vectors: one column pointer per emitted column
    and the closing one. *)
Lemma emit_columns_indptr_length columns col_num :
  0 <= col_num ->
  length (snd (emit_columns columns col_num ([], [], [])))
  = S (Z.to_nat col_num).
Proof.
  intros Hc; unfold emit_columns.
  match goal with
  | |- context [for_int ?lo ?hi ?b ?s0] =>
      pose proof (for_int_invariant
                    (fun k (t : list c_float * list c_int * list c_int * Z) =>
                       length (snd (fst t)) = Z.to_nat k)
                    lo hi b s0 Hc eq_refl) as E
  end.
  destruct (for_int _ _ _ _) as [[[P_data P_indices] P_indptr] ind_p].
  cbn beta iota delta [fst snd] in *.
  unfold Vec.push_back; rewrite length_app, E; [simpl; lia|].
  intros k [[[d i] p] n] Hk Hp; cbn [fst snd] in *.
  destruct (emit_column _ _) as [[d' i'] n']; cbn [fst snd].
  unfold Vec.push_back; rewrite length_app, Hp; simpl; lia.
Qed.

End KernelFacts.

(** From four points on the [CHECK_EQ] holds: [2N] columns are emitted, and
    the column-pointer vector has [2N + 1] entries. *)
Lemma CalculateKernel_from_four_points (this : FemPosDeviationSqpOsqpInterface) :
  let N := Z.of_nat (length (ref_points_ this)) in
  4 <= N ->
  snd (kernel_columns (set_problem_definitions this)) = 2 * N /\
  exists P,
    CalculateKernel (set_problem_definitions this) ([], [], []) = Pass P /\
    Z.of_nat (length (snd P)) = 2 * N + 1.
Proof.
  intros N HN.
  set (t := set_problem_definitions this).
  assert (Hpts : num_of_points_ t = N) by reflexivity.
  assert (Hpos : num_of_pos_variables_ t = N * 2) by reflexivity.
  pose proof (kernel_columns_col_num t) as Hc; rewrite Hpts in Hc.
  split; [lia|].
  unfold CalculateKernel.
  destruct (kernel_columns t) as [columns col_num]; cbn [snd] in Hc.
  rewrite Hpts, Hpos.
  destruct (Z.gtb_spec N 2); [|lia].
  destruct (Z.eqb_spec col_num (N * 2)); [|lia].
  cbn [negb].
  eexists; split; [reflexivity|].
  rewrite emit_columns_indptr_length; lia.
Qed.

(** When the count of the loops differs from [num_of_pos_variables_], one of
    the two checks of [CalculateKernel] fails. *)
Lemma CalculateKernel_fatal (this : FemPosDeviationSqpOsqpInterface)
      (out : Csc) :
  8 + 2 * Z.max 0 (num_of_points_ this - 4) <> num_of_pos_variables_ this ->
  CalculateKernel this out = Fatal.
Proof.
  intros Hne; unfold CalculateKernel.
  destruct (negb (num_of_points_ this >? 2)); [reflexivity|].
  pose proof (kernel_columns_col_num this) as Hc.
  destruct (kernel_columns this) as [columns col_num]; cbn [snd] in Hc.
  destruct (Z.eqb_spec col_num (num_of_pos_variables_ this)); [lia|].
  reflexivity.
Qed.

Lemma three_points_definitions (this : FemPosDeviationSqpOsqpInterface) :
  length (ref_points_ this) = 3%nat ->
  num_of_points_ (set_problem_definitions this) = 3 /\
  num_of_pos_variables_ (set_problem_definitions this) = 6.
Proof.
  intros H3; cbn [num_of_points_ num_of_pos_variables_ set_problem_definitions].
  rewrite H3; split; reflexivity.
Qed.

(** C6, at three points.  The request passes the validation of [Solve] and
    the [CHECK_GT(num_of_points_, 2)], the loops of [CalculateKernel] count
    eight columns where there are six position variables, and the
    [CHECK_EQ(col_num, num_of_pos_variables_)] fails. *)
Theorem kernel_check_fails_for_three_points
        (this : FemPosDeviationSqpOsqpInterface) (out : Csc) :
  length (ref_points_ this) = 3%nat ->
  snd (kernel_columns (set_problem_definitions this)) = 8 /\
  num_of_pos_variables_ (set_problem_definitions this) = 6 /\
  CalculateKernel (set_problem_definitions this) out = Fatal.
Proof.
  intros H3.
  destruct (three_points_definitions this H3) as [Hpts Hpos].
  split; [|split].
  - rewrite kernel_columns_col_num, Hpts; reflexivity.
  - assumption.
  - apply CalculateKernel_fatal.
    rewrite Hpts, Hpos; discriminate.
Qed.

Lemma kernel_check_fails_on_the_line :
  length (ref_points_ (pts [(0, 0); (1, 0); (2, 0)]%float)) = 3%nat /\
  CalculateKernel
    (set_problem_definitions (pts [(0, 0); (1, 0); (2, 0)]%float))
    ([], [], []) = Fatal.
Proof.
  split; [reflexivity|].
  apply (kernel_check_fails_for_three_points
           (pts [(0, 0); (1, 0); (2, 0)]%float) ([], [], []) eq_refl).
Defined.

(** ** The slack loop of CalculateAffineConstraint *)

Section SlackRows.

Variable this : FemPosDeviationSqpOsqpInterface.

Lemma affine_position_bounds_length lu :
  length (fst (affine_position_bounds this lu)) = length (fst lu) /\
  length (snd (affine_position_bounds this lu)) = length (snd lu).
Proof.
  unfold affine_position_bounds.
  destruct (Z.le_gt_cases 0 (num_of_points_ this)) as [HN|HN].
  - apply for_int_invariant with
      (P := fun (_ : Z) st =>
              length (fst st) = length (fst lu) /\
              length (snd st) = length (snd lu)); auto.
    intros k [l u] Hk [Hl Hu]; cbn [fst snd] in *.
    rewrite !vset_length; auto.
  - rewrite for_int_empty by lia; auto.
Qed.

(** What the slack loop leaves in the rows it writes: rows
    [0 .. num_of_slack_variables_ - 1]. *)
Lemma affine_slack_bounds_written lu i :
  0 <= i < num_of_slack_variables_ this ->
  i < Z.of_nat (length (fst lu)) ->
  i < Z.of_nat (length (snd lu)) ->
  nth_error (fst (affine_slack_bounds this lu)) (Z.to_nat i)
  = Some (-1e20)%float /\
  nth_error (snd (affine_slack_bounds this lu)) (Z.to_nat i)
  = Some 1%float.
Proof.
  intros Hi Hl Hu; unfold affine_slack_bounds.
  assert (G :
    forall st,
      st = for_int 0 (num_of_slack_variables_ this)
             (fun i '(lower, upper) =>
                (Vec.vset lower i (-1e20)%float, Vec.vset upper i 1%float))
             lu ->
      (length (fst st) = length (fst lu) /\
       length (snd st) = length (snd lu)) /\
      forall j, 0 <= j < num_of_slack_variables_ this ->
        j < Z.of_nat (length (fst lu)) ->
        j < Z.of_nat (length (snd lu)) ->
        nth_error (fst st) (Z.to_nat j) = Some (-1e20)%float /\
        nth_error (snd st) (Z.to_nat j) = Some 1%float).
  { intros st ->.
    apply for_int_invariant with
      (P := fun k st =>
              (length (fst st) = length (fst lu) /\
               length (snd st) = length (snd lu)) /\
              forall j, 0 <= j < k ->
                j < Z.of_nat (length (fst lu)) ->
                j < Z.of_nat (length (snd lu)) ->
                nth_error (fst st) (Z.to_nat j) = Some (-1e20)%float /\
                nth_error (snd st) (Z.to_nat j) = Some 1%float);
      [lia|split; [auto|intros; lia]|].
    intros k [l u] Hk [[Ll Lu] IH]; cbn [fst snd] in *.
    rewrite !vset_length; split; [auto|].
    intros j Hj Hjl Hju.
    destruct (Z.eq_dec j k) as [->|Hne].
    - rewrite !nth_error_vset_eq by lia; auto.
    - rewrite !nth_error_vset_neq by lia; apply IH; lia. }
  apply (G _ eq_refl); assumption.
Qed.

End SlackRows.

(** C3.  Whatever the reference points and radii of a request with
    [N >= 3] points, after [CalculateAffineConstraint] the rows
    [0 .. N-3] of the bound vectors hold lower bound [-1e20] and upper bound
    [1.0]: the slack loop writes position [i], over the box the position
    loop has just stored there. *)
Theorem slack_bounds_overwrite_position_rows
        (this : FemPosDeviationSqpOsqpInterface) (i : Z) :
  let N := Z.of_nat (length (ref_points_ this)) in
  let a := initial_affine this in
  3 <= N ->
  0 <= i <= N - 3 ->
  nth_error (lower_bounds a) (Z.to_nat i) = Some (-1e20)%float /\
  nth_error (upper_bounds a) (Z.to_nat i) = Some 1%float.
Proof.
  intros N a HN Hi; subst a; unfold initial_affine.
  set (t := set_problem_definitions this).
  assert (Hslack : num_of_slack_variables_ t = N - 2) by reflexivity.
  assert (Hcons : num_of_constraints_ t = N * 2 + (N - 2) + (N - 2))
    by reflexivity.
  destruct (CalculateAffineConstraint_bounds t (mkAffine [] [] [] [] []))
    as [-> ->].
  cbn [lower_bounds upper_bounds].
  set (lu0 := (Vec.resize 0%float (num_of_constraints_ t) [],
               Vec.resize 0%float (num_of_constraints_ t) [])).
  destruct (affine_position_bounds_length t lu0) as [Ll Lu].
  assert (L0 : length (fst lu0) = Z.to_nat (num_of_constraints_ t))
    by apply resize_nil_length.
  assert (U0 : length (snd lu0) = Z.to_nat (num_of_constraints_ t))
    by apply resize_nil_length.
  apply affine_slack_bounds_written; lia.
Qed.

(** On the three points [(0,0), (1,0), (2,0)] with radius [0.1]: row 0, the
    x row of the first point, holds [[-1e20, 1.0]] and not the box
    [[0 - 0.1, 0 + 0.1]], and row 6, the row of the one slack variable,
    holds [[0.0, 0.0]]. *)
Lemma slack_bounds_overwrite_first_point_on_the_line :
  let this := pts [(0, 0); (1, 0); (2, 0)]%float in
  (3 <= Z.of_nat (length (ref_points_ this)) /\ 0 <= 0 <= 3 - 3) /\
  (nth_error (lower_bounds (initial_affine this)) 0 = Some (-1e20)%float /\
   nth_error (upper_bounds (initial_affine this)) 0 = Some 1%float) /\
  ((0 - 0.1)%float <> (-1e20)%float /\ (0 + 0.1)%float <> 1%float) /\
  (nth_error (lower_bounds (initial_affine this)) 6 = Some 0%float /\
   nth_error (upper_bounds (initial_affine this)) 6 = Some 0%float).
Proof.
  intros this; split; [simpl; lia|]; split.
  - apply (slack_bounds_overwrite_position_rows this 0); simpl; lia.
  - split; [split; vm_compute; discriminate|split; reflexivity].
Defined.

(** ** Solve: validation and the kernel check *)

Section SolveFacts.

Context {OSQPWorkspace : Type}.
Variable osqp : OSQP OSQPWorkspace.

(** C7.  When the reference points are empty, when their number differs
    from the number of bound radii, when there are fewer than three, or when
    there are more than [INT_MAX], [Solve] returns [false], leaves the object
    as it was, and its whole trace is one error line: no builder has run,
    nothing was allocated and no OSQP entry point was called. *)
Theorem Solve_rejects_invalid_input
        (fuel : nat) (this : FemPosDeviationSqpOsqpInterface) :
  ref_points_ this = [] \/
  length (ref_points_ this) <> length (bounds_around_refs_ this) \/
  (length (ref_points_ this) < 3)%nat \/
  Z.of_nat (length (ref_points_ this)) > INT_MAX ->
  exists d, Solve osqp fuel this = (Returned false, this, [AERROR d]).
Proof.
  intros H; unfold Solve.
  destruct (Nat.eqb_spec (length (ref_points_ this)) 0) as [E0|E0];
    [eexists; reflexivity|].
  destruct (Nat.eqb_spec (length (ref_points_ this))
                         (length (bounds_around_refs_ this))) as [E1|E1];
    cbn [negb]; [|eexists; reflexivity].
  destruct (Nat.ltb_spec (length (ref_points_ this)) 3) as [E2|E2];
    [eexists; reflexivity|].
  destruct (Z.gtb_spec (Z.of_nat (length (ref_points_ this))) INT_MAX)
    as [E3|E3]; [eexists; reflexivity|].
  exfalso; destruct H as [H|[H|[H|H]]]; try lia.
  rewrite H in E0; simpl in E0; congruence.
Qed.

(** C2, for every request of three points.  A request with exactly three
    reference points and three radii passes the validation; [Solve] sets the
    problem definitions, enters [CalculateKernel], and the process is
    aborted by the [CHECK_EQ] there: nothing is returned and the solver is
    never set up. *)
Theorem Solve_aborts_for_three_points
        (fuel : nat) (this : FemPosDeviationSqpOsqpInterface) :
  length (ref_points_ this) = 3%nat ->
  length (bounds_around_refs_ this) = 3%nat ->
  Solve osqp fuel this
  = (Aborted, set_problem_definitions this, [call_CalculateKernel]).
Proof.
  intros Hr Hb; unfold Solve.
  rewrite Hr, Hb; cbn [Nat.eqb Nat.ltb Nat.leb negb].
  change (Z.of_nat 3 >? INT_MAX) with false; cbn iota.
  destruct (three_points_definitions this Hr) as [Hpts Hpos].
  rewrite CalculateKernel_fatal; [reflexivity|].
  rewrite Hpts, Hpos; discriminate.
Qed.

(** C8.  [OptimizeWithOsqp] returns [true] exactly when the status value
    the solver left in [work->info->status_val] is 1 or 2. *)
Theorem OptimizeWithOsqp_success_iff
        (this : FemPosDeviationSqpOsqpInterface)
        (primal_warm_start : list c_float) (work : OSQPWorkspace)
        (trace : list Call) :
  let status :=
    info_status_val osqp
      (osqp_solve osqp (osqp_warm_start_x osqp work primal_warm_start)) in
  fst (fst (fst (OptimizeWithOsqp osqp this primal_warm_start work trace)))
  = true
  <-> status = 1 \/ status = 2.
Proof.
  intros status; unfold OptimizeWithOsqp; fold status.
  destruct (Z.ltb_spec status 0) as [Hneg|Hpos]; cbn [fst].
  - split; [discriminate|lia].
  - destruct (Z.eqb_spec status 1) as [E1|E1];
      destruct (Z.eqb_spec status 2) as [E2|E2]; cbn [negb andb fst];
      split; auto; try discriminate; lia.
Qed.

End SolveFacts.

Lemma Solve_rejects_two_points :
  exists d,
    Solve (zero_solver 0) 0 (pts [(0, 0); (1, 0)]%float)
    = (Returned false, pts [(0, 0); (1, 0)]%float, [AERROR d]).
Proof.
  apply (Solve_rejects_invalid_input (zero_solver 0) 0
           (pts [(0, 0); (1, 0)]%float)).
  right; right; left; simpl; lia.
Defined.

Lemma Solve_aborts_on_the_line :
  (length (ref_points_ (pts [(0, 0); (1, 0); (2, 0)]%float)) = 3%nat /\
   length (bounds_around_refs_ (pts [(0, 0); (1, 0); (2, 0)]%float)) = 3%nat) /\
  Solve (zero_solver 7) 100 (pts [(0, 0); (1, 0); (2, 0)]%float)
  = (Aborted, set_problem_definitions (pts [(0, 0); (1, 0); (2, 0)]%float),
     [call_CalculateKernel]).
Proof.
  split; [split; reflexivity|].
  apply (Solve_aborts_for_three_points (zero_solver 7) 100
           (pts [(0, 0); (1, 0); (2, 0)]%float)); reflexivity.
Defined.

(** ** The sequential part of Solve *)

(** [0.0 / 0.0] is not a number, and no comparison with it holds. *)
Lemma ltb_nan_relative_change (tol : float) :
  (abs ((0 - 0) / 0) <? tol)%float = false.
Proof.
  rewrite ltb_spec.
  replace (Prim2SF (abs ((0 - 0) / 0))) with S754_nan
    by (vm_compute; reflexivity).
  reflexivity.
Qed.

Lemma solutions_app t1 t2 : solutions (t1 ++ t2) = solutions t1 ++ solutions t2.
Proof. apply flat_map_app. Qed.

Section SqpFacts.

Context {OSQPWorkspace : Type}.
Variable osqp : OSQP OSQPWorkspace.

(** [OptimizeWithOsqp] assigns [x_] and [y_] only. *)
Lemma extract_primal_settings this solution :
  sqp_max_iter_ (extract_primal this solution) = sqp_max_iter_ this /\
  sqp_jtol_ (extract_primal this solution) = sqp_jtol_ this.
Proof.
  unfold extract_primal.
  destruct (for_int _ _ _ _) as [x y]; split; reflexivity.
Qed.

Lemma OptimizeWithOsqp_carries a this w work trace :
  Forall (carries a w) trace ->
  Forall (carries a w) (snd (OptimizeWithOsqp osqp this w work trace)).
Proof.
  intros H; unfold OptimizeWithOsqp.
  destruct (_ <? 0); [|destruct (_ && _)]; cbn [snd];
    rewrite ?Forall_app; repeat split; auto;
    repeat constructor.
Qed.

Lemma sqp_iteration_carries w s :
  Forall (carries (sqp_affine s) w) (sqp_trace s) ->
  match sqp_iteration osqp w s with
  | inl (_, _, trace) => Forall (carries (sqp_affine s) w) trace
  | inr s' =>
      Forall (carries (sqp_affine s) w) (sqp_trace s') /\
      sqp_affine s' = sqp_affine s
  end.
Proof.
  intros H; unfold sqp_iteration, UpdateAffineConstraint.
  match goal with
  | |- context [OptimizeWithOsqp osqp ?t ?x ?wk ?tr] =>
      pose proof (OptimizeWithOsqp_carries (sqp_affine s) t x wk tr) as G;
      destruct (OptimizeWithOsqp osqp t x wk tr) as [[[res this'] work'] tr']
  end.
  cbn [snd] in G.
  assert (G' : Forall (carries (sqp_affine s) w) tr').
  { apply G; rewrite !Forall_app; repeat split; auto;
      repeat constructor. }
  destruct res; cbn [negb].
  - destruct (_ <? _)%float.
    + rewrite Forall_app; split; auto. unfold release; repeat constructor.
    + cbn [sqp_trace sqp_affine]; auto.
  - rewrite !Forall_app; repeat split; auto; unfold release;
      repeat constructor.
Qed.

Lemma sqp_loop_carries fuel w s :
  Forall (carries (sqp_affine s) w) (sqp_trace s) ->
  Forall (carries (sqp_affine s) w) (snd (sqp_loop osqp fuel w s)).
Proof.
  revert s; induction fuel as [|fuel IH]; intros s H; cbn [sqp_loop].
  - assumption.
  - destruct (itr s <? _).
    + pose proof (sqp_iteration_carries w s H) as G.
      destruct (sqp_iteration osqp w s) as [[[b this'] trace']|s'].
      * assumption.
      * destruct G as [G E]; rewrite <- E in *; apply IH; assumption.
    + cbn [snd]; rewrite !Forall_app; repeat split; auto;
        unfold release; repeat constructor.
Qed.

(** Every call of a run of [Solve] into [osqp_update_A],
    [osqp_update_bounds] and [osqp_warm_start_x] carries the vectors built
    before the initial solve. *)
Lemma Solve_carries fuel this :
  Forall (carries (initial_affine this) (initial_warm_start this))
         (snd (Solve osqp fuel this)).
Proof.
  unfold Solve.
  destruct (_ =? 0)%nat; [repeat constructor|].
  destruct (negb _); [repeat constructor|].
  destruct (_ <? 3)%nat; [repeat constructor|].
  destruct (_ >? INT_MAX); [repeat constructor|].
  destruct (CalculateKernel _ _) as [P|]; [|repeat constructor].
  unfold initial_warm_start.
  destruct (SetPrimalWarmStart _ _) as [w|]; [|repeat constructor].
  fold (initial_affine this).
  match goal with
  | |- context [OptimizeWithOsqp osqp ?t ?x ?wk ?tr] =>
      pose proof (OptimizeWithOsqp_carries (initial_affine this) t x wk tr)
        as G;
      destruct (OptimizeWithOsqp osqp t x wk tr) as [[[res this'] work'] tr']
  end.
  cbn [snd] in G.
  assert (G' : Forall (carries (initial_affine this) w) tr')
    by (apply G; repeat constructor).
  destruct res; cbn [negb].
  - apply (sqp_loop_carries fuel w
             {| sqp_this := this'; sqp_work := work'; sqp_trace := tr';
                sqp_affine := initial_affine this; itr := 1;
                iterative_solve_res := true; eps := 1%float;
                last_jvalue := info_obj_val osqp work' |}); assumption.
  - cbn [snd]; rewrite !Forall_app; repeat split; auto;
      unfold release; repeat constructor.
Qed.

(** While the solver reports "solved" with objective value 0, no pass of the
    loop returns: the relative change is [0.0 / 0.0], the test
    [eps < sqp_jtol_] fails, and [itr] stays where it was.  Every unit of
    fuel is one more solve. *)
Lemma sqp_loop_never_returns fuel w s :
  (forall work, info_status_val osqp work = 1) ->
  (forall work, info_obj_val osqp work = 0%float) ->
  itr s < sqp_max_iter_ (sqp_this s) ->
  last_jvalue s = 0%float ->
  fst (fst (sqp_loop osqp fuel w s)) = OutOfFuel /\
  length (solutions (snd (sqp_loop osqp fuel w s)))
  = (length (solutions (sqp_trace s)) + fuel)%nat.
Proof.
  intros Hst Hobj; revert s; induction fuel as [|fuel IH]; intros s Hitr Hlast;
    cbn [sqp_loop].
  - cbn [fst snd]; auto.
  - destruct (Z.ltb_spec (itr s) (sqp_max_iter_ (sqp_this s))); [|lia].
    unfold sqp_iteration, OptimizeWithOsqp.
    rewrite !Hst; cbn [Z.ltb Z.eqb Z.compare Pos.eqb negb andb].
    rewrite !Hobj, Hlast.
    rewrite (proj2 (extract_primal_settings _ _)), ltb_nan_relative_change.
    match goal with
    | |- context [sqp_loop osqp fuel w ?s1] => specialize (IH s1)
    end.
    cbn [sqp_this sqp_trace itr last_jvalue] in IH.
    rewrite (proj1 (extract_primal_settings _ _)) in IH.
    destruct (IH Hitr eq_refl) as [IH1 IH2]; split; [assumption|].
    rewrite IH2, !solutions_app; cbn [solutions flat_map];
      rewrite !length_app; cbn [length]; lia.
Qed.

End SqpFacts.

(** The run on [origin4] reaches the loop after one solve, with [itr = 1]
    below [sqp_max_iter_ = 100] and previous objective value 0. *)
Lemma Solve_origin4_reaches_the_loop :
  exists w s,
    (forall fuel,
        Solve (zero_solver 10) fuel origin4
        = sqp_loop (zero_solver 10) fuel w s) /\
    itr s < sqp_max_iter_ (sqp_this s) /\
    last_jvalue s = 0%float /\
    length (solutions (sqp_trace s)) = 1%nat.
Proof.
  eexists; eexists; split; [intros fuel; reflexivity|].
  repeat split.
Qed.

(** C1, at four reference points at the origin.  The request passes the
    validation and every [CHECK]; the solver reports "solved" with objective
    value 0 at every solve.  Whatever the fuel, the run of [Solve] is still
    in its loop when the fuel is spent, and it has made one solve per unit
    of fuel after the initial one: with [sqp_max_iter_ = 100] the loop makes
    more than 100 passes and [Solve] does not return. *)
Theorem Solve_does_not_return_at_the_origin (fuel : nat) :
  sqp_max_iter_ origin4 = 100 /\
  fst (fst (Solve (zero_solver 10) fuel origin4)) = OutOfFuel /\
  length (solutions (snd (Solve (zero_solver 10) fuel origin4))) = S fuel.
Proof.
  split; [reflexivity|].
  destruct Solve_origin4_reaches_the_loop as (w & s & E & Hitr & Hlast & Hlen).
  rewrite E.
  destruct (sqp_loop_never_returns (zero_solver 10) fuel w s) as [R L];
    auto.
  rewrite R, L, Hlen; auto.
Qed.

(** ** What the loop gives the solver *)

(** C9.  [UpdateAffineConstraint] returns the five vectors as it received
    them, and in every run of [Solve] every [osqp_update_A] and every
    [osqp_update_bounds] pushes the values and bounds that
    [CalculateAffineConstraint] built before the initial solve: each pass
    re-solves the problem with the same constraint data. *)
Theorem UpdateAffineConstraint_changes_nothing :
  (forall a : Affine,
      A_data (UpdateAffineConstraint a) = A_data a /\
      A_indices (UpdateAffineConstraint a) = A_indices a /\
      A_indptr (UpdateAffineConstraint a) = A_indptr a /\
      lower_bounds (UpdateAffineConstraint a) = lower_bounds a /\
      upper_bounds (UpdateAffineConstraint a) = upper_bounds a) /\
  (forall (OSQPWorkspace : Type) (osqp : OSQP OSQPWorkspace) (fuel : nat)
          (this : FemPosDeviationSqpOsqpInterface),
      Forall (same_constraint_data (initial_affine this))
             (snd (Solve osqp fuel this))).
Proof.
  split.
  - intros a; unfold UpdateAffineConstraint; auto.
  - intros W osqp fuel this.
    eapply Forall_impl; [|apply Solve_carries].
    intros c [H _]; exact H.
Qed.

(** The statement above is not empty: the first pass of the run on [line4]
    pushes the ten unit values and the twelve bounds. *)
Example line4_pushes_its_constraint_data :
  In (call_osqp_update_A (A_data (initial_affine line4)) 10)
     (snd (Solve line4_solver 1 line4)) /\
  In (call_osqp_update_bounds (lower_bounds (initial_affine line4))
                              (upper_bounds (initial_affine line4)))
     (snd (Solve line4_solver 1 line4)) /\
  length (lower_bounds (initial_affine line4)) = 12%nat.
Proof.
  vm_compute; intuition.
Qed.

(** ** The initial warm start *)

(** The vector of [SetPrimalWarmStart]: the reference points in the position
    entries, [0.0] in the slack entries. *)
Lemma initial_warm_start_entries (this : FemPosDeviationSqpOsqpInterface) :
  let N := Z.of_nat (length (ref_points_ this)) in
  3 <= N ->
  (forall i, 0 <= i < N ->
     nth_error (initial_warm_start this) (Z.to_nat (2 * i))
     = Some (fst (ref_point this i)) /\
     nth_error (initial_warm_start this) (Z.to_nat (2 * i + 1))
     = Some (snd (ref_point this i))) /\
  (forall k, 2 * N <= k < 3 * N - 2 ->
     nth_error (initial_warm_start this) (Z.to_nat k) = Some 0%float).
Proof.
  intros N HN; unfold initial_warm_start, SetPrimalWarmStart.
  set (t := set_problem_definitions this).
  assert (Hpts : num_of_points_ t = N) by reflexivity.
  assert (Hvars : num_of_variables_ t = N * 2 + (N - 2)) by reflexivity.
  change (ref_points_ t) with (ref_points_ this); fold N.
  rewrite Hpts, Z.eqb_refl; cbn [negb].
  set (w0 := Vec.resize 0%float (num_of_variables_ t) []).
  assert (L0 : length w0 = Z.to_nat (num_of_variables_ t))
    by apply resize_nil_length.
  match goal with
  | |- context [for_int 0 N ?b w0] =>
      assert (G :
        length (for_int 0 N b w0) = length w0 /\
        (forall i, 0 <= i < N ->
           nth_error (for_int 0 N b w0) (Z.to_nat (2 * i))
           = Some (fst (ref_point this i)) /\
           nth_error (for_int 0 N b w0) (Z.to_nat (2 * i + 1))
           = Some (snd (ref_point this i))) /\
        (forall m, 2 * N <= Z.of_nat m ->
           nth_error (for_int 0 N b w0) m = nth_error w0 m))
  end.
  { apply for_int_invariant with
      (P := fun k w =>
              length w = length w0 /\
              (forall i, 0 <= i < k ->
                 nth_error w (Z.to_nat (2 * i))
                 = Some (fst (ref_point this i)) /\
                 nth_error w (Z.to_nat (2 * i + 1))
                 = Some (snd (ref_point this i))) /\
              (forall m, 2 * N <= Z.of_nat m ->
                 nth_error w m = nth_error w0 m));
      [lia|repeat split; auto; lia|].
    intros k w Hk (Lw & Hpos & Hrest).
    change (ref_point t k) with (ref_point this k).
    split; [rewrite !vset_length; assumption|split].
    - intros i Hi.
      destruct (Z.eq_dec i k) as [->|Hne].
      + split.
        * rewrite nth_error_vset_neq by lia.
          apply nth_error_vset_eq; lia.
        * apply nth_error_vset_eq; rewrite vset_length; lia.
      + rewrite !nth_error_vset_neq by lia; apply Hpos; lia.
    - intros m Hm.
      rewrite !nth_error_vset_neq by lia; apply Hrest; assumption. }
  destruct G as (_ & Gpos & Grest); split; [assumption|].
  intros k Hk; rewrite Grest by lia.
  apply nth_error_resize_nil; lia.
Qed.

(** ** One warm start per solve *)

Lemma warm_starts_app t1 t2 :
  warm_starts (t1 ++ t2) = warm_starts t1 ++ warm_starts t2.
Proof. apply flat_map_app. Qed.

Lemma warm_start_of_each_solve_app pending t1 t2 :
  warm_start_of_each_solve pending (t1 ++ t2)
  = warm_start_of_each_solve pending t1
      ++ warm_start_of_each_solve (pending_warm_start pending t1) t2.
Proof.
  revert pending; induction t1 as [|c t1 IH]; intros pending; [reflexivity|].
  destruct c; cbn [app warm_start_of_each_solve pending_warm_start];
    rewrite IH; reflexivity.
Qed.

(** Calls that neither warm-start nor solve leave the record as it is. *)
Lemma every_solve_starts_from_app w t l :
  (forall pending, warm_start_of_each_solve pending l = []) ->
  warm_starts l = [] ->
  solutions l = [] ->
  every_solve_starts_from w t ->
  every_solve_starts_from w (t ++ l).
Proof.
  unfold every_solve_starts_from; intros Hl Hw Hs [H1 H2].
  rewrite warm_start_of_each_solve_app, warm_starts_app, solutions_app,
    Hl, Hw, Hs, !app_nil_r.
  split; assumption.
Qed.

(** A warm start with [w] followed by a solve adds one solve given [w]. *)
Lemma every_solve_starts_from_solve w t status obj_val solution :
  every_solve_starts_from w t ->
  every_solve_starts_from w
    ((t ++ [call_osqp_warm_start_x w])
       ++ [call_osqp_solve status obj_val solution]).
Proof.
  unfold every_solve_starts_from; intros [H1 H2].
  rewrite <- app_assoc; cbn [app].
  rewrite warm_start_of_each_solve_app, warm_starts_app, solutions_app,
    H1, H2, length_app.
  cbn [warm_start_of_each_solve warm_starts solutions flat_map app length].
  rewrite !repeat_app; split; reflexivity.
Qed.

Ltac other_calls :=
  apply every_solve_starts_from_app;
  [intros pending; reflexivity|reflexivity|reflexivity|].

Section WarmStartFacts.

Context {OSQPWorkspace : Type}.
Variable osqp : OSQP OSQPWorkspace.

Lemma OptimizeWithOsqp_starts_from w this work trace :
  every_solve_starts_from w trace ->
  every_solve_starts_from w (snd (OptimizeWithOsqp osqp this w work trace)).
Proof.
  intros H; unfold OptimizeWithOsqp.
  destruct (_ <? 0); [|destruct (_ && _)]; cbn [snd];
    try other_calls; apply every_solve_starts_from_solve; exact H.
Qed.

Lemma sqp_iteration_starts_from w s :
  every_solve_starts_from w (sqp_trace s) ->
  match sqp_iteration osqp w s with
  | inl (_, _, trace) => every_solve_starts_from w trace
  | inr s' => every_solve_starts_from w (sqp_trace s')
  end.
Proof.
  intros H; unfold sqp_iteration, UpdateAffineConstraint.
  match goal with
  | |- context [OptimizeWithOsqp osqp ?t ?x ?wk ?tr] =>
      pose proof (OptimizeWithOsqp_starts_from w t wk tr) as G;
      destruct (OptimizeWithOsqp osqp t x wk tr) as [[[res this'] work'] tr']
  end.
  cbn [snd] in G.
  assert (G' : every_solve_starts_from w tr')
    by (apply G; do 3 other_calls; exact H).
  destruct res; cbn [negb].
  - destruct (_ <? _)%float.
    + other_calls; exact G'.
    + cbn [sqp_trace]; exact G'.
  - other_calls; exact G'.
Qed.

Lemma sqp_loop_starts_from fuel w s :
  every_solve_starts_from w (sqp_trace s) ->
  every_solve_starts_from w (snd (sqp_loop osqp fuel w s)).
Proof.
  revert s; induction fuel as [|fuel IH]; intros s H; cbn [sqp_loop].
  - assumption.
  - destruct (itr s <? _).
    + pose proof (sqp_iteration_starts_from w s H) as G.
      destruct (sqp_iteration osqp w s) as [[[b this'] trace']|s'].
      * assumption.
      * apply IH; assumption.
    + cbn [snd]; other_calls; exact H.
Qed.

(** In every run of [Solve], whatever the solver reports and however the
    run ends, each solve is given the vector built before the initial
    solve. *)
Lemma Solve_starts_from fuel this :
  every_solve_starts_from (initial_warm_start this)
                          (snd (Solve osqp fuel this)).
Proof.
  unfold Solve.
  destruct (_ =? 0)%nat; [split; reflexivity|].
  destruct (negb _); [split; reflexivity|].
  destruct (_ <? 3)%nat; [split; reflexivity|].
  destruct (_ >? INT_MAX); [split; reflexivity|].
  destruct (CalculateKernel _ _) as [P|]; [|split; reflexivity].
  unfold initial_warm_start.
  destruct (SetPrimalWarmStart _ _) as [w|]; [|split; reflexivity].
  match goal with
  | |- context [OptimizeWithOsqp osqp ?t ?x ?wk ?tr] =>
      pose proof (OptimizeWithOsqp_starts_from w t wk tr) as G;
      destruct (OptimizeWithOsqp osqp t x wk tr) as [[[res this'] work'] tr']
  end.
  cbn [snd] in G.
  assert (G' : every_solve_starts_from w tr')
    by (apply G; split; reflexivity).
  destruct res; cbn [negb].
  - apply (sqp_loop_starts_from fuel w
             {| sqp_this := this'; sqp_work := work'; sqp_trace := tr';
                sqp_affine :=
                  CalculateAffineConstraint (set_problem_definitions this)
                                            (mkAffine [] [] [] [] []);
                itr := 1;
                iterative_solve_res := true; eps := 1%float;
                last_jvalue := info_obj_val osqp work' |}); exact G'.
  - cbn [snd]; other_calls; exact G'.
Qed.

End WarmStartFacts.

(** C4, as the code has it.  In every run of [Solve], whatever the solver
    reports and however the run ends, every solve, the initial one and the
    one of every pass of the loop, is given the vector that
    [SetPrimalWarmStart] built before the initial solve: the last
    [osqp_warm_start_x] before each solve hands that vector over, and
    [osqp_warm_start_x] is called once per solve, always with it.  From
    three points on that vector holds the reference points in its position
    entries and [0.0] in its slack entries; no solution enters it. *)
Theorem warm_start_is_the_initial_one
        (OSQPWorkspace : Type) (osqp : OSQP OSQPWorkspace) (fuel : nat)
        (this : FemPosDeviationSqpOsqpInterface) :
  let trace := snd (Solve osqp fuel this) in
  let solves := length (solutions trace) in
  let N := Z.of_nat (length (ref_points_ this)) in
  warm_start_of_each_solve None trace
  = repeat (Some (initial_warm_start this)) solves /\
  warm_starts trace = repeat (initial_warm_start this) solves /\
  (3 <= N ->
   (forall i, 0 <= i < N ->
      nth_error (initial_warm_start this) (Z.to_nat (2 * i))
      = Some (fst (ref_point this i)) /\
      nth_error (initial_warm_start this) (Z.to_nat (2 * i + 1))
      = Some (snd (ref_point this i))) /\
   (forall k, 2 * N <= k < 3 * N - 2 ->
      nth_error (initial_warm_start this) (Z.to_nat k) = Some 0%float)).
Proof.
  intros trace solves N.
  destruct (Solve_starts_from osqp fuel this) as [H1 H2].
  split; [exact H1|split; [exact H2|]].
  intros HN; apply initial_warm_start_entries; exact HN.
Qed.

(** The run on [line4] that returns after the first pass of the loop makes
    two solves, and each is given the four reference points and two
    zeros. *)
Lemma warm_start_is_the_initial_one_on_line4 :
  3 <= Z.of_nat (length (ref_points_ line4)) /\
  length (solutions (snd (Solve line4_solver 1 line4))) = 2%nat /\
  warm_start_of_each_solve None (snd (Solve line4_solver 1 line4))
  = [Some (initial_warm_start line4); Some (initial_warm_start line4)] /\
  warm_starts (snd (Solve line4_solver 1 line4))
  = [initial_warm_start line4; initial_warm_start line4] /\
  nth_error (initial_warm_start line4) 6 = Some (fst (ref_point line4 3)) /\
  nth_error (initial_warm_start line4) 8 = Some 0%float.
Proof.
  assert (HN : 3 <= Z.of_nat (length (ref_points_ line4))) by (simpl; lia).
  assert (HS : length (solutions (snd (Solve line4_solver 1 line4))) = 2%nat)
    by (vm_compute; reflexivity).
  destruct (warm_start_is_the_initial_one nat line4_solver 1 line4)
    as (H1 & H2 & H3).
  rewrite HS in H1, H2.
  destruct (H3 HN) as [Hpos Hslack].
  split; [exact HN|]; split; [exact HS|].
  split; [exact H1|]; split; [exact H2|].
  split; [exact (proj1 (Hpos 3 ltac:(simpl; lia)))
         |exact (Hslack 8 ltac:(simpl; lia))].
Defined.

(** On [line4] the solver reports [line4_solution] at the initial solve; the
    first pass of the loop warm-starts it from the reference points again. *)
Lemma warm_start_is_not_the_previous_solution :
  Solve line4_solver 1 line4
  = (Returned true,
     extract_primal (set_problem_definitions line4) line4_solution,
     snd (Solve line4_solver 1 line4)) /\
  nth_error (solutions (snd (Solve line4_solver 1 line4))) 0
  = Some line4_solution /\
  nth_error (warm_starts (snd (Solve line4_solver 1 line4))) 1
  = Some [0; 0; 1; 0; 2; 0; 3; 0; 0; 0]%float /\
  ~ warm_started_from_previous_solution (snd (Solve line4_solver 1 line4)).
Proof.
  split; [vm_compute; reflexivity|].
  split; [vm_compute; reflexivity|].
  split; [vm_compute; reflexivity|].
  intros H.
  specialize (H 0%nat [0; 0; 1; 0; 2; 0; 3; 0; 0; 0]%float).
  vm_compute in H.
  specialize (H eq_refl).
  apply (f_equal (fun o => match o with
                           | Some (x :: _) => (x =? 0)%float
                           | _ => false
                           end)) in H.
  vm_compute in H; discriminate H.
Qed.

(** ** The convergence test *)

Section ConvergenceTest.

Context {OSQPWorkspace : Type}.
Variable osqp : OSQP OSQPWorkspace.

(** A pass of the loop is the body run once, when [itr] is below the cap. *)
Lemma sqp_loop_pass fuel w s :
  itr s < sqp_max_iter_ (sqp_this s) ->
  sqp_loop osqp (S fuel) w s
  = match sqp_iteration osqp w s with
    | inl (b, this, trace) => (Returned b, this, trace)
    | inr s' => sqp_loop osqp fuel w s'
    end.
Proof.
  intros H; cbn [sqp_loop].
  destruct (Z.ltb_spec (itr s) (sqp_max_iter_ (sqp_this s))); [|lia].
  reflexivity.
Qed.

(** C5, as the code has it.  In a pass of the loop whose solve succeeds,
    the relative objective change is [|(prev_obj - cur_obj) / prev_obj|],
    the absolute value of the whole quotient, with [prev_obj] the objective
    value the previous solve reported and [cur_obj] the one of this pass.
    When it is below [sqp_jtol_], [Solve] returns [true] with the solution of
    this pass in [x_] and [y_]; otherwise the loop goes on, with [cur_obj]
    as the previous objective value. *)
Theorem sqp_pass_convergence_test
        (fuel : nat) (w : list c_float) (s : Sqp OSQPWorkspace) :
  let work := solved_in_pass osqp w s in
  let prev_obj := last_jvalue s in
  let cur_obj := info_obj_val osqp work in
  let change := abs ((prev_obj - cur_obj) / prev_obj) in
  let this' := extract_primal (sqp_this s) (solution_x osqp work) in
  itr s < sqp_max_iter_ (sqp_this s) ->
  info_status_val osqp work = 1 \/ info_status_val osqp work = 2 ->
  ((change <? sqp_jtol_ (sqp_this s))%float = true ->
   exists trace,
     sqp_loop osqp (S fuel) w s = (Returned true, this', trace)) /\
  ((change <? sqp_jtol_ (sqp_this s))%float = false ->
   exists s',
     sqp_loop osqp (S fuel) w s = sqp_loop osqp fuel w s' /\
     sqp_this s' = this' /\
     eps s' = change /\
     last_jvalue s' = cur_obj /\
     itr s' = itr s).
Proof.
  intros work prev_obj cur_obj change this' Hitr Hst.
  rewrite sqp_loop_pass by assumption.
  unfold sqp_iteration, OptimizeWithOsqp, UpdateAffineConstraint.
  fold (solved_in_pass osqp w s); fold work.
  assert (Hneg : (info_status_val osqp work <? 0) = false)
    by (destruct Hst as [-> | ->]; reflexivity).
  assert (H12 : negb (info_status_val osqp work =? 1)
                && negb (info_status_val osqp work =? 2) = false)
    by (destruct Hst as [-> | ->]; reflexivity).
  rewrite Hneg, H12; cbn [negb].
  rewrite (proj2 (extract_primal_settings (sqp_this s)
                                          (solution_x osqp work))).
  fold this' cur_obj prev_obj change.
  split; intros ->.
  - eexists; reflexivity.
  - eexists; split; [reflexivity|]; cbn; auto.
Qed.

(** [Solve] enters the loop with the objective value of the initial solve as
    the previous one. *)
Lemma Solve_enters_the_loop fuel this P primal_warm_start :
  (length (ref_points_ this) =? 0)%nat = false ->
  (length (ref_points_ this) =? length (bounds_around_refs_ this))%nat
  = true ->
  (length (ref_points_ this) <? 3)%nat = false ->
  (Z.of_nat (length (ref_points_ this)) >? INT_MAX) = false ->
  CalculateKernel (set_problem_definitions this) ([], [], []) = Pass P ->
  SetPrimalWarmStart (set_problem_definitions this) [] = Pass primal_warm_start ->
  let t := set_problem_definitions this in
  let data :=
    load_data t P (CalculateOffset t []) (initial_affine this) in
  let work :=
    osqp_solve osqp
      (osqp_warm_start_x osqp (osqp_setup osqp data (load_settings t))
                         primal_warm_start) in
  info_status_val osqp work = 1 \/ info_status_val osqp work = 2 ->
  exists s,
    Solve osqp fuel this = sqp_loop osqp fuel primal_warm_start s /\
    itr s = 1 /\
    last_jvalue s = info_obj_val osqp work /\
    sqp_work s = work /\
    sqp_affine s = initial_affine this.
Proof.
  intros H0 H1 H2 H3 HK HW t data work Hst.
  unfold Solve.
  rewrite H0, H1, H2, H3; cbn [negb].
  rewrite HK, HW.
  unfold OptimizeWithOsqp.
  subst work data t; unfold initial_affine in *.
  set (work := osqp_solve osqp _) in *.
  assert (Hneg : (info_status_val osqp work <? 0) = false)
    by (destruct Hst as [-> | ->]; reflexivity).
  assert (H12 : negb (info_status_val osqp work =? 1)
                && negb (info_status_val osqp work =? 2) = false)
    by (destruct Hst as [-> | ->]; reflexivity).
  rewrite Hneg, H12; cbn [negb].
  eexists; split; [reflexivity|]; cbn; auto.
Qed.

End ConvergenceTest.

(** On [line4], entering the loop with previous objective value [-1] and a
    solve that reports [-2]: the relative change is [1], not below the
    tolerance [0.0001], and the loop goes on with [-2] as the previous
    value. *)
Lemma sqp_pass_goes_on_from_minus_one_to_minus_two :
  exists s',
    sqp_loop (scripted_solver minus_one_then_minus_two line4_solution)
             3 (initial_warm_start line4) line4_entering_the_loop
    = sqp_loop (scripted_solver minus_one_then_minus_two line4_solution)
               2 (initial_warm_start line4) s' /\
    sqp_this s'
    = extract_primal (sqp_this line4_entering_the_loop) line4_solution /\
    eps s' = 1%float /\
    last_jvalue s' = (-2)%float /\
    itr s' = 1.
Proof.
  destruct (sqp_pass_convergence_test
              (scripted_solver minus_one_then_minus_two line4_solution)
              2 (initial_warm_start line4) line4_entering_the_loop)
    as [_ H]; [reflexivity|left; reflexivity|].
  apply H; reflexivity.
Defined.

(** The quotient of the specification differs from the one of the code on a
    negative previous objective value.  On [line4] with objective values
    [-1] then [-2], [|prev - cur| / prev] is [-1], below the tolerance
    [0.0001], yet the first pass does not return: the run with fuel for one
    pass is still in the loop, having computed the relative change [1]. *)
Lemma spec_eps_is_not_the_relative_change :
  let solver := scripted_solver minus_one_then_minus_two line4_solution in
  objectives (snd (Solve solver 1 line4)) = [-1; -2]%float /\
  spec_eps (-1) (-2) = (-1)%float /\
  (spec_eps (-1) (-2) <? sqp_jtol_ line4)%float = true /\
  fst (fst (Solve solver 1 line4)) = OutOfFuel /\
  (exists s',
      sqp_iteration solver (initial_warm_start line4) line4_entering_the_loop
      = inr s' /\
      eps s' = 1%float /\
      eps s' <> spec_eps (-1) (-2)).
Proof.
  intros solver.
  split; [vm_compute; reflexivity|].
  split; [vm_compute; reflexivity|].
  split; [vm_compute; reflexivity|].
  split; [vm_compute; reflexivity|].
  eexists; split; [reflexivity|].
  split; [vm_compute; reflexivity|].
  vm_compute; discriminate.
Qed.

(** ** The exit below the loop *)

(** With [itr] at the cap the loop is left at once and [Solve] returns
    [false] with the "objective not converged" line.  [Solve] enters the
    loop with [itr = 1] and no pass changes [itr]: the exit is taken only
    when [sqp_max_iter_ <= 1]. *)
Lemma sqp_loop_exhausted {OSQPWorkspace : Type} (osqp : OSQP OSQPWorkspace)
      (fuel : nat) (w : list c_float) (s : Sqp OSQPWorkspace) :
  sqp_max_iter_ (sqp_this s) <= itr s ->
  sqp_loop osqp (S fuel) w s
  = (Returned false, sqp_this s,
     sqp_trace s
       ++ [AERROR (objective_not_converged (eps s) (sqp_jtol_ (sqp_this s)))]
       ++ release).
Proof.
  intros H; cbn [sqp_loop].
  destruct (Z.ltb_spec (itr s) (sqp_max_iter_ (sqp_this s))); [lia|].
  reflexivity.
Qed.

(** ** The extracted result *)

Lemma resize_length {A : Type} (d : A) n (v : list A) :
  length (Vec.resize d n v) = Z.to_nat n.
Proof.
  unfold Vec.resize; rewrite length_app, length_firstn, repeat_length; lia.
Qed.

(** After [OptimizeWithOsqp] succeeds, [x_] and [y_] have one entry per
    point, read from the positions [2i] and [2i + 1] of the solution. *)
Lemma extract_primal_entries (this : FemPosDeviationSqpOsqpInterface)
      (solution : list c_float) (i : Z) :
  0 <= i < num_of_points_ this ->
  nth_error (x_ (extract_primal this solution)) (Z.to_nat i)
  = Some (Vec.get 0%float solution (i * 2)) /\
  nth_error (y_ (extract_primal this solution)) (Z.to_nat i)
  = Some (Vec.get 0%float solution (i * 2 + 1)).
Proof.
  intros Hi; unfold extract_primal.
  set (x0 := Vec.resize 0%float (num_of_points_ this) (x_ this)).
  set (y0 := Vec.resize 0%float (num_of_points_ this) (y_ this)).
  assert (Lx : length x0 = Z.to_nat (num_of_points_ this))
    by apply resize_length.
  assert (Ly : length y0 = Z.to_nat (num_of_points_ this))
    by apply resize_length.
  match goal with
  | |- context [for_int ?lo ?hi ?b ?s0] =>
      pose proof (for_int_invariant
        (fun k (st : list float * list float) =>
           (length (fst st) = length x0 /\ length (snd st) = length y0) /\
           forall j, 0 <= j < k ->
             nth_error (fst st) (Z.to_nat j)
             = Some (Vec.get 0%float solution (j * 2)) /\
             nth_error (snd st) (Z.to_nat j)
             = Some (Vec.get 0%float solution (j * 2 + 1)))
        lo hi b s0) as G
  end.
  destruct (for_int _ _ _ _) as [x y]; cbn [x_ y_ set_result].
  apply G; try lia.
  - cbn [fst snd]; split; [auto|intros; lia].
  - intros k [xk yk] Hk [[Lxk Lyk] IH]; cbn [fst snd] in *.
    rewrite !vset_length; split; [auto|].
    intros j Hj.
    destruct (Z.eq_dec j k) as [->|Hne].
    + rewrite !nth_error_vset_eq by lia; auto.
    + rewrite !nth_error_vset_neq by lia; apply IH; lia.
Qed.

(** * Further properties of the builders and of the driver *)

(** ** Reading a vector after a write *)

Section GetFacts.

Context {A : Type}.
Implicit Types (v : list A) (a d : A).

Lemma nth_upd_eq v n a d :
  (n < length v)%nat -> nth n (Vec.upd v n a) d = a.
Proof.
  revert n; induction v as [|h t IH]; intros [|n] Hn; simpl in *;
    try lia; auto.
  apply IH; lia.
Qed.

Lemma nth_upd_neq v n m a d :
  n <> m -> nth m (Vec.upd v n a) d = nth m v d.
Proof.
  revert n m; induction v as [|h t IH]; intros [|n] [|m] Hnm; simpl;
    try congruence.
  apply IH; congruence.
Qed.

Lemma get_vset_eq d v i a :
  0 <= i < Z.of_nat (length v) -> Vec.get d (Vec.vset v i a) i = a.
Proof.
  intros Hi; unfold Vec.get, Vec.vset.
  destruct (Z.ltb_spec i 0); [lia|].
  apply nth_upd_eq; lia.
Qed.

Lemma get_vset_neq d v i j a :
  i <> j -> Vec.get d (Vec.vset v i a) j = Vec.get d v j.
Proof.
  intros Hij; unfold Vec.get, Vec.vset.
  destruct (Z.ltb_spec j 0); [reflexivity|].
  destruct (Z.ltb_spec i 0); [reflexivity|].
  apply nth_upd_neq; lia.
Qed.

Lemma get_resize_nil d n j : Vec.get d (Vec.resize d n []) j = d.
Proof.
  unfold Vec.get, Vec.resize; rewrite firstn_nil; simpl.
  destruct (j <? 0); [reflexivity|apply nth_repeat].
Qed.

End GetFacts.

(** ** The columns of the kernel *)

Lemma emplace_back_length columns col row value :
  length (emplace_back columns col row value) = length columns.
Proof. unfold emplace_back; apply vset_length. Qed.

Lemma get_emplace_back columns col row value j :
  0 <= col < Z.of_nat (length columns) ->
  Vec.get [] (emplace_back columns col row value) j
  = if j =? col
    then Vec.get [] columns j ++ [(row, value)]
    else Vec.get [] columns j.
Proof.
  intros Hcol; unfold emplace_back.
  destruct (Z.eqb_spec j col) as [->|Hne].
  - rewrite get_vset_eq by assumption; reflexivity.
  - apply get_vset_neq; congruence.
Qed.

(** A loop that appends the entries [f col] to column [col], for [col] from
    [lo] to [hi - 1], leaves every other column as it was. *)
Lemma fill_columns_loop (f : Z -> list (Z * float)) lo hi
      (body : Z -> Columns * Z -> Columns * Z) (st : Columns * Z) :
  0 <= lo -> hi <= Z.of_nat (length (fst st)) ->
  (forall col s, lo <= col < hi -> length (fst s) = length (fst st) ->
     length (fst (body col s)) = length (fst s) /\
     forall j, Vec.get [] (fst (body col s)) j
               = if j =? col then Vec.get [] (fst s) j ++ f col
                 else Vec.get [] (fst s) j) ->
  length (fst (for_int lo hi body st)) = length (fst st) /\
  forall j, Vec.get [] (fst (for_int lo hi body st)) j
            = if (lo <=? j) && (j <? hi)
              then Vec.get [] (fst st) j ++ f j
              else Vec.get [] (fst st) j.
Proof.
  intros Hlo Hhi Hbody.
  destruct (Z.le_gt_cases lo hi) as [Hle|Hgt].
  - assert (G :
      length (fst (for_int lo hi body st)) = length (fst st) /\
      forall j, Vec.get [] (fst (for_int lo hi body st)) j
                = if (lo <=? j) && (j <? hi)
                  then Vec.get [] (fst st) j ++ f j
                  else Vec.get [] (fst st) j).
    { apply for_int_invariant with
        (P := fun k (s : Columns * Z) =>
                length (fst s) = length (fst st) /\
                forall j, Vec.get [] (fst s) j
                          = if (lo <=? j) && (j <? k)
                            then Vec.get [] (fst st) j ++ f j
                            else Vec.get [] (fst st) j); auto.
      - split; [reflexivity|].
        intros j; destruct (Z.leb_spec lo j), (Z.ltb_spec j lo);
          cbn [andb]; auto; lia.
      - intros k s Hk [Ls Hs].
        destruct (Hbody k s Hk Ls) as [Lb Hb].
        split; [rewrite Lb; exact Ls|].
        intros j; rewrite Hb, Hs.
        destruct (Z.eqb_spec j k) as [E|Hne];
          destruct (Z.leb_spec lo j), (Z.ltb_spec j k),
            (Z.ltb_spec j (k + 1)); cbn [andb]; try lia; subst; auto. }
    exact G.
  - rewrite for_int_empty by lia; split; [reflexivity|].
    intros j; destruct (Z.leb_spec lo j), (Z.ltb_spec j hi); cbn [andb];
      auto; lia.
Qed.

Section KernelColumns.

Variable this : FemPosDeviationSqpOsqpInterface.

Let X := weight_fem_pos_deviation_ this.
Let Y := weight_path_length_ this.
Let W := weight_ref_deviation_ this.

Local Open Scope float_scope.

Lemma kernel_first_point_columns st :
  (2 <= Z.of_nat (length (fst st)))%Z ->
  length (fst (kernel_first_point this st)) = length (fst st) /\
  forall j, Vec.get [] (fst (kernel_first_point this st)) j
            = if ((0 <=? j) && (j <? 2))%Z
              then Vec.get [] (fst st) j ++ [(j, X + Y + W)]
              else Vec.get [] (fst st) j.
Proof.
  intros HL; unfold kernel_first_point; cbv zeta.
  apply (fill_columns_loop (fun j => [(j, X + Y + W)]));
    unfold Columns in *; try lia.
  intros col [c n] Hcol Hlen; cbn [fst] in *.
  split; [apply emplace_back_length|].
  intros j; rewrite get_emplace_back by lia.
  destruct (Z.eqb_spec j col) as [->|]; reflexivity.
Qed.

Lemma kernel_second_point_columns st :
  (4 <= Z.of_nat (length (fst st)))%Z ->
  length (fst (kernel_second_point this st)) = length (fst st) /\
  forall j, Vec.get [] (fst (kernel_second_point this st)) j
            = if ((2 <=? j) && (j <? 4))%Z
              then Vec.get [] (fst st) j
                     ++ [((j - 2)%Z, -2.0 * X - Y);
                         (j, 5.0 * X + 2.0 * Y + W)]
              else Vec.get [] (fst st) j.
Proof.
  intros HL; unfold kernel_second_point; cbv zeta.
  apply (fill_columns_loop
           (fun j => [((j - 2)%Z, -2.0 * X - Y);
                      (j, 5.0 * X + 2.0 * Y + W)]));
    unfold Columns in *; try lia.
  intros col [c n] Hcol Hlen; cbn [fst] in *.
  split; [rewrite !emplace_back_length; reflexivity|].
  intros j; rewrite !get_emplace_back by (rewrite ?emplace_back_length; lia).
  destruct (Z.eqb_spec j col) as [->|]; [|reflexivity].
  rewrite <- app_assoc; reflexivity.
Qed.

Lemma kernel_interior_point_columns point_index st :
  (0 <= point_index)%Z ->
  (point_index * 2 + 1 < Z.of_nat (length (fst st)))%Z ->
  length (fst (kernel_interior_point this point_index st)) = length (fst st)
  /\
  forall j, Vec.get [] (fst (kernel_interior_point this point_index st)) j
            = if ((point_index * 2 <=? j) && (j <? point_index * 2 + 2))%Z
              then Vec.get [] (fst st) j
                     ++ [((j - 4)%Z, X); ((j - 2)%Z, -4.0 * X - Y);
                         (j, 6.0 * X + 2.0 * Y + W)]
              else Vec.get [] (fst st) j.
Proof.
  intros Hp HL; unfold kernel_interior_point, for_int, Columns in *;
    cbv zeta.
  change (Z.to_nat (2 - 0)) with 2%nat; cbn [seq fold_left fst snd].
  replace (0 + Z.of_nat 0)%Z with 0%Z by reflexivity.
  replace (0 + Z.of_nat 1)%Z with 1%Z by reflexivity.
  replace (point_index * 2 + 0)%Z with (point_index * 2)%Z by lia.
  split; [rewrite !emplace_back_length; reflexivity|].
  intros j; rewrite !get_emplace_back by (rewrite ?emplace_back_length; lia).
  destruct (Z.eqb_spec j (point_index * 2 + 1)) as [E1|H1];
    destruct (Z.eqb_spec j (point_index * 2)) as [E0|H0];
    destruct (Z.leb_spec (point_index * 2) j),
      (Z.ltb_spec j (point_index * 2 + 2)); cbn [andb]; try lia;
    subst; rewrite <- ?app_assoc; reflexivity.
Qed.

Lemma kernel_interior_points_columns st :
  (num_of_points_ this * 2 - 4 <= Z.of_nat (length (fst st)))%Z ->
  length (fst (kernel_interior_points this st)) = length (fst st) /\
  forall j, Vec.get [] (fst (kernel_interior_points this st)) j
            = if ((4 <=? j) && (j <? num_of_points_ this * 2 - 4))%Z
              then Vec.get [] (fst st) j
                     ++ [((j - 4)%Z, X); ((j - 2)%Z, -4.0 * X - Y);
                         (j, 6.0 * X + 2.0 * Y + W)]
              else Vec.get [] (fst st) j.
Proof.
  intros HL; unfold kernel_interior_points, Columns in *; cbv zeta.
  destruct (Z.le_gt_cases 2 (num_of_points_ this - 2)) as [Hle|Hgt].
  - replace (num_of_points_ this * 2 - 4)%Z
      with ((num_of_points_ this - 2) * 2)%Z by lia.
    apply for_int_invariant with
      (P := fun p (s : list (list (Z * float)) * Z) =>
              length (fst s) = length (fst st) /\
              forall j, Vec.get [] (fst s) j
                        = if ((4 <=? j) && (j <? p * 2))%Z
                          then Vec.get [] (fst st) j
                                 ++ [((j - 4)%Z, X);
                                     ((j - 2)%Z, -4.0 * X - Y);
                                     (j, 6.0 * X + 2.0 * Y + W)]
                          else Vec.get [] (fst st) j); auto.
    + split; [reflexivity|].
      intros j; destruct (Z.leb_spec 4 j), (Z.ltb_spec j (2 * 2));
        cbn [andb]; auto; lia.
    + intros p s Hp [Ls Hs].
      destruct (kernel_interior_point_columns p s) as [Lb Hb];
        unfold Columns in *; try lia.
      split; [rewrite Lb; exact Ls|].
      intros j; rewrite Hb, Hs.
      destruct (Z.leb_spec (p * 2) j), (Z.ltb_spec j (p * 2 + 2)),
        (Z.leb_spec 4 j), (Z.ltb_spec j (p * 2)),
        (Z.ltb_spec j ((p + 1) * 2)); cbn [andb]; try lia; reflexivity.
  - rewrite for_int_empty by lia; split; [reflexivity|].
    intros j; destruct (Z.leb_spec 4 j),
      (Z.ltb_spec j (num_of_points_ this * 2 - 4)); cbn [andb]; auto; lia.
Qed.

Lemma kernel_second_from_last_columns st :
  (4 <= num_of_pos_variables_ this)%Z ->
  (num_of_pos_variables_ this - 2 <= Z.of_nat (length (fst st)))%Z ->
  length (fst (kernel_second_from_last this st)) = length (fst st) /\
  forall j, Vec.get [] (fst (kernel_second_from_last this st)) j
            = if ((num_of_pos_variables_ this - 4 <=? j)
                  && (j <? num_of_pos_variables_ this - 2))%Z
              then Vec.get [] (fst st) j
                     ++ [((j - 4)%Z, X); ((j - 2)%Z, -4.0 * X - Y);
                         (j, 5.0 * X + 2.0 * Y + W)]
              else Vec.get [] (fst st) j.
Proof.
  intros HP HL; unfold kernel_second_from_last; cbv zeta.
  apply (fill_columns_loop
           (fun j => [((j - 4)%Z, X); ((j - 2)%Z, -4.0 * X - Y);
                      (j, 5.0 * X + 2.0 * Y + W)]));
    unfold Columns in *; try lia.
  intros col [c n] Hcol Hlen; cbn [fst] in *.
  split; [rewrite !emplace_back_length; reflexivity|].
  intros j; rewrite !get_emplace_back by (rewrite ?emplace_back_length; lia).
  destruct (Z.eqb_spec j col) as [->|]; [|reflexivity].
  rewrite <- !app_assoc; reflexivity.
Qed.

Lemma kernel_last_point_columns st :
  (2 <= num_of_pos_variables_ this)%Z ->
  (num_of_pos_variables_ this <= Z.of_nat (length (fst st)))%Z ->
  length (fst (kernel_last_point this st)) = length (fst st) /\
  forall j, Vec.get [] (fst (kernel_last_point this st)) j
            = if ((num_of_pos_variables_ this - 2 <=? j)
                  && (j <? num_of_pos_variables_ this))%Z
              then Vec.get [] (fst st) j
                     ++ [((j - 4)%Z, X); ((j - 2)%Z, -2.0 * X - Y);
                         (j, X + Y + W)]
              else Vec.get [] (fst st) j.
Proof.
  intros HP HL; unfold kernel_last_point; cbv zeta.
  apply (fill_columns_loop
           (fun j => [((j - 4)%Z, X); ((j - 2)%Z, -2.0 * X - Y);
                      (j, X + Y + W)]));
    unfold Columns in *; try lia.
  intros col [c n] Hcol Hlen; cbn [fst] in *.
  split; [rewrite !emplace_back_length; reflexivity|].
  intros j; rewrite !get_emplace_back by (rewrite ?emplace_back_length; lia).
  destruct (Z.eqb_spec j col) as [->|]; [|reflexivity].
  rewrite <- !app_assoc; reflexivity.
Qed.

(** The columns at the [CHECK_EQ], from four points on: every position
    column is written by exactly one of the five loops. *)
Lemma kernel_columns_contents j :
  (4 <= num_of_points_ this)%Z ->
  num_of_pos_variables_ this = (num_of_points_ this * 2)%Z ->
  (num_of_points_ this * 2 <= num_of_variables_ this)%Z ->
  length (fst (kernel_columns this)) = Z.to_nat (num_of_variables_ this) /\
  Vec.get [] (fst (kernel_columns this)) j
  = if ((0 <=? j) && (j <? 2))%Z then [(j, X + Y + W)]
    else if ((2 <=? j) && (j <? 4))%Z
    then [((j - 2)%Z, -2.0 * X - Y); (j, 5.0 * X + 2.0 * Y + W)]
    else if ((4 <=? j) && (j <? num_of_points_ this * 2 - 4))%Z
    then [((j - 4)%Z, X); ((j - 2)%Z, -4.0 * X - Y);
          (j, 6.0 * X + 2.0 * Y + W)]
    else if ((num_of_points_ this * 2 - 4 <=? j)
             && (j <? num_of_points_ this * 2 - 2))%Z
    then [((j - 4)%Z, X); ((j - 2)%Z, -4.0 * X - Y);
          (j, 5.0 * X + 2.0 * Y + W)]
    else if ((num_of_points_ this * 2 - 2 <=? j)
             && (j <? num_of_points_ this * 2))%Z
    then [((j - 4)%Z, X); ((j - 2)%Z, -2.0 * X - Y); (j, X + Y + W)]
    else [].
Proof.
  intros HN HP HV; unfold kernel_columns; cbv zeta.
  set (st0 := (Vec.resize (A := list (Z * float)) []
                          (num_of_variables_ this) [], 0%Z)).
  assert (L0 : length (fst st0) = Z.to_nat (num_of_variables_ this))
    by apply resize_nil_length.
  assert (G0 : forall k, Vec.get [] (fst st0) k = [])
    by (intros k; apply get_resize_nil).
  destruct (kernel_first_point_columns st0) as [L1 G1];
    [unfold Columns in *; lia|].
  set (st1 := kernel_first_point this st0) in *.
  destruct (kernel_second_point_columns st1) as [L2 G2];
    [unfold Columns in *; lia|].
  set (st2 := kernel_second_point this st1) in *.
  destruct (kernel_interior_points_columns st2) as [L3 G3];
    [unfold Columns in *; lia|].
  set (st3 := kernel_interior_points this st2) in *.
  destruct (kernel_second_from_last_columns st3) as [L4 G4];
    [lia|unfold Columns in *; lia|].
  set (st4 := kernel_second_from_last this st3) in *.
  destruct (kernel_last_point_columns st4) as [L5 G5];
    [lia|unfold Columns in *; lia|].
  split.
  { etransitivity; [exact L5|]. etransitivity; [exact L4|].
    etransitivity; [exact L3|]. etransitivity; [exact L2|].
    etransitivity; [exact L1|]. exact L0. }
  rewrite G5, G4, G3, G2, G1, G0, HP.
  destruct (Z.leb_spec 0 j), (Z.ltb_spec j 2), (Z.leb_spec 2 j),
    (Z.ltb_spec j 4), (Z.leb_spec 4 j),
    (Z.ltb_spec j (num_of_points_ this * 2 - 4)),
    (Z.leb_spec (num_of_points_ this * 2 - 4) j),
    (Z.ltb_spec j (num_of_points_ this * 2 - 2)),
    (Z.leb_spec (num_of_points_ this * 2 - 2) j),
    (Z.ltb_spec j (num_of_points_ this * 2)); cbn [andb app];
    try lia; reflexivity.
Qed.

End KernelColumns.

(** ** The emitted kernel read back *)

Lemma nth_map_seq {B : Type} (f : nat -> B) n k d :
  (k < n)%nat -> nth k (map f (seq 0 n)) d = f k.
Proof.
  intros Hk.
  rewrite (nth_indep _ d (f 0%nat)) by (rewrite length_map, length_seq; lia).
  rewrite map_nth, seq_nth by lia; reflexivity.
Qed.

Lemma map_nth_seq {A B : Type} (g : A -> B) (l : list A) d :
  map (fun k => g (nth k l d)) (seq 0 (length l)) = map g l.
Proof.
  induction l as [|a l IH]; [reflexivity|].
  cbn [length seq map nth]; f_equal.
  rewrite <- seq_shift, map_map; exact IH.
Qed.

Lemma stored_before_S columns k :
  stored_before columns (S k)
  = stored_before columns k ++ Vec.get [] columns (Z.of_nat k).
Proof.
  unfold stored_before.
  rewrite seq_S, map_app, concat_app; cbn [map concat Nat.add].
  rewrite app_nil_r; reflexivity.
Qed.

Lemma stored_before_split columns j K :
  (j < K)%nat ->
  exists rest,
    stored_before columns K
    = stored_before columns j ++ Vec.get [] columns (Z.of_nat j) ++ rest.
Proof.
  intros Hj; replace K with (S j + (K - S j))%nat by lia.
  unfold stored_before at 1.
  rewrite seq_app, map_app, concat_app.
  fold (stored_before columns (S j)); rewrite stored_before_S.
  eexists; rewrite <- app_assoc; reflexivity.
Qed.

Lemma emit_column_spec column P_data P_indices ind_p :
  emit_column column (P_data, P_indices, ind_p)
  = (P_data ++ map (fun rv => (snd rv * 2.0)%float) column,
     P_indices ++ map fst column,
     ind_p + Z.of_nat (length column)).
Proof.
  unfold emit_column.
  revert P_data P_indices ind_p;
    induction column as [|rv column IH]; intros d i p.
  - cbn [fold_left map length]; rewrite !app_nil_r.
    f_equal; lia.
  - cbn [fold_left map length]; rewrite IH; unfold Vec.push_back.
    rewrite <- !app_assoc; cbn [app].
    f_equal; lia.
Qed.

(** Lines 264-275 from empty vectors: the values (doubled) and the rows of
    all columns in order, and for every column the number of entries stored
    before it, closed by the total. *)
Lemma emit_columns_spec columns col_num :
  0 <= col_num ->
  emit_columns columns col_num ([], [], [])
  = (map (fun rv => (snd rv * 2.0)%float)
         (stored_before columns (Z.to_nat col_num)),
     map fst (stored_before columns (Z.to_nat col_num)),
     map (fun j => Z.of_nat (length (stored_before columns j)))
         (seq 0 (S (Z.to_nat col_num)))).
Proof.
  intros Hc; unfold emit_columns.
  match goal with
  | |- context [for_int ?lo ?hi ?b ?s0] =>
      assert (G :
        for_int lo hi b s0
        = (map (fun rv => (snd rv * 2.0)%float)
               (stored_before columns (Z.to_nat col_num)),
           map fst (stored_before columns (Z.to_nat col_num)),
           map (fun j => Z.of_nat (length (stored_before columns j)))
               (seq 0 (Z.to_nat col_num)),
           Z.of_nat (length (stored_before columns (Z.to_nat col_num)))))
  end.
  { apply for_int_invariant with
      (P := fun k st =>
              st = (map (fun rv => (snd rv * 2.0)%float)
                        (stored_before columns (Z.to_nat k)),
                    map fst (stored_before columns (Z.to_nat k)),
                    map (fun j => Z.of_nat (length (stored_before columns j)))
                        (seq 0 (Z.to_nat k)),
                    Z.of_nat (length (stored_before columns (Z.to_nat k)))));
      auto.
    intros k st Hk ->.
    rewrite emit_column_spec.
    replace (Z.to_nat (k + 1)) with (S (Z.to_nat k)) by lia.
    rewrite stored_before_S, seq_S, !map_app, length_app.
    replace (Z.of_nat (Z.to_nat k)) with k by lia.
    unfold Vec.push_back; cbn [map Nat.add].
    f_equal; lia. }
  rewrite G; unfold Vec.push_back.
  rewrite (seq_S (Z.to_nat col_num)), map_app; reflexivity.
Qed.

(** The three vectors of [emit_columns] decode to the columns they were
    built from, with every value doubled. *)
Lemma emit_columns_round_trip columns col_num j :
  0 <= j < col_num ->
  let '(P_data, P_indices, P_indptr) :=
    emit_columns columns col_num ([], [], []) in
  csc_column P_data P_indices P_indptr j
  = map (fun rv => (fst rv, (snd rv * 2.0)%float)) (Vec.get [] columns j).
Proof.
  intros Hj; rewrite emit_columns_spec by lia.
  destruct (stored_before_split columns (Z.to_nat j) (Z.to_nat col_num)
                                ltac:(lia)) as [rest HE].
  replace (Z.of_nat (Z.to_nat j)) with j in HE by lia.
  set (E := stored_before columns (Z.to_nat j)) in *.
  set (C := Vec.get [] columns j) in *.
  set (p := map (fun j0 => Z.of_nat (length (stored_before columns j0)))
                (seq 0 (S (Z.to_nat col_num)))).
  assert (Hlo : Vec.get 0 p j = Z.of_nat (length E)).
  { unfold Vec.get, p; destruct (Z.ltb_spec j 0); [lia|].
    rewrite nth_map_seq by lia; reflexivity. }
  assert (Hhi : Vec.get 0 p (j + 1) = Z.of_nat (length E + length C)).
  { unfold Vec.get, p; destruct (Z.ltb_spec (j + 1) 0); [lia|].
    rewrite nth_map_seq by lia.
    replace (Z.to_nat (j + 1)) with (S (Z.to_nat j)) by lia.
    rewrite stored_before_S, length_app.
    replace (Z.of_nat (Z.to_nat j)) with j by lia; reflexivity. }
  unfold csc_column; cbv zeta; rewrite Hlo, Hhi.
  replace (Z.to_nat (Z.of_nat (length E + length C) - Z.of_nat (length E)))
    with (length C) by lia.
  rewrite <- (map_nth_seq (fun rv => (fst rv, (snd rv * 2.0)%float)) C
                          (0, 0%float)).
  apply map_ext_in; intros k Hk; apply in_seq in Hk.
  unfold Vec.get.
  destruct (Z.ltb_spec (Z.of_nat (length E) + Z.of_nat k) 0); [lia|].
  replace (Z.to_nat (Z.of_nat (length E) + Z.of_nat k))
    with (length E + k)%nat by lia.
  rewrite HE, !map_app.
  f_equal.
  - rewrite <- (length_map fst E) at 1.
    rewrite app_nth2_plus, app_nth1 by (rewrite length_map; lia).
    exact (map_nth fst C (0, 0%float) k).
  - rewrite <- (length_map (fun rv => (snd rv * 2.0)%float) E) at 1.
    rewrite app_nth2_plus, app_nth1 by (rewrite length_map; lia).
    exact (map_nth (fun rv => (snd rv * 2.0)%float) C (0, 0%float) k).
Qed.

(** ** CalculateKernel from four points on *)

Section KernelFromFour.

Variable this : FemPosDeviationSqpOsqpInterface.

Let N := Z.of_nat (length (ref_points_ this)).
Let t := set_problem_definitions this.

Lemma CalculateKernel_pass_from_four :
  4 <= N ->
  CalculateKernel t ([], [], [])
  = Pass (emit_columns (fst (kernel_columns t)) (2 * N) ([], [], [])).
Proof.
  intros HN.
  assert (Hpts : num_of_points_ t = N) by reflexivity.
  assert (Hpos : num_of_pos_variables_ t = N * 2) by reflexivity.
  pose proof (kernel_columns_col_num t) as Hc; rewrite Hpts in Hc.
  unfold CalculateKernel.
  destruct (kernel_columns t) as [columns col_num]; cbn [fst snd] in *.
  rewrite Hpts, Hpos.
  destruct (Z.gtb_spec N 2); [|lia].
  destruct (Z.eqb_spec col_num (N * 2)); [|lia].
  cbn [negb]; replace (2 * N) with col_num by lia; reflexivity.
Qed.

Lemma kernel_columns_band j :
  4 <= N -> 0 <= j < 2 * N ->
  map (fun rv => (fst rv, (snd rv * 2.0)%float))
      (Vec.get [] (fst (kernel_columns t)) j)
  = kernel_band this j.
Proof.
  intros HN Hj.
  destruct (kernel_columns_contents t j) as [_ ->];
    try (change (num_of_points_ t) with N);
    try (change (num_of_variables_ t) with (N * 2 + (N - 2)));
    try lia; try reflexivity.
  unfold kernel_band; fold N.
  change (weight_fem_pos_deviation_ t) with (weight_fem_pos_deviation_ this).
  change (weight_path_length_ t) with (weight_path_length_ this).
  change (weight_ref_deviation_ t) with (weight_ref_deviation_ this).
  cbv zeta.
  destruct (Z.leb_spec 0 j), (Z.ltb_spec j 2), (Z.leb_spec 2 j),
    (Z.ltb_spec j 4), (Z.leb_spec 4 j), (Z.ltb_spec j (N * 2 - 4)),
    (Z.ltb_spec j (2 * N - 4)), (Z.leb_spec (N * 2 - 4) j),
    (Z.ltb_spec j (N * 2 - 2)), (Z.ltb_spec j (2 * N - 2)),
    (Z.leb_spec (N * 2 - 2) j), (Z.ltb_spec j (N * 2));
    cbn [andb map fst snd]; try lia; reflexivity.
Qed.

Lemma kernel_stored_before (k : nat) :
  4 <= N -> Z.of_nat k <= 2 * N ->
  Z.of_nat (length (stored_before (fst (kernel_columns t)) k))
  = kernel_band_start (Z.of_nat k).
Proof.
  intros HN; induction k as [|k IH]; intros Hk; [reflexivity|].
  rewrite stored_before_S, length_app, Nat2Z.inj_add, IH by lia.
  pose proof (kernel_columns_band (Z.of_nat k) HN ltac:(lia)) as B.
  apply (f_equal (@length _)) in B; rewrite length_map in B; rewrite B.
  unfold kernel_band, kernel_band_start; fold N; cbv zeta.
  destruct (Z.ltb_spec (Z.of_nat k) 2), (Z.ltb_spec (Z.of_nat k) 4),
    (Z.ltb_spec (Z.of_nat k) (2 * N - 4)),
    (Z.ltb_spec (Z.of_nat k) (2 * N - 2)),
    (Z.leb_spec (Z.of_nat k) 2), (Z.leb_spec (Z.of_nat k) 4),
    (Z.leb_spec (Z.of_nat (S k)) 2), (Z.leb_spec (Z.of_nat (S k)) 4);
    cbn [length]; lia.
Qed.

End KernelFromFour.

(** X1.  From four reference points on, [CalculateKernel] passes both its
    checks, and column [j] of the matrix it emits, read back from the three
    compressed-sparse-column vectors, is the banded column of that point:
    the diagonal entry, the entry two rows up (the previous point) and the
    entry four rows up (the point before), with the end-point and
    second-point coefficients at both ends, every value doubled. *)
Theorem CalculateKernel_emits_the_band
        (this : FemPosDeviationSqpOsqpInterface) :
  let N := Z.of_nat (length (ref_points_ this)) in
  4 <= N ->
  exists P_data P_indices P_indptr,
    CalculateKernel (set_problem_definitions this) ([], [], [])
    = Pass (P_data, P_indices, P_indptr) /\
    forall j, 0 <= j < 2 * N ->
      csc_column P_data P_indices P_indptr j = kernel_band this j.
Proof.
  intros N HN.
  rewrite CalculateKernel_pass_from_four by assumption; fold N.
  pose proof (emit_columns_round_trip
                (fst (kernel_columns (set_problem_definitions this)))
                (2 * N)) as R.
  destruct (emit_columns _ _ _) as [[P_data P_indices] P_indptr].
  exists P_data, P_indices, P_indptr; split; [reflexivity|].
  intros j Hj; rewrite (R j Hj).
  apply kernel_columns_band; assumption.
Qed.

Lemma CalculateKernel_emits_the_band_of_line4 :
  4 <= Z.of_nat (length (ref_points_ line4)) /\
  exists P_data P_indices P_indptr,
    CalculateKernel (set_problem_definitions line4) ([], [], [])
    = Pass (P_data, P_indices, P_indptr) /\
    forall j, 0 <= j < 8 ->
      csc_column P_data P_indices P_indptr j = kernel_band line4 j.
Proof.
  split; [simpl; lia|].
  apply (CalculateKernel_emits_the_band line4); simpl; lia.
Defined.

(** X2.  From four reference points on, every entry of the emitted kernel
    lies in the upper triangle of the position block: an entry stored in
    column [j] has a row index between [0] and [j]. *)
Theorem CalculateKernel_is_upper_triangular
        (this : FemPosDeviationSqpOsqpInterface) :
  let N := Z.of_nat (length (ref_points_ this)) in
  4 <= N ->
  exists P_data P_indices P_indptr,
    CalculateKernel (set_problem_definitions this) ([], [], [])
    = Pass (P_data, P_indices, P_indptr) /\
    forall j row value, 0 <= j < 2 * N ->
      In (row, value) (csc_column P_data P_indices P_indptr j) ->
      0 <= row <= j.
Proof.
  intros N HN.
  rewrite CalculateKernel_pass_from_four by assumption; fold N.
  pose proof (emit_columns_round_trip
                (fst (kernel_columns (set_problem_definitions this)))
                (2 * N)) as R.
  destruct (emit_columns _ _ _) as [[P_data P_indices] P_indptr].
  exists P_data, P_indices, P_indptr; split; [reflexivity|].
  intros j row value Hj Hin.
  rewrite (R j Hj), (kernel_columns_band this j HN Hj) in Hin.
  unfold kernel_band in Hin; fold N in Hin; cbv zeta in Hin.
  destruct (Z.ltb_spec j 2), (Z.ltb_spec j 4), (Z.ltb_spec j (2 * N - 4)),
    (Z.ltb_spec j (2 * N - 2)); cbn [In] in Hin;
    repeat (destruct Hin as [Hin|Hin]; [injection Hin as <- _; lia|]);
    contradiction.
Qed.

Lemma CalculateKernel_is_upper_triangular_on_line4 :
  4 <= Z.of_nat (length (ref_points_ line4)) /\
  exists P_data P_indices P_indptr,
    CalculateKernel (set_problem_definitions line4) ([], [], [])
    = Pass (P_data, P_indices, P_indptr) /\
    forall j row value, 0 <= j < 8 ->
      In (row, value) (csc_column P_data P_indices P_indptr j) ->
      0 <= row <= j.
Proof.
  split; [simpl; lia|].
  apply (CalculateKernel_is_upper_triangular line4); simpl; lia.
Defined.

Lemma nth_error_map_seq {B : Type} (f : nat -> B) n k :
  (k < n)%nat -> nth_error (map f (seq 0 n)) k = Some (f k).
Proof.
  intros Hk.
  rewrite (nth_error_nth' _ (f 0%nat))
    by (rewrite length_map, length_seq; lia).
  rewrite nth_map_seq by lia; reflexivity.
Qed.

(** X3.  From four reference points on, the emitted kernel is a well-formed
    compressed-sparse-column matrix of [2N] columns: [6N - 6] values and as
    many row indices, [2N + 1] column pointers, pointer [j] being the number
    of entries stored before column [j] (one per column for the first
    point, two for the second, three from then on) and the last one the
    number of values. *)
Theorem CalculateKernel_column_pointers
        (this : FemPosDeviationSqpOsqpInterface) :
  let N := Z.of_nat (length (ref_points_ this)) in
  4 <= N ->
  exists P_data P_indices P_indptr,
    CalculateKernel (set_problem_definitions this) ([], [], [])
    = Pass (P_data, P_indices, P_indptr) /\
    Z.of_nat (length P_data) = 6 * N - 6 /\
    Z.of_nat (length P_indices) = 6 * N - 6 /\
    Z.of_nat (length P_indptr) = 2 * N + 1 /\
    (forall j, 0 <= j <= 2 * N ->
       nth_error P_indptr (Z.to_nat j) = Some (kernel_band_start j)) /\
    nth_error P_indptr (Z.to_nat (2 * N)) = Some (Z.of_nat (length P_data)).
Proof.
  intros N HN.
  rewrite CalculateKernel_pass_from_four by assumption; fold N.
  rewrite emit_columns_spec by lia.
  set (columns := fst (kernel_columns (set_problem_definitions this))).
  do 3 eexists; split; [reflexivity|].
  pose proof (kernel_stored_before this (Z.to_nat (2 * N)) HN ltac:(lia))
    as Hall.
  fold columns in Hall.
  replace (Z.of_nat (Z.to_nat (2 * N))) with (2 * N) in Hall by lia.
  assert (Hend : kernel_band_start (2 * N) = 6 * N - 6).
  { unfold kernel_band_start.
    destruct (Z.leb_spec (2 * N) 2), (Z.leb_spec (2 * N) 4); lia. }
  rewrite !length_map, length_seq, Hall, Hend.
  repeat split; try lia.
  - intros j Hj.
    rewrite nth_error_map_seq by lia.
    pose proof (kernel_stored_before this (Z.to_nat j) HN ltac:(lia)) as Hj'.
    fold columns in Hj'.
    replace (Z.of_nat (Z.to_nat j)) with j in Hj' by lia.
    rewrite Hj'; reflexivity.
  - rewrite nth_error_map_seq by lia.
    rewrite Hall, Hend; reflexivity.
Qed.

Lemma CalculateKernel_column_pointers_of_line4 :
  4 <= Z.of_nat (length (ref_points_ line4)) /\
  exists P_data P_indices P_indptr,
    CalculateKernel (set_problem_definitions line4) ([], [], [])
    = Pass (P_data, P_indices, P_indptr) /\
    Z.of_nat (length P_data) = 18 /\
    Z.of_nat (length P_indices) = 18 /\
    Z.of_nat (length P_indptr) = 9 /\
    (forall j, 0 <= j <= 8 ->
       nth_error P_indptr (Z.to_nat j) = Some (kernel_band_start j)) /\
    nth_error P_indptr (Z.to_nat 8) = Some (Z.of_nat (length P_data)).
Proof.
  split; [simpl; lia|].
  apply (CalculateKernel_column_pointers line4); simpl; lia.
Defined.

(** ** Loops that write a vector *)

Lemma nth_error_resize {A : Type} (d : A) n (v : list A) k :
  (k < Z.to_nat n)%nat ->
  nth_error (Vec.resize d n v) k = Some (nth k v d).
Proof.
  intros Hk; unfold Vec.resize.
  destruct (Nat.lt_ge_cases k (length v)) as [Hlt|Hge].
  - rewrite nth_error_app1 by (rewrite length_firstn; lia).
    rewrite nth_error_firstn.
    destruct (Nat.ltb_spec k (Z.to_nat n)); [|lia].
    apply nth_error_nth'; assumption.
  - rewrite nth_error_app2 by (rewrite length_firstn; lia).
    rewrite length_firstn, nth_overflow by assumption.
    apply nth_error_repeat; lia.
Qed.

(** A loop that writes the entries [2i] and [2i + 1] for [i] from [0] to
    [n - 1] leaves the entries from [2n] on as they were. *)
Lemma pair_fill_loop (f g : Z -> float) n (w0 : list float) :
  0 <= n -> 2 * n <= Z.of_nat (length w0) ->
  let w :=
    for_int 0 n (fun i w =>
      Vec.vset (Vec.vset w (2 * i) (f i)) (2 * i + 1) (g i)) w0 in
  length w = length w0 /\
  (forall i, 0 <= i < n ->
     nth_error w (Z.to_nat (2 * i)) = Some (f i) /\
     nth_error w (Z.to_nat (2 * i + 1)) = Some (g i)) /\
  (forall m, 2 * n <= Z.of_nat m -> nth_error w m = nth_error w0 m).
Proof.
  intros Hn HL; cbv zeta.
  apply for_int_invariant with
    (P := fun k w =>
            length w = length w0 /\
            (forall i, 0 <= i < k ->
               nth_error w (Z.to_nat (2 * i)) = Some (f i) /\
               nth_error w (Z.to_nat (2 * i + 1)) = Some (g i)) /\
            (forall m, 2 * n <= Z.of_nat m ->
               nth_error w m = nth_error w0 m));
    [lia|repeat split; auto; lia|].
  intros k w Hk (Lw & Hpos & Hrest).
  split; [rewrite !vset_length; assumption|split].
  - intros i Hi.
    destruct (Z.eq_dec i k) as [->|Hne].
    + split.
      * rewrite nth_error_vset_neq by lia.
        apply nth_error_vset_eq; lia.
      * apply nth_error_vset_eq; rewrite vset_length; lia.
    + rewrite !nth_error_vset_neq by lia; apply Hpos; lia.
  - intros m Hm.
    rewrite !nth_error_vset_neq by lia; apply Hrest; assumption.
Qed.

(** A loop that writes the entries [base + i] for [i] from [0] to [n - 1]
    leaves every other entry as it was. *)
Lemma run_fill_loop (c : float) base n (w0 : list float) :
  0 <= base -> base + n <= Z.of_nat (length w0) ->
  let w := for_int 0 n (fun i w => Vec.vset w (base + i) c) w0 in
  length w = length w0 /\
  (forall i, 0 <= i < n -> nth_error w (Z.to_nat (base + i)) = Some c) /\
  (forall m, Z.of_nat m < base \/ base + n <= Z.of_nat m ->
     nth_error w m = nth_error w0 m).
Proof.
  intros Hb HL; cbv zeta.
  destruct (Z.le_gt_cases 0 n) as [Hn|Hn].
  - apply for_int_invariant with
      (P := fun k w =>
              length w = length w0 /\
              (forall i, 0 <= i < k ->
                 nth_error w (Z.to_nat (base + i)) = Some c) /\
              (forall m, Z.of_nat m < base \/ base + n <= Z.of_nat m ->
                 nth_error w m = nth_error w0 m));
      [lia|repeat split; auto; lia|].
    intros k w Hk (Lw & Hrun & Hrest).
    split; [rewrite vset_length; assumption|split].
    + intros i Hi.
      destruct (Z.eq_dec i k) as [->|Hne].
      * apply nth_error_vset_eq; lia.
      * rewrite nth_error_vset_neq by lia; apply Hrun; lia.
    + intros m Hm.
      rewrite nth_error_vset_neq by lia; apply Hrest; assumption.
  - rewrite for_int_empty by lia; repeat split; auto; lia.
Qed.

(** ** CalculateOffset *)

(** X4.  With at least two reference points, the offset vector that
    [CalculateOffset] builds (as [Solve] calls it) has one entry per
    variable, [3N - 2]; the entries of point [i] are
    [-2.0 * weight_ref_deviation_ * x_i] and
    [-2.0 * weight_ref_deviation_ * y_i], and each of the [N - 2] entries
    after the positions is [weight_curvature_constraint_slack_var_]. *)
Theorem CalculateOffset_entries (this : FemPosDeviationSqpOsqpInterface) :
  let N := Z.of_nat (length (ref_points_ this)) in
  let q := CalculateOffset (set_problem_definitions this) [] in
  2 <= N ->
  Z.of_nat (length q) = 3 * N - 2 /\
  (forall i, 0 <= i < N ->
     nth_error q (Z.to_nat (2 * i))
     = Some (-2.0 * weight_ref_deviation_ this
             * fst (ref_point this i))%float /\
     nth_error q (Z.to_nat (2 * i + 1))
     = Some (-2.0 * weight_ref_deviation_ this
             * snd (ref_point this i))%float) /\
  (forall i, 0 <= i < N - 2 ->
     nth_error q (Z.to_nat (2 * N + i))
     = Some (weight_curvature_constraint_slack_var_ this)).
Proof.
  intros N q HN; subst q; unfold CalculateOffset.
  set (t := set_problem_definitions this).
  change (num_of_points_ t) with N.
  change (num_of_slack_variables_ t) with (N - 2).
  change (num_of_pos_variables_ t) with (N * 2).
  change (num_of_variables_ t) with (N * 2 + (N - 2)).
  change (weight_ref_deviation_ t) with (weight_ref_deviation_ this).
  change (weight_curvature_constraint_slack_var_ t)
    with (weight_curvature_constraint_slack_var_ this).
  cbv zeta.
  set (q0 := Vec.resize 0%float (N * 2 + (N - 2)) []).
  assert (L0 : length q0 = Z.to_nat (N * 2 + (N - 2)))
    by apply resize_nil_length.
  destruct (pair_fill_loop
              (fun i => (-2.0 * weight_ref_deviation_ this
                         * fst (ref_point this i))%float)
              (fun i => (-2.0 * weight_ref_deviation_ this
                         * snd (ref_point this i))%float)
              N q0) as (L1 & P1 & R1); [lia|lia|].
  cbv beta in L1, P1, R1.
  change (ref_point t) with (ref_point this).
  set (q1 := for_int 0 N _ q0) in *.
  destruct (run_fill_loop (weight_curvature_constraint_slack_var_ this)
                          (N * 2) (N - 2) q1) as (L2 & P2 & R2);
    [lia|lia|].
  cbv beta in L2, P2, R2.
  split; [rewrite L2, L1, L0; lia|split].
  - intros i Hi; rewrite !R2 by lia; apply P1; assumption.
  - intros i Hi.
    replace (2 * N + i) with (N * 2 + i) by lia; apply P2; assumption.
Qed.

Lemma CalculateOffset_entries_of_line4 :
  let q := CalculateOffset (set_problem_definitions line4) [] in
  2 <= Z.of_nat (length (ref_points_ line4)) /\
  Z.of_nat (length q) = 10 /\
  (forall i, 0 <= i < 4 ->
     nth_error q (Z.to_nat (2 * i))
     = Some (-2.0 * weight_ref_deviation_ line4
             * fst (ref_point line4 i))%float /\
     nth_error q (Z.to_nat (2 * i + 1))
     = Some (-2.0 * weight_ref_deviation_ line4
             * snd (ref_point line4 i))%float) /\
  (forall i, 0 <= i < 2 ->
     nth_error q (Z.to_nat (8 + i))
     = Some (weight_curvature_constraint_slack_var_ line4)).
Proof.
  intros q; split; [simpl; lia|].
  apply (CalculateOffset_entries line4); simpl; lia.
Defined.

(** ** CalculateAffineConstraint: the rows that keep their box *)

(** What the position loop stores: the box of point [i] in the rows [2i]
    and [2i + 1]. *)
Lemma affine_position_bounds_written
      (this : FemPosDeviationSqpOsqpInterface) lu i :
  0 <= i < num_of_points_ this ->
  2 * num_of_points_ this <= Z.of_nat (length (fst lu)) ->
  2 * num_of_points_ this <= Z.of_nat (length (snd lu)) ->
  let r := affine_position_bounds this lu in
  (nth_error (fst r) (Z.to_nat (2 * i))
   = Some (fst (ref_point this i) - bound_around_ref this i)%float /\
   nth_error (snd r) (Z.to_nat (2 * i))
   = Some (fst (ref_point this i) + bound_around_ref this i)%float) /\
  (nth_error (fst r) (Z.to_nat (2 * i + 1))
   = Some (snd (ref_point this i) - bound_around_ref this i)%float /\
   nth_error (snd r) (Z.to_nat (2 * i + 1))
   = Some (snd (ref_point this i) + bound_around_ref this i)%float).
Proof.
  intros Hi Hl Hu; cbv zeta; unfold affine_position_bounds.
  assert (G :
    forall st,
      st = for_int 0 (num_of_points_ this)
             (fun i '(lower, upper) =>
                let ref_point_xy := ref_point this i in
                let upper := Vec.vset upper (i * 2)
                   (fst ref_point_xy + bound_around_ref this i)%float in
                let upper := Vec.vset upper (i * 2 + 1)
                   (snd ref_point_xy + bound_around_ref this i)%float in
                let lower := Vec.vset lower (i * 2)
                   (fst ref_point_xy - bound_around_ref this i)%float in
                let lower := Vec.vset lower (i * 2 + 1)
                   (snd ref_point_xy - bound_around_ref this i)%float in
                (lower, upper)) lu ->
      (length (fst st) = length (fst lu) /\
       length (snd st) = length (snd lu)) /\
      forall j, 0 <= j < num_of_points_ this ->
        (nth_error (fst st) (Z.to_nat (2 * j))
         = Some (fst (ref_point this j) - bound_around_ref this j)%float /\
         nth_error (snd st) (Z.to_nat (2 * j))
         = Some (fst (ref_point this j) + bound_around_ref this j)%float) /\
        (nth_error (fst st) (Z.to_nat (2 * j + 1))
         = Some (snd (ref_point this j) - bound_around_ref this j)%float /\
         nth_error (snd st) (Z.to_nat (2 * j + 1))
         = Some (snd (ref_point this j) + bound_around_ref this j)%float)).
  { intros st ->.
    apply for_int_invariant with
      (P := fun k st =>
         (length (fst st) = length (fst lu) /\
          length (snd st) = length (snd lu)) /\
         forall j, 0 <= j < k ->
           (nth_error (fst st) (Z.to_nat (2 * j))
            = Some (fst (ref_point this j) - bound_around_ref this j)%float /\
            nth_error (snd st) (Z.to_nat (2 * j))
            = Some (fst (ref_point this j) + bound_around_ref this j)%float)
           /\
           (nth_error (fst st) (Z.to_nat (2 * j + 1))
            = Some (snd (ref_point this j) - bound_around_ref this j)%float /\
            nth_error (snd st) (Z.to_nat (2 * j + 1))
            = Some (snd (ref_point this j) + bound_around_ref this j)%float));
      [lia|split; [auto|intros; lia]|].
    intros k [l u] Hk [[Ll Lu] IH]; cbn [fst snd] in *; cbv zeta.
    rewrite !vset_length; split; [auto|].
    intros j Hj.
    destruct (Z.eq_dec j k) as [->|Hne].
    - replace (Z.to_nat (2 * k)) with (Z.to_nat (k * 2)) by lia.
      replace (Z.to_nat (2 * k + 1)) with (Z.to_nat (k * 2 + 1)) by lia.
      repeat split.
      + rewrite nth_error_vset_neq by lia.
        apply nth_error_vset_eq; lia.
      + rewrite nth_error_vset_neq by lia.
        apply nth_error_vset_eq; lia.
      + apply nth_error_vset_eq; rewrite vset_length; lia.
      + apply nth_error_vset_eq; rewrite vset_length; lia.
    - rewrite !nth_error_vset_neq by lia; apply IH; lia. }
  apply (G _ eq_refl); assumption.
Qed.

(** X5.  After [CalculateAffineConstraint] (as [Solve] calls it, with
    [N >= 3] points) every position row from row [N - 2] on holds the box of
    its point: row [2i] is [[x_i - r_i, x_i + r_i]] and row [2i + 1] is
    [[y_i - r_i, y_i + r_i]].  Rows below [N - 2] are the ones the slack loop
    writes afterwards. *)
Theorem CalculateAffineConstraint_boxes_from_row_N_minus_2
        (this : FemPosDeviationSqpOsqpInterface) (i : Z) :
  let N := Z.of_nat (length (ref_points_ this)) in
  let a := initial_affine this in
  3 <= N -> 0 <= i < N ->
  (N - 2 <= 2 * i ->
   nth_error (lower_bounds a) (Z.to_nat (2 * i))
   = Some (fst (ref_point this i) - bound_around_ref this i)%float /\
   nth_error (upper_bounds a) (Z.to_nat (2 * i))
   = Some (fst (ref_point this i) + bound_around_ref this i)%float) /\
  (N - 2 <= 2 * i + 1 ->
   nth_error (lower_bounds a) (Z.to_nat (2 * i + 1))
   = Some (snd (ref_point this i) - bound_around_ref this i)%float /\
   nth_error (upper_bounds a) (Z.to_nat (2 * i + 1))
   = Some (snd (ref_point this i) + bound_around_ref this i)%float).
Proof.
  intros N a HN Hi; subst a; unfold initial_affine.
  set (t := set_problem_definitions this).
  assert (Hpts : num_of_points_ t = N) by reflexivity.
  assert (Hslack : num_of_slack_variables_ t = N - 2) by reflexivity.
  assert (Hcons : num_of_constraints_ t = N * 2 + (N - 2) + (N - 2))
    by reflexivity.
  destruct (CalculateAffineConstraint_bounds t (mkAffine [] [] [] [] []))
    as [-> ->].
  cbn [lower_bounds upper_bounds].
  set (lu0 := (Vec.resize 0%float (num_of_constraints_ t) [],
               Vec.resize 0%float (num_of_constraints_ t) [])).
  assert (L0 : length (fst lu0) = Z.to_nat (num_of_constraints_ t))
    by apply resize_nil_length.
  assert (U0 : length (snd lu0) = Z.to_nat (num_of_constraints_ t))
    by apply resize_nil_length.
  destruct (affine_position_bounds_written t lu0 i) as [[A1 A2] [B1 B2]];
    try lia.
  split; intros Hrow.
  - destruct (affine_slack_bounds_frame t (affine_position_bounds t lu0)
                (Z.to_nat (2 * i))) as [S1 S2]; [lia|].
    split; [etransitivity; [exact S1|exact A1]
           |etransitivity; [exact S2|exact A2]].
  - destruct (affine_slack_bounds_frame t (affine_position_bounds t lu0)
                (Z.to_nat (2 * i + 1))) as [S1 S2]; [lia|].
    split; [etransitivity; [exact S1|exact B1]
           |etransitivity; [exact S2|exact B2]].
Qed.

Lemma CalculateAffineConstraint_boxes_of_line4 :
  let a := initial_affine line4 in
  (3 <= Z.of_nat (length (ref_points_ line4)) /\ 0 <= 1 < 4) /\
  (4 - 2 <= 2 * 1 ->
   nth_error (lower_bounds a) (Z.to_nat (2 * 1))
   = Some (fst (ref_point line4 1) - bound_around_ref line4 1)%float /\
   nth_error (upper_bounds a) (Z.to_nat (2 * 1))
   = Some (fst (ref_point line4 1) + bound_around_ref line4 1)%float) /\
  (4 - 2 <= 2 * 1 + 1 ->
   nth_error (lower_bounds a) (Z.to_nat (2 * 1 + 1))
   = Some (snd (ref_point line4 1) - bound_around_ref line4 1)%float /\
   nth_error (upper_bounds a) (Z.to_nat (2 * 1 + 1))
   = Some (snd (ref_point line4 1) + bound_around_ref line4 1)%float).
Proof.
  intros a; split; [simpl; lia|].
  apply (CalculateAffineConstraint_boxes_from_row_N_minus_2 line4 1);
    simpl; lia.
Defined.

(** X6.  The shapes of what [CalculateAffineConstraint] builds for [N >= 3]
    points: one bound pair per constraint ([4N - 4]), one unit value and
    one row index per variable ([3N - 2]) and one column pointer more; no
    stored entry lies in a curvature row [3N - 2 .. 4N - 5], so those rows
    of the matrix are empty. *)
Theorem CalculateAffineConstraint_shapes
        (this : FemPosDeviationSqpOsqpInterface) :
  let N := Z.of_nat (length (ref_points_ this)) in
  let a := initial_affine this in
  3 <= N ->
  Z.of_nat (length (lower_bounds a)) = 4 * N - 4 /\
  Z.of_nat (length (upper_bounds a)) = 4 * N - 4 /\
  Z.of_nat (length (A_data a)) = 3 * N - 2 /\
  Z.of_nat (length (A_indices a)) = 3 * N - 2 /\
  Z.of_nat (length (A_indptr a)) = 3 * N - 1 /\
  (forall row, In row (A_indices a) -> 0 <= row < 3 * N - 2) /\
  (forall value, In value (A_data a) -> value = 1%float).
Proof.
  intros N a HN; subst a; unfold initial_affine.
  set (t := set_problem_definitions this).
  assert (Hslack : num_of_slack_variables_ t = N - 2) by reflexivity.
  assert (Hvars : num_of_variables_ t = N * 2 + (N - 2)) by reflexivity.
  assert (Hcons : num_of_constraints_ t = N * 2 + (N - 2) + (N - 2))
    by reflexivity.
  destruct (CalculateAffineConstraint_bounds t (mkAffine [] [] [] [] []))
    as [-> ->].
  cbn [lower_bounds upper_bounds].
  set (lu0 := (Vec.resize 0%float (num_of_constraints_ t) [],
               Vec.resize 0%float (num_of_constraints_ t) [])).
  assert (L0 : length (fst lu0) = Z.to_nat (num_of_constraints_ t))
    by apply resize_nil_length.
  assert (U0 : length (snd lu0) = Z.to_nat (num_of_constraints_ t))
    by apply resize_nil_length.
  destruct (affine_position_bounds_length t lu0) as [Lp Up].
  assert (Ls :
    length (fst (affine_slack_bounds t (affine_position_bounds t lu0)))
    = length (fst (affine_position_bounds t lu0)) /\
    length (snd (affine_slack_bounds t (affine_position_bounds t lu0)))
    = length (snd (affine_position_bounds t lu0))).
  { unfold affine_slack_bounds.
    destruct (Z.le_gt_cases 0 (num_of_slack_variables_ t)) as [H|H].
    - apply for_int_invariant with
        (P := fun (_ : Z) st =>
           length (fst st) = length (fst (affine_position_bounds t lu0)) /\
           length (snd st) = length (snd (affine_position_bounds t lu0)));
        auto.
      intros k [l u] Hk [Hl Hu]; cbn [fst snd] in *.
      rewrite !vset_length; auto.
    - rewrite for_int_empty by lia; auto. }
  destruct Ls as [Ls Us].
  assert (Hl :
    length (fst (affine_slack_bounds t (affine_position_bounds t lu0)))
    = Z.to_nat (num_of_constraints_ t))
    by (etransitivity; [exact Ls|]; etransitivity; [exact Lp|]; exact L0).
  assert (Hu :
    length (snd (affine_slack_bounds t (affine_position_bounds t lu0)))
    = Z.to_nat (num_of_constraints_ t))
    by (etransitivity; [exact Us|]; etransitivity; [exact Up|]; exact U0).
  rewrite Hl, Hu; clear Ls Us Lp Up L0 U0 Hl Hu.
  pose proof (CalculateAffineConstraint_matrix t (mkAffine [] [] [] [] []))
    as E.
  cbn [A_data A_indices A_indptr] in E.
  rewrite affine_identity_nil in E by lia.
  injection E as -> -> ->.
  subst N; cbn [length].
  rewrite ?repeat_length, ?length_map, ?length_seq.
  do 5 (split; [lia|]).
  split.
  - intros row Hrow; apply in_map_iff in Hrow as (k & <- & Hk).
    apply in_seq in Hk; lia.
  - intros value Hv; apply repeat_spec in Hv; assumption.
Qed.

Lemma CalculateAffineConstraint_shapes_of_line4 :
  let a := initial_affine line4 in
  3 <= Z.of_nat (length (ref_points_ line4)) /\
  Z.of_nat (length (lower_bounds a)) = 12 /\
  Z.of_nat (length (upper_bounds a)) = 12 /\
  Z.of_nat (length (A_data a)) = 10 /\
  Z.of_nat (length (A_indices a)) = 10 /\
  Z.of_nat (length (A_indptr a)) = 11 /\
  (forall row, In row (A_indices a) -> 0 <= row < 10) /\
  (forall value, In value (A_data a) -> value = 1%float).
Proof.
  intros a; split; [simpl; lia|].
  apply (CalculateAffineConstraint_shapes line4); simpl; lia.
Defined.

(** ** SetPrimalWarmStart and UpdatePrimalWarmStart *)

(** The loop both functions share, run on the resized input vector. *)
Lemma warm_start_fill (this : FemPosDeviationSqpOsqpInterface)
      (w : list float) :
  let N := Z.of_nat (length (ref_points_ this)) in
  2 * N <= num_of_variables_ this ->
  let w' :=
    for_int 0 N (fun i w =>
      let w := Vec.vset w (2 * i) (fst (ref_point this i)) in
      Vec.vset w (2 * i + 1) (snd (ref_point this i)))
      (Vec.resize 0%float (num_of_variables_ this) w) in
  length w' = Z.to_nat (num_of_variables_ this) /\
  (forall i, 0 <= i < N ->
     nth_error w' (Z.to_nat (2 * i)) = Some (fst (ref_point this i)) /\
     nth_error w' (Z.to_nat (2 * i + 1)) = Some (snd (ref_point this i))) /\
  (forall k, 2 * N <= Z.of_nat k < num_of_variables_ this ->
     nth_error w' k = Some (nth k w 0%float)).
Proof.
  intros N HV; cbv zeta.
  set (w0 := Vec.resize 0%float (num_of_variables_ this) w).
  assert (L0 : length w0 = Z.to_nat (num_of_variables_ this))
    by apply resize_length.
  destruct (pair_fill_loop (fun i => fst (ref_point this i))
                           (fun i => snd (ref_point this i)) N w0)
    as (L1 & P1 & R1); [lia|lia|].
  cbv beta in L1, P1, R1.
  split; [rewrite L1; exact L0|split; [exact P1|]].
  intros k Hk; rewrite R1 by lia.
  apply nth_error_resize; lia.
Qed.

(** X7.  With the problem definitions set and at least two reference
    points, [SetPrimalWarmStart] passes its check and returns a vector with
    one entry per variable ([3N - 2]): the entries [2i] and [2i + 1] are the
    coordinates of reference point [i], and each entry after the positions
    keeps the value the vector had on entry there, or is [0.0] when the
    vector was shorter (as it is in [Solve], which passes an empty one). *)
Theorem SetPrimalWarmStart_entries
        (this : FemPosDeviationSqpOsqpInterface) (w : list c_float) :
  let N := Z.of_nat (length (ref_points_ this)) in
  2 <= N ->
  exists w',
    SetPrimalWarmStart (set_problem_definitions this) w = Pass w' /\
    Z.of_nat (length w') = 3 * N - 2 /\
    (forall i, 0 <= i < N ->
       nth_error w' (Z.to_nat (2 * i)) = Some (fst (ref_point this i)) /\
       nth_error w' (Z.to_nat (2 * i + 1)) = Some (snd (ref_point this i)))
    /\
    (forall k, 2 * N <= k < 3 * N - 2 ->
       nth_error w' (Z.to_nat k) = Some (nth (Z.to_nat k) w 0%float)).
Proof.
  intros N HN; unfold SetPrimalWarmStart.
  set (t := set_problem_definitions this).
  assert (Hvars : num_of_variables_ t = N * 2 + (N - 2)) by reflexivity.
  change (num_of_points_ t) with N.
  change (ref_points_ t) with (ref_points_ this); fold N.
  rewrite Z.eqb_refl; cbn [negb].
  destruct (warm_start_fill t w) as (L & P & R);
    [change (ref_points_ t) with (ref_points_ this); fold N; lia|].
  change (ref_points_ t) with (ref_points_ this) in *; fold N in L, P, R.
  match goal with
  | |- exists w', Pass ?x = Pass w' /\ _ =>
      exists x; split; [reflexivity|];
      assert (L' : length x = Z.to_nat (num_of_variables_ t)) by exact L
  end.
  split; [rewrite L'; lia|split; [exact P|]].
  intros k Hk; apply R; lia.
Qed.

Lemma SetPrimalWarmStart_entries_of_line4 :
  2 <= Z.of_nat (length (ref_points_ line4)) /\
  exists w',
    SetPrimalWarmStart (set_problem_definitions line4) line4_solution
    = Pass w' /\
    Z.of_nat (length w') = 10 /\
    (forall i, 0 <= i < 4 ->
       nth_error w' (Z.to_nat (2 * i)) = Some (fst (ref_point line4 i)) /\
       nth_error w' (Z.to_nat (2 * i + 1)) = Some (snd (ref_point line4 i)))
    /\
    (forall k, 8 <= k < 10 ->
       nth_error w' (Z.to_nat k)
       = Some (nth (Z.to_nat k) line4_solution 0%float)).
Proof.
  split; [simpl; lia|].
  apply (SetPrimalWarmStart_entries line4 line4_solution); simpl; lia.
Defined.

(** X8.  [UpdatePrimalWarmStart] does not read the position entries of the
    vector it is given: with the problem definitions set and at least two
    reference points, two vectors that agree on the entries
    [2N .. 3N - 3] give the same result, whose position entries are the
    reference points.  Given a solution of the solver it would put the
    reference points back. *)
Theorem UpdatePrimalWarmStart_ignores_positions
        (this : FemPosDeviationSqpOsqpInterface) (w1 w2 : list c_float) :
  let N := Z.of_nat (length (ref_points_ this)) in
  2 <= N ->
  (forall k, 2 * N <= Z.of_nat k < 3 * N - 2 ->
     nth k w1 0%float = nth k w2 0%float) ->
  UpdatePrimalWarmStart (set_problem_definitions this) w1
  = UpdatePrimalWarmStart (set_problem_definitions this) w2 /\
  exists w',
    UpdatePrimalWarmStart (set_problem_definitions this) w1 = Pass w' /\
    forall i, 0 <= i < N ->
      nth_error w' (Z.to_nat (2 * i)) = Some (fst (ref_point this i)) /\
      nth_error w' (Z.to_nat (2 * i + 1)) = Some (snd (ref_point this i)).
Proof.
  intros N HN Hagree; unfold UpdatePrimalWarmStart.
  set (t := set_problem_definitions this).
  assert (Hvars : num_of_variables_ t = N * 2 + (N - 2)) by reflexivity.
  change (num_of_points_ t) with N.
  change (ref_points_ t) with (ref_points_ this); fold N.
  rewrite Z.eqb_refl; cbn [negb].
  destruct (warm_start_fill t w1) as (L1 & P1 & R1);
    [change (ref_points_ t) with (ref_points_ this); fold N; lia|].
  destruct (warm_start_fill t w2) as (L2 & P2 & R2);
    [change (ref_points_ t) with (ref_points_ this); fold N; lia|].
  change (ref_points_ t) with (ref_points_ this) in *.
  fold N in L1, P1, R1, L2, P2, R2.
  match goal with
  | |- Pass ?x1 = Pass ?x2 /\ _ =>
      assert (A1 :
        length x1 = Z.to_nat (num_of_variables_ t) /\
        (forall i, 0 <= i < N ->
           nth_error x1 (Z.to_nat (2 * i)) = Some (fst (ref_point this i)) /\
           nth_error x1 (Z.to_nat (2 * i + 1))
           = Some (snd (ref_point this i))) /\
        (forall k, 2 * N <= Z.of_nat k < num_of_variables_ t ->
           nth_error x1 k = Some (nth k w1 0%float)))
        by exact (conj L1 (conj P1 R1));
      assert (A2 :
        length x2 = Z.to_nat (num_of_variables_ t) /\
        (forall i, 0 <= i < N ->
           nth_error x2 (Z.to_nat (2 * i)) = Some (fst (ref_point this i)) /\
           nth_error x2 (Z.to_nat (2 * i + 1))
           = Some (snd (ref_point this i))) /\
        (forall k, 2 * N <= Z.of_nat k < num_of_variables_ t ->
           nth_error x2 k = Some (nth k w2 0%float)))
        by exact (conj L2 (conj P2 R2));
      clear L1 P1 R1 L2 P2 R2;
      set (r1 := x1) in *; set (r2 := x2) in *; clearbody r1 r2
  end.
  destruct A1 as (L1 & P1 & R1), A2 as (L2 & P2 & R2).
  split; [|exists r1; split; [reflexivity|exact P1]].
  f_equal; apply nth_error_ext; intros k.
  destruct (Z.lt_ge_cases (Z.of_nat k) (2 * N)) as [Hpos|Hrest].
  - destruct (Z.Even_or_Odd (Z.of_nat k)) as [[i Hi]|[i Hi]].
    + replace k with (Z.to_nat (2 * i)) by lia.
      rewrite (proj1 (P1 i ltac:(lia))), (proj1 (P2 i ltac:(lia))).
      reflexivity.
    + replace k with (Z.to_nat (2 * i + 1)) by lia.
      rewrite (proj2 (P1 i ltac:(lia))), (proj2 (P2 i ltac:(lia))).
      reflexivity.
  - destruct (Z.lt_ge_cases (Z.of_nat k) (num_of_variables_ t))
      as [Hin|Hout].
    + rewrite R1, R2 by lia; f_equal; apply Hagree; lia.
    + rewrite !(proj2 (nth_error_None _ _)) by lia; reflexivity.
Qed.

Lemma UpdatePrimalWarmStart_ignores_positions_on_line4 :
  (2 <= Z.of_nat (length (ref_points_ line4)) /\
   forall k, 8 <= Z.of_nat k < 10 ->
     nth k line4_solution 0%float = nth k [] 0%float) /\
  UpdatePrimalWarmStart (set_problem_definitions line4) line4_solution
  = UpdatePrimalWarmStart (set_problem_definitions line4) [].
Proof.
  assert (H : forall k, 2 * 4 <= Z.of_nat k < 3 * 4 - 2 ->
                nth k line4_solution 0%float = nth k [] 0%float).
  { intros k Hk.
    assert (E : k = 8%nat \/ k = 9%nat) by lia.
    destruct E as [-> | ->]; reflexivity. }
  split; [split; [simpl; lia|exact H]|].
  apply (UpdatePrimalWarmStart_ignores_positions line4 line4_solution []);
    [simpl; lia|exact H].
Defined.

(** ** OptimizeWithOsqp *)

Lemma same_request_refl this : same_request this this.
Proof. unfold same_request; repeat split. Qed.

Lemma same_request_trans a b c :
  same_request a b -> same_request b c -> same_request a c.
Proof.
  unfold same_request; intros H1 H2.
  repeat match goal with
         | H : _ /\ _ |- _ => destruct H
         end.
  repeat split; congruence.
Qed.

Lemma same_definitions_refl this : same_definitions this this.
Proof. unfold same_definitions; repeat split. Qed.

Lemma same_definitions_trans a b c :
  same_definitions a b -> same_definitions b c -> same_definitions a c.
Proof.
  unfold same_definitions; intros H1 H2.
  repeat match goal with
         | H : _ /\ _ |- _ => destruct H
         end.
  repeat split; congruence.
Qed.

Lemma extract_primal_keeps this solution :
  same_request (extract_primal this solution) this /\
  same_definitions (extract_primal this solution) this.
Proof.
  unfold extract_primal.
  destruct (for_int _ _ _ _) as [x y].
  unfold same_request, same_definitions; repeat split.
Qed.

Lemma extract_primal_lengths this solution :
  length (x_ (extract_primal this solution)) = Z.to_nat (num_of_points_ this)
  /\
  length (y_ (extract_primal this solution)) = Z.to_nat (num_of_points_ this).
Proof.
  unfold extract_primal.
  set (x0 := Vec.resize 0%float (num_of_points_ this) (x_ this)).
  set (y0 := Vec.resize 0%float (num_of_points_ this) (y_ this)).
  assert (Lx : length x0 = Z.to_nat (num_of_points_ this))
    by apply resize_length.
  assert (Ly : length y0 = Z.to_nat (num_of_points_ this))
    by apply resize_length.
  destruct (Z.le_gt_cases 0 (num_of_points_ this)) as [HN|HN].
  - match goal with
    | |- context [for_int ?lo ?hi ?b ?s0] =>
        pose proof (for_int_invariant
          (fun (_ : Z) (st : list float * list float) =>
             length (fst st) = length x0 /\ length (snd st) = length y0)
          lo hi b s0 HN (conj eq_refl eq_refl)) as G
    end.
    destruct (for_int _ _ _ _) as [x y]; cbn [x_ y_ set_result fst snd] in *.
    destruct G as [G1 G2].
    { intros k [xk yk] Hk [Lxk Lyk]; cbn [fst snd] in *.
      rewrite !vset_length; auto. }
    split; [rewrite G1; exact Lx|rewrite G2; exact Ly].
  - rewrite for_int_empty by lia; cbn [x_ y_ set_result]; auto.
Qed.

(** X9.  [OptimizeWithOsqp] leaves the workspace as [osqp_solve] left it and
    never touches the request or the problem definitions.  When it returns
    [false] the object is exactly as before, so [x_] and [y_] keep what they
    held.  When it returns [true], [x_] and [y_] have one entry per point and
    entry [i] is the solution at [2i] and at [2i + 1]. *)
Theorem OptimizeWithOsqp_result
        (OSQPWorkspace : Type) (osqp : OSQP OSQPWorkspace)
        (this : FemPosDeviationSqpOsqpInterface)
        (primal_warm_start : list c_float) (work : OSQPWorkspace)
        (trace : list Call) :
  let solved :=
    osqp_solve osqp (osqp_warm_start_x osqp work primal_warm_start) in
  let r := OptimizeWithOsqp osqp this primal_warm_start work trace in
  let this' := snd (fst (fst r)) in
  snd (fst r) = solved /\
  same_request this' this /\
  same_definitions this' this /\
  (fst (fst (fst r)) = false -> this' = this) /\
  (fst (fst (fst r)) = true ->
   length (x_ this') = Z.to_nat (num_of_points_ this) /\
   length (y_ this') = Z.to_nat (num_of_points_ this) /\
   forall i, 0 <= i < num_of_points_ this ->
     nth_error (x_ this') (Z.to_nat i)
     = Some (Vec.get 0%float (solution_x osqp solved) (i * 2)) /\
     nth_error (y_ this') (Z.to_nat i)
     = Some (Vec.get 0%float (solution_x osqp solved) (i * 2 + 1))).
Proof.
  intros solved r this'; subst this' r; unfold OptimizeWithOsqp.
  fold solved.
  destruct (_ <? 0); [|destruct (_ && _)]; cbn [fst snd].
  - repeat split; try discriminate;
      auto using same_request_refl, same_definitions_refl.
  - repeat split; try discriminate;
      auto using same_request_refl, same_definitions_refl.
  - destruct (extract_primal_keeps this (solution_x osqp solved)) as [R D].
    destruct (extract_primal_lengths this (solution_x osqp solved))
      as [Lx Ly].
    split; [reflexivity|]; split; [exact R|]; split; [exact D|].
    split; [discriminate|].
    intros _; split; [exact Lx|]; split; [exact Ly|].
    intros i Hi; apply extract_primal_entries; assumption.
Qed.

(** ** The three ways a pass of the loop ends *)

Section PassCases.

Context {OSQPWorkspace : Type}.
Variable osqp : OSQP OSQPWorkspace.

Lemma status_accepted (status : Z) :
  status = 1 \/ status = 2 ->
  (status <? 0) = false /\
  negb (status =? 1) && negb (status =? 2) = false.
Proof. intros [-> | ->]; split; reflexivity. Qed.

Lemma status_refused (status : Z) :
  status <> 1 -> status <> 2 ->
  (if status <? 0 then true
   else negb (status =? 1) && negb (status =? 2)) = true.
Proof.
  intros H1 H2; destruct (status <? 0); [reflexivity|].
  destruct (Z.eqb_spec status 1), (Z.eqb_spec status 2);
    try contradiction; reflexivity.
Qed.

Lemma status_cases (status : Z) :
  (status = 1 \/ status = 2) \/ (status <> 1 /\ status <> 2).
Proof. lia. Qed.

Lemma sqp_iteration_fails w s :
  let solved := solved_in_pass osqp w s in
  info_status_val osqp solved <> 1 ->
  info_status_val osqp solved <> 2 ->
  sqp_iteration osqp w s
  = inl (false, sqp_this s,
         (pass_trace osqp w s ++ [AERROR failed_optimization_status])
           ++ [AERROR (iteration_solving_fails
                         (itr s) (sqp_max_iter_ (sqp_this s)))]
           ++ release).
Proof.
  intros solved H1 H2.
  pose proof (status_refused _ H1 H2) as R.
  unfold sqp_iteration, OptimizeWithOsqp, UpdateAffineConstraint, pass_trace.
  fold (solved_in_pass osqp w s); fold solved.
  destruct (info_status_val osqp solved <? 0).
  - cbn [negb]; rewrite <- !app_assoc; reflexivity.
  - rewrite R; cbn [negb]; rewrite <- !app_assoc; reflexivity.
Qed.

Lemma sqp_iteration_succeeds w s :
  let solved := solved_in_pass osqp w s in
  let change :=
    abs ((last_jvalue s - info_obj_val osqp solved) / last_jvalue s)%float in
  info_status_val osqp solved = 1 \/ info_status_val osqp solved = 2 ->
  sqp_iteration osqp w s
  = if (change <? sqp_jtol_ (sqp_this s))%float
    then inl (true, extract_primal (sqp_this s) (solution_x osqp solved),
              pass_trace osqp w s ++ release)
    else inr {| sqp_this :=
                  extract_primal (sqp_this s) (solution_x osqp solved);
                sqp_work := solved;
                sqp_trace := pass_trace osqp w s;
                sqp_affine := sqp_affine s;
                itr := itr s;
                iterative_solve_res := true;
                eps := change;
                last_jvalue := info_obj_val osqp solved |}.
Proof.
  intros solved change Hst.
  destruct (status_accepted _ Hst) as [Hneg H12].
  unfold sqp_iteration, OptimizeWithOsqp, UpdateAffineConstraint, pass_trace.
  fold (solved_in_pass osqp w s); fold solved.
  rewrite Hneg, H12; cbn [negb].
  rewrite (proj2 (extract_primal_settings (sqp_this s)
                                          (solution_x osqp solved))).
  fold change.
  destruct (change <? _)%float; rewrite <- !app_assoc; reflexivity.
Qed.

(** A property of the result of the loop follows from an invariant of its
    locals that every continuing pass keeps, when the property holds for
    each way of leaving the loop. *)
Lemma sqp_loop_rule
      (I : Sqp OSQPWorkspace -> Prop)
      (Q : Outcome * FemPosDeviationSqpOsqpInterface * list Call -> Prop)
      (w : list c_float) :
  (forall s, I s -> Q (OutOfFuel, sqp_this s, sqp_trace s)) ->
  (forall s, I s -> sqp_max_iter_ (sqp_this s) <= itr s ->
     Q (Returned false, sqp_this s,
        sqp_trace s
          ++ [AERROR (objective_not_converged
                        (eps s) (sqp_jtol_ (sqp_this s)))]
          ++ release)) ->
  (forall s b this trace, I s -> itr s < sqp_max_iter_ (sqp_this s) ->
     sqp_iteration osqp w s = inl (b, this, trace) ->
     Q (Returned b, this, trace)) ->
  (forall s s', I s -> itr s < sqp_max_iter_ (sqp_this s) ->
     sqp_iteration osqp w s = inr s' -> I s') ->
  forall fuel s, I s -> Q (sqp_loop osqp fuel w s).
Proof.
  intros Hfuel Hexh Hret Hcont fuel.
  induction fuel as [|fuel IH]; intros s Hs; cbn [sqp_loop].
  - apply Hfuel; assumption.
  - destruct (Z.ltb_spec (itr s) (sqp_max_iter_ (sqp_this s))) as [Hlt|Hge].
    + destruct (sqp_iteration osqp w s) as [[[b this] trace]|s'] eqn:E.
      * eapply Hret; eauto.
      * apply IH; eapply Hcont; eauto.
    + apply Hexh; assumption.
Qed.

End PassCases.

(** ** The four ways Solve goes *)

Section SolveCases.

Context {OSQPWorkspace : Type}.
Variable osqp : OSQP OSQPWorkspace.

Lemma SetPrimalWarmStart_passes (this : FemPosDeviationSqpOsqpInterface) w :
  exists w', SetPrimalWarmStart (set_problem_definitions this) w = Pass w'.
Proof.
  unfold SetPrimalWarmStart.
  change (num_of_points_ (set_problem_definitions this))
    with (Z.of_nat (length (ref_points_ (set_problem_definitions this)))).
  rewrite Z.eqb_refl; cbn [negb]; eexists; reflexivity.
Qed.

Ltac rejected := eexists; split; [|reflexivity]; exact I.

(** A run of [Solve] is rejected by the validation, or aborted in
    [CalculateKernel], or ended by a failing initial solve, or it enters the
    loop. *)
Lemma Solve_cases (fuel : nat) (this : FemPosDeviationSqpOsqpInterface) :
  let t := set_problem_definitions this in
  let entry := entering_the_loop osqp this in
  let status := info_status_val osqp (initial_work osqp this) in
  ((ref_points_ this = [] \/
    length (ref_points_ this) <> length (bounds_around_refs_ this) \/
    (length (ref_points_ this) < 3)%nat \/
    Z.of_nat (length (ref_points_ this)) > INT_MAX) /\
   exists d, validation_error d /\
             Solve osqp fuel this = (Returned false, this, [AERROR d])) \/
  (CalculateKernel t ([], [], []) = Fatal /\
   Solve osqp fuel this = (Aborted, t, [call_CalculateKernel])) \/
  (status <> 1 /\ status <> 2 /\
   Solve osqp fuel this
   = (Returned false, t,
      (sqp_trace entry ++ [AERROR failed_optimization_status])
        ++ [AERROR initial_iteration_solving_fails] ++ release)) \/
  ((status = 1 \/ status = 2) /\
   Solve osqp fuel this
   = sqp_loop osqp fuel (initial_warm_start this) entry).
Proof.
  intros t entry status; subst entry status.
  unfold Solve.
  destruct (Nat.eqb_spec (length (ref_points_ this)) 0) as [E0|E0].
  { left; split; [left; apply length_zero_iff_nil; exact E0|rejected]. }
  destruct (Nat.eqb_spec (length (ref_points_ this))
                         (length (bounds_around_refs_ this))) as [E1|E1];
    cbn [negb]; [|left; split; [right; left; exact E1|rejected]].
  destruct (Nat.ltb_spec (length (ref_points_ this)) 3) as [E2|E2];
    [left; split; [right; right; left; exact E2|rejected]|].
  destruct (Z.gtb_spec (Z.of_nat (length (ref_points_ this))) INT_MAX)
    as [E3|E3]; [left; split; [right; right; right; lia|rejected]|].
  right; fold t.
  unfold entering_the_loop, initial_work, setup_trace, initial_data,
    initial_kernel, initial_warm_start; fold t.
  destruct (CalculateKernel t ([], [], [])) as [P|];
    [|left; split; reflexivity].
  right.
  destruct (SetPrimalWarmStart_passes this []) as [w0 Hw]; fold t in Hw.
  rewrite Hw; fold (initial_affine this).
  unfold OptimizeWithOsqp; cbn [app].
  set (solved := osqp_solve osqp _).
  destruct (status_cases (info_status_val osqp solved)) as [Hok|[H1 H2]].
  - right; split; [assumption|].
    destruct (status_accepted _ Hok) as [-> ->]; cbn [negb].
    reflexivity.
  - left; split; [assumption|split; [assumption|]].
    pose proof (status_refused _ H1 H2) as R.
    destruct (info_status_val osqp solved <? 0).
    + cbn [negb sqp_trace app]; reflexivity.
    + rewrite R; cbn [negb sqp_trace app]; reflexivity.
Qed.

End SolveCases.

(** ** What every run of Solve keeps *)

Lemma objectives_app t1 t2 :
  objectives (t1 ++ t2) = objectives t1 ++ objectives t2.
Proof. apply flat_map_app. Qed.

Lemma set_problem_definitions_keeps this :
  same_request (set_problem_definitions this) this.
Proof. unfold same_request; repeat split. Qed.

(** The last error line of a failing run belongs to what precedes the
    teardown. *)
Lemma trace_before_release (trace : list Call) (c : Call) :
  trace ++ c :: release = (trace ++ [c]) ++ release.
Proof. rewrite <- app_assoc; reflexivity. Qed.

Section SolveKeeps.

Context {OSQPWorkspace : Type}.
Variable osqp : OSQP OSQPWorkspace.

(** The object a pass leaves: the one it found, or that one with the
    solution of the pass extracted. *)
Lemma sqp_iteration_object w s :
  let this' := extract_primal (sqp_this s)
                 (solution_x osqp (solved_in_pass osqp w s)) in
  match sqp_iteration osqp w s with
  | inl (_, this, _) => this = sqp_this s \/ this = this'
  | inr s' => sqp_this s' = this'
  end.
Proof.
  cbv zeta.
  destruct (status_cases
              (info_status_val osqp (solved_in_pass osqp w s)))
    as [Hok|[H1 H2]].
  - rewrite sqp_iteration_succeeds by assumption.
    destruct (_ <? _)%float; [right|]; reflexivity.
  - rewrite sqp_iteration_fails by assumption; left; reflexivity.
Qed.

(** A request the validation rejects leaves the object as it was. *)
Lemma Solve_rejected_object (fuel : nat) (this : FemPosDeviationSqpOsqpInterface) :
  ref_points_ this = [] \/
  length (ref_points_ this) <> length (bounds_around_refs_ this) \/
  (length (ref_points_ this) < 3)%nat \/
  Z.of_nat (length (ref_points_ this)) > INT_MAX ->
  snd (fst (Solve osqp fuel this)) = this.
Proof.
  intros H; unfold Solve.
  destruct (Nat.eqb_spec (length (ref_points_ this)) 0) as [E0|E0];
    [reflexivity|].
  destruct (Nat.eqb_spec (length (ref_points_ this))
                         (length (bounds_around_refs_ this))) as [E1|E1];
    cbn [negb]; [|reflexivity].
  destruct (Nat.ltb_spec (length (ref_points_ this)) 3) as [E2|E2];
    [reflexivity|].
  destruct (Z.gtb_spec (Z.of_nat (length (ref_points_ this))) INT_MAX)
    as [E3|E3]; [reflexivity|].
  exfalso; destruct H as [H|[H|[H|H]]]; try lia.
  rewrite H in E0; simpl in E0; congruence.
Qed.

(** The object a run leaves when the request passes the validation: the
    request unchanged, with the problem definitions of lines 54-62. *)
Lemma Solve_accepted_object (fuel : nat) (this : FemPosDeviationSqpOsqpInterface) :
  (exists d, Solve osqp fuel this = (Returned false, this, [AERROR d])) \/
  (same_request (snd (fst (Solve osqp fuel this))) this /\
   same_definitions (snd (fst (Solve osqp fuel this)))
                    (set_problem_definitions this)).
Proof.
  destruct (Solve_cases osqp fuel this)
    as [(_ & d & _ & E)|[(_ & ->)|[(_ & _ & ->)|(_ & ->)]]]; cbn [fst snd].
  - left; exists d; exact E.
  - right; split; [apply set_problem_definitions_keeps
                  |apply same_definitions_refl].
  - right; split; [apply set_problem_definitions_keeps
                  |apply same_definitions_refl].
  - right.
    apply (sqp_loop_rule osqp
             (fun s => same_request (sqp_this s) this /\
                       same_definitions (sqp_this s)
                                        (set_problem_definitions this))
             (fun r => same_request (snd (fst r)) this /\
                       same_definitions (snd (fst r))
                                        (set_problem_definitions this))).
    + intros s Hs; exact Hs.
    + intros s Hs _; exact Hs.
    + intros s b this1 trace [HR HD] _ E.
      pose proof (sqp_iteration_object (initial_warm_start this) s) as O.
      cbv zeta in O; rewrite E in O; cbn [fst snd].
      destruct (extract_primal_keeps (sqp_this s)
                  (solution_x osqp
                     (solved_in_pass osqp (initial_warm_start this) s)))
        as [KR KD].
      destruct O as [-> | ->]; split; auto;
        eauto using same_request_trans, same_definitions_trans.
    + intros s s' [HR HD] _ E.
      pose proof (sqp_iteration_object (initial_warm_start this) s) as O.
      cbv zeta in O; rewrite E in O; rewrite O.
      destruct (extract_primal_keeps (sqp_this s)
                  (solution_x osqp
                     (solved_in_pass osqp (initial_warm_start this) s)))
        as [KR KD].
      split; eauto using same_request_trans, same_definitions_trans.
    + cbn [entering_the_loop sqp_this].
      destruct (extract_primal_keeps (set_problem_definitions this)
                  (solution_x osqp (initial_work osqp this))) as [KR KD].
      split; [|exact KD].
      eapply same_request_trans;
        [exact KR|apply set_problem_definitions_keeps].
Qed.

(** X10.  No run of [Solve] changes the request: the reference points, the
    bound radii, the weights and the OSQP and SQP settings of the object it
    leaves are those it was given, whether it returns, is aborted or is
    still looping.  When the validation rejects the request (no points, a
    different number of radii, fewer than three points, more than
    [INT_MAX]) the object it leaves is the one it was given, with the
    problem definitions and [x_], [y_] it had.  When the request passes the
    validation the object holds the seven problem definitions computed
    from the number of points [N]: [N], [2N], [N - 2], [3N - 2], [3N - 2],
    [N - 2] and [4N - 4]. *)
Theorem Solve_keeps_the_request
        (fuel : nat) (this : FemPosDeviationSqpOsqpInterface) :
  let this' := snd (fst (Solve osqp fuel this)) in
  let N := Z.of_nat (length (ref_points_ this)) in
  let rejected :=
    ref_points_ this = [] \/
    length (ref_points_ this) <> length (bounds_around_refs_ this) \/
    (length (ref_points_ this) < 3)%nat \/
    Z.of_nat (length (ref_points_ this)) > INT_MAX in
  same_request this' this /\
  (rejected -> this' = this) /\
  (~ rejected ->
   same_definitions this' (set_problem_definitions this) /\
   num_of_points_ this' = N /\
   num_of_pos_variables_ this' = 2 * N /\
   num_of_slack_variables_ this' = N - 2 /\
   num_of_variables_ this' = 3 * N - 2 /\
   num_of_variable_constraints_ this' = 3 * N - 2 /\
   num_of_curvature_constraints_ this' = N - 2 /\
   num_of_constraints_ this' = 4 * N - 4).
Proof.
  intros this' N rejected; subst this' N rejected.
  split; [|split].
  - destruct (Solve_accepted_object fuel this) as [[d ->]|[HR _]];
      [apply same_request_refl|exact HR].
  - apply Solve_rejected_object.
  - intros Hok.
    destruct (Solve_accepted_object fuel this) as [[d E]|[_ HD]].
    + exfalso; apply Hok.
      destruct (Solve_cases osqp fuel this)
        as [(Hbad & _)|[(_ & E')|[(_ & _ & E')|(_ & E')]]];
        [exact Hbad|..]; rewrite E in E'.
      * discriminate E'.
      * apply (f_equal (fun r => length (snd r))) in E'.
        cbn [snd length] in E'; rewrite !length_app in E'.
        unfold entering_the_loop, setup_trace in E'.
        cbn [sqp_trace length app release] in E'; lia.
      * exfalso.
        revert E'.
        apply (sqp_loop_rule osqp
                 (fun s => (2 <= length (sqp_trace s))%nat)
                 (fun r =>
                    (Returned false, this, [AERROR d]) = r -> False)).
        -- intros s Hs; discriminate.
        -- intros s Hs _ E'.
           apply (f_equal (fun r => length (snd r))) in E'.
           cbn [snd length] in E'; rewrite !length_app in E'; lia.
        -- intros s b this1 trace Hs _ Ei E'.
           injection E' as _ _ <-.
           destruct (status_cases
                       (info_status_val osqp
                          (solved_in_pass osqp (initial_warm_start this) s)))
             as [Hst|[H1 H2]].
           ++ rewrite sqp_iteration_succeeds in Ei by assumption.
              destruct (_ <? _)%float; [|discriminate].
              injection Ei as _ _ Ei.
              apply (f_equal (@length Call)) in Ei.
              unfold pass_trace in Ei; rewrite !length_app in Ei.
              cbn [length] in Ei; lia.
           ++ rewrite sqp_iteration_fails in Ei by assumption.
              injection Ei as _ _ Ei.
              apply (f_equal (@length Call)) in Ei.
              unfold pass_trace in Ei; rewrite !length_app in Ei.
              cbn [length] in Ei; lia.
        -- intros s s' Hs _ Ei.
           destruct (status_cases
                       (info_status_val osqp
                          (solved_in_pass osqp (initial_warm_start this) s)))
             as [Hst|[H1 H2]].
           ++ rewrite sqp_iteration_succeeds in Ei by assumption.
              destruct (_ <? _)%float; [discriminate|].
              injection Ei as <-; cbn [sqp_trace].
              unfold pass_trace; rewrite !length_app; cbn [length]; lia.
           ++ rewrite sqp_iteration_fails in Ei by assumption; discriminate.
        -- unfold entering_the_loop, setup_trace; cbn [sqp_trace length app].
           lia.
    + split; [exact HD|].
      destruct HD as (D1 & D2 & D3 & D4 & D5 & D6 & D7).
      cbn [set_problem_definitions num_of_points_ num_of_pos_variables_
           num_of_slack_variables_ num_of_variables_
           num_of_variable_constraints_ num_of_curvature_constraints_
           num_of_constraints_] in D1, D2, D3, D4, D5, D6, D7.
      repeat split; lia.
Qed.

(** X11.  Every run of [Solve] that returns after setting the solver up
    ends with the teardown ([osqp_cleanup] and the four [c_free]) and has
    given nothing back before it; a run rejected by the validation has
    nothing to give back, and a run that is aborted or still looping has
    given nothing back. *)
Theorem Solve_releases_at_the_end
        (fuel : nat) (this : FemPosDeviationSqpOsqpInterface) :
  let trace := snd (Solve osqp fuel this) in
  match fst (fst (Solve osqp fuel this)) with
  | Returned _ =>
      (exists d, trace = [AERROR d]) \/
      (exists before,
          trace = before ++ release /\ Forall holds_resources before)
  | Aborted | OutOfFuel => Forall holds_resources trace
  end.
Proof.
  cbv zeta.
  destruct (Solve_cases osqp fuel this)
    as [(_ & d & _ & ->)|[(_ & ->)|[(_ & _ & ->)|(_ & ->)]]]; cbn [fst snd].
  - left; eexists; reflexivity.
  - repeat constructor.
  - right; eexists; split; [apply trace_before_release|].
    unfold entering_the_loop, setup_trace; cbn [sqp_trace app].
    repeat constructor.
  - apply (sqp_loop_rule osqp
             (fun s => Forall holds_resources (sqp_trace s))
             (fun r =>
                match fst (fst r) with
                | Returned _ =>
                    (exists d, snd r = [AERROR d]) \/
                    (exists before,
                        snd r = before ++ release /\
                        Forall holds_resources before)
                | _ => Forall holds_resources (snd r)
                end)).
    + intros s Hs; exact Hs.
    + intros s Hs _; cbn [fst snd].
      right; eexists; split; [apply trace_before_release|].
      rewrite Forall_app; split; [exact Hs|repeat constructor].
    + intros s b this1 trace Hs _ E; cbn [fst snd].
      assert (Hp : Forall holds_resources
                     (pass_trace osqp (initial_warm_start this) s))
        by (unfold pass_trace; rewrite Forall_app; split;
            [exact Hs|repeat constructor]).
      right.
      destruct (status_cases
                  (info_status_val osqp
                     (solved_in_pass osqp (initial_warm_start this) s)))
        as [Hok|[H1 H2]].
      * rewrite sqp_iteration_succeeds in E by assumption.
        destruct (_ <? _)%float; [|discriminate].
        injection E as _ _ <-.
        eexists; split; [reflexivity|exact Hp].
      * rewrite sqp_iteration_fails in E by assumption.
        injection E as _ _ <-.
        eexists; split; [apply trace_before_release|].
        rewrite !Forall_app; repeat split; auto; repeat constructor.
    + intros s s' Hs _ E.
      destruct (status_cases
                  (info_status_val osqp
                     (solved_in_pass osqp (initial_warm_start this) s)))
        as [Hok|[H1 H2]].
      * rewrite sqp_iteration_succeeds in E by assumption.
        destruct (_ <? _)%float; [discriminate|].
        injection E as <-; cbn [sqp_trace].
        unfold pass_trace; rewrite Forall_app; split;
          [exact Hs|repeat constructor].
      * rewrite sqp_iteration_fails in E by assumption; discriminate.
    + unfold entering_the_loop, setup_trace; cbn [sqp_trace app].
      repeat constructor.
Qed.

End SolveKeeps.

(** The run on [line4] passes the validation and leaves the object with the
    definitions of four points, which the request did not hold. *)
Lemma Solve_keeps_the_request_on_line4 :
  ~ (ref_points_ line4 = [] \/
     length (ref_points_ line4) <> length (bounds_around_refs_ line4) \/
     (length (ref_points_ line4) < 3)%nat \/
     Z.of_nat (length (ref_points_ line4)) > INT_MAX) /\
  same_request (snd (fst (Solve line4_solver 1 line4))) line4 /\
  num_of_variables_ (snd (fst (Solve line4_solver 1 line4))) = 10 /\
  num_of_constraints_ (snd (fst (Solve line4_solver 1 line4))) = 12 /\
  num_of_variables_ line4 = 0.
Proof.
  assert (Hok : ~ (ref_points_ line4 = [] \/
                   length (ref_points_ line4)
                   <> length (bounds_around_refs_ line4) \/
                   (length (ref_points_ line4) < 3)%nat \/
                   Z.of_nat (length (ref_points_ line4)) > INT_MAX)).
  { intros [H|[H|[H|H]]];
      [discriminate H|apply H; reflexivity|simpl in H; lia
      |unfold INT_MAX in H; simpl in H; lia]. }
  destruct (Solve_keeps_the_request line4_solver 1 line4) as (HR & _ & HD).
  destruct (HD Hok) as (_ & _ & _ & _ & Hv & _ & _ & Hc).
  split; [exact Hok|]; split; [exact HR|].
  split; [exact Hv|]; split; [exact Hc|reflexivity].
Defined.

(** ** What a successful run has seen *)

Section SolveConverged.

Context {OSQPWorkspace : Type}.
Variable osqp : OSQP OSQPWorkspace.

Lemma objectives_pass_trace w (s : Sqp OSQPWorkspace) :
  objectives (pass_trace osqp w s)
  = objectives (sqp_trace s)
      ++ [info_obj_val osqp (solved_in_pass osqp w s)].
Proof. unfold pass_trace; rewrite objectives_app; reflexivity. Qed.

Lemma solutions_pass_trace w (s : Sqp OSQPWorkspace) :
  solutions (pass_trace osqp w s)
  = solutions (sqp_trace s)
      ++ [solution_x osqp (solved_in_pass osqp w s)].
Proof. unfold pass_trace; rewrite solutions_app; reflexivity. Qed.

(** X12.  When [Solve] returns [true], the solver was run at least twice,
    the last two objective values it reported satisfy
    [|(prev - cur) / prev| < sqp_jtol_], and [x_] and [y_] hold, point by
    point, the last solution it reported. *)
Theorem Solve_true_means_converged
        (fuel : nat) (this : FemPosDeviationSqpOsqpInterface) :
  match Solve osqp fuel this with
  | (Returned true, this', trace) =>
      exists before prev_obj cur_obj earlier solution,
        objectives trace = before ++ [prev_obj; cur_obj] /\
        (abs ((prev_obj - cur_obj) / prev_obj) <? sqp_jtol_ this)%float
        = true /\
        solutions trace = earlier ++ [solution] /\
        forall i, 0 <= i < Z.of_nat (length (ref_points_ this)) ->
          nth_error (x_ this') (Z.to_nat i)
          = Some (Vec.get 0%float solution (i * 2)) /\
          nth_error (y_ this') (Z.to_nat i)
          = Some (Vec.get 0%float solution (i * 2 + 1))
  | _ => True
  end.
Proof.
  destruct (Solve_cases osqp fuel this)
    as [(_ & d & _ & ->)|[(_ & ->)|[(_ & _ & ->)|(_ & ->)]]]; try exact I.
  apply (sqp_loop_rule osqp
           (fun s =>
              sqp_jtol_ (sqp_this s) = sqp_jtol_ this /\
              num_of_points_ (sqp_this s)
              = Z.of_nat (length (ref_points_ this)) /\
              exists before,
                objectives (sqp_trace s) = before ++ [last_jvalue s])
           (fun r =>
              match r with
              | (Returned true, this', trace) =>
                  exists before prev_obj cur_obj earlier solution,
                    objectives trace = before ++ [prev_obj; cur_obj] /\
                    (abs ((prev_obj - cur_obj) / prev_obj)
                     <? sqp_jtol_ this)%float = true /\
                    solutions trace = earlier ++ [solution] /\
                    forall i, 0 <= i < Z.of_nat (length (ref_points_ this)) ->
                      nth_error (x_ this') (Z.to_nat i)
                      = Some (Vec.get 0%float solution (i * 2)) /\
                      nth_error (y_ this') (Z.to_nat i)
                      = Some (Vec.get 0%float solution (i * 2 + 1))
              | _ => True
              end)).
  - intros s _; exact I.
  - intros s _ _; exact I.
  - intros s b this1 trace (Htol & Hpts & before & Hobj) _ E.
    destruct (status_cases
                (info_status_val osqp
                   (solved_in_pass osqp (initial_warm_start this) s)))
      as [Hok|[H1 H2]].
    + rewrite sqp_iteration_succeeds in E by assumption.
      destruct (_ <? _)%float eqn:T; [|discriminate].
      injection E as <- <- <-.
      exists before, (last_jvalue s),
        (info_obj_val osqp
           (solved_in_pass osqp (initial_warm_start this) s)),
        (solutions (sqp_trace s)),
        (solution_x osqp
           (solved_in_pass osqp (initial_warm_start this) s)).
      rewrite objectives_app, solutions_app, objectives_pass_trace,
        solutions_pass_trace, Hobj, <- Htol.
      cbn [objectives solutions release flat_map app].
      rewrite !app_nil_r, <- app_assoc.
      repeat split; try reflexivity; try exact T;
        apply extract_primal_entries; rewrite Hpts; assumption.
    + rewrite sqp_iteration_fails in E by assumption.
      injection E as <- _ _; exact I.
  - intros s s' (Htol & Hpts & before & Hobj) _ E.
    destruct (status_cases
                (info_status_val osqp
                   (solved_in_pass osqp (initial_warm_start this) s)))
      as [Hok|[H1 H2]].
    + rewrite sqp_iteration_succeeds in E by assumption.
      destruct (_ <? _)%float; [discriminate|].
      injection E as <-; cbn [sqp_this sqp_trace last_jvalue].
      destruct (extract_primal_keeps (sqp_this s)
                  (solution_x osqp
                     (solved_in_pass osqp (initial_warm_start this) s)))
        as [KR KD].
      split; [rewrite <- Htol; apply KR|].
      split; [rewrite <- Hpts; apply KD|].
      eexists; rewrite objectives_pass_trace; reflexivity.
    + rewrite sqp_iteration_fails in E by assumption; discriminate.
  - cbn [entering_the_loop sqp_this sqp_trace last_jvalue].
    destruct (extract_primal_keeps (set_problem_definitions this)
                (solution_x osqp (initial_work osqp this))) as [KR KD].
    split; [apply KR|split; [apply KD|]].
    exists []; rewrite objectives_app; reflexivity.
Qed.

End SolveConverged.

(** The statement above is not empty: the run on [line4] returns [true]. *)
Example line4_converges :
  fst (fst (Solve line4_solver 1 line4)) = Returned true /\
  objectives (snd (Solve line4_solver 1 line4)) = [-11.185; -11.185]%float.
Proof. split; vm_compute; reflexivity. Qed.

(** ** Valid requests from four points on *)

Section ValidRequests.

Context {OSQPWorkspace : Type}.
Variable osqp : OSQP OSQPWorkspace.

(** A request that passes the validation with at least four points gets
    past [CalculateKernel]: its run ends at the initial solve or enters the
    loop. *)
Lemma Solve_valid_cases (fuel : nat) (this : FemPosDeviationSqpOsqpInterface) :
  let N := Z.of_nat (length (ref_points_ this)) in
  let t := set_problem_definitions this in
  let entry := entering_the_loop osqp this in
  let status := info_status_val osqp (initial_work osqp this) in
  4 <= N <= INT_MAX ->
  length (ref_points_ this) = length (bounds_around_refs_ this) ->
  (status <> 1 /\ status <> 2 /\
   Solve osqp fuel this
   = (Returned false, t,
      (sqp_trace entry ++ [AERROR failed_optimization_status])
        ++ [AERROR initial_iteration_solving_fails] ++ release)) \/
  ((status = 1 \/ status = 2) /\
   Solve osqp fuel this
   = sqp_loop osqp fuel (initial_warm_start this) entry).
Proof.
  intros N t entry status HN HL; subst N.
  destruct (Solve_cases osqp fuel this) as [(Hbad & _)|[(HK & _)|H]].
  - exfalso; destruct Hbad as [H|[H|[H|H]]]; try lia.
    rewrite H in HN; cbn in HN; lia.
  - rewrite CalculateKernel_pass_from_four in HK by lia.
    discriminate.
  - exact H.
Qed.

(** X13.  A valid request of at least four points whose initial solve
    fails (a status other than 1 and 2): [Solve] returns [false] after
    that one solve, whatever the fuel, with the two error lines and the
    teardown, and the object holds the problem definitions and the [x_] and
    [y_] it had. *)
Theorem Solve_fails_at_the_initial_solve
        (fuel : nat) (this : FemPosDeviationSqpOsqpInterface) :
  let N := Z.of_nat (length (ref_points_ this)) in
  let solved := initial_work osqp this in
  4 <= N <= INT_MAX ->
  length (ref_points_ this) = length (bounds_around_refs_ this) ->
  info_status_val osqp solved <> 1 ->
  info_status_val osqp solved <> 2 ->
  Solve osqp fuel this
  = (Returned false, set_problem_definitions this,
     setup_trace this
       ++ [call_osqp_warm_start_x (initial_warm_start this);
           call_osqp_solve (info_status_val osqp solved)
                           (info_obj_val osqp solved)
                           (solution_x osqp solved);
           AERROR failed_optimization_status;
           AERROR initial_iteration_solving_fails]
       ++ release) /\
  x_ (set_problem_definitions this) = x_ this /\
  y_ (set_problem_definitions this) = y_ this.
Proof.
  intros N solved HN HL H1 H2.
  destruct (Solve_valid_cases fuel this HN HL)
    as [(_ & _ & ->)|([E|E] & _)]; try contradiction.
  split; [|split; reflexivity].
  cbn [entering_the_loop sqp_trace]; fold solved.
  rewrite <- !app_assoc; reflexivity.
Qed.

(** X14.  A valid request of at least four points with
    [sqp_max_iter_ <= 1] and a successful initial solve: the loop is not
    entered, and [Solve] returns [false] with the "objective not converged"
    line, reporting the relative change [1.0] it started from, although [x_]
    and [y_] hold the solution of the initial solve. *)
Theorem Solve_without_a_pass
        (fuel : nat) (this : FemPosDeviationSqpOsqpInterface) :
  let N := Z.of_nat (length (ref_points_ this)) in
  let solved := initial_work osqp this in
  4 <= N <= INT_MAX ->
  length (ref_points_ this) = length (bounds_around_refs_ this) ->
  sqp_max_iter_ this <= 1 ->
  info_status_val osqp solved = 1 \/ info_status_val osqp solved = 2 ->
  Solve osqp (S fuel) this
  = (Returned false,
     extract_primal (set_problem_definitions this) (solution_x osqp solved),
     setup_trace this
       ++ [call_osqp_warm_start_x (initial_warm_start this);
           call_osqp_solve (info_status_val osqp solved)
                           (info_obj_val osqp solved)
                           (solution_x osqp solved);
           AERROR (objective_not_converged 1.0 (sqp_jtol_ this))]
       ++ release).
Proof.
  intros N solved HN HL Hmax Hok.
  destruct (Solve_valid_cases (S fuel) this HN HL)
    as [(H1 & H2 & _)|(_ & ->)].
  - exfalso; fold solved in H1, H2; destruct Hok; contradiction.
  - destruct (extract_primal_settings (set_problem_definitions this)
                                      (solution_x osqp solved)) as [Em Et].
    rewrite sqp_loop_exhausted
      by (cbn [entering_the_loop sqp_this itr]; fold solved;
          rewrite Em; exact Hmax).
    cbn [entering_the_loop sqp_this sqp_trace eps]; fold solved.
    rewrite Et, <- !app_assoc; reflexivity.
Qed.

End ValidRequests.

Lemma Solve_fails_at_the_initial_solve_on_line4 :
  (4 <= Z.of_nat (length (ref_points_ line4)) <= INT_MAX /\
   length (ref_points_ line4) = length (bounds_around_refs_ line4) /\
   info_status_val (reporting_solver (-3) 10)
                   (initial_work (reporting_solver (-3) 10) line4) <> 1 /\
   info_status_val (reporting_solver (-3) 10)
                   (initial_work (reporting_solver (-3) 10) line4) <> 2) /\
  fst (fst (Solve (reporting_solver (-3) 10) 5 line4)) = Returned false /\
  x_ (set_problem_definitions line4) = x_ line4.
Proof.
  assert (HN : 4 <= Z.of_nat (length (ref_points_ line4)) <= INT_MAX)
    by (unfold INT_MAX; simpl; lia).
  assert (H1 : info_status_val (reporting_solver (-3) 10)
                 (initial_work (reporting_solver (-3) 10) line4) <> 1)
    by (simpl; lia).
  assert (H2 : info_status_val (reporting_solver (-3) 10)
                 (initial_work (reporting_solver (-3) 10) line4) <> 2)
    by (simpl; lia).
  split; [split; [exact HN|split; [reflexivity|split; assumption]]|].
  destruct (Solve_fails_at_the_initial_solve
              (reporting_solver (-3) 10) 5 line4 HN eq_refl H1 H2)
    as (E & Ex & _).
  split; [rewrite E; reflexivity|exact Ex].
Defined.

Lemma Solve_without_a_pass_on_line4 :
  (4 <= Z.of_nat (length (ref_points_ (with_sqp_max_iter 1 line4)))
   <= INT_MAX /\
   sqp_max_iter_ (with_sqp_max_iter 1 line4) <= 1) /\
  fst (fst (Solve line4_solver 1 (with_sqp_max_iter 1 line4)))
  = Returned false.
Proof.
  assert (HN : 4 <= Z.of_nat (length (ref_points_
                                        (with_sqp_max_iter 1 line4)))
               <= INT_MAX)
    by (unfold INT_MAX; simpl; lia).
  assert (Hm : sqp_max_iter_ (with_sqp_max_iter 1 line4) <= 1)
    by (simpl; lia).
  split; [split; assumption|].
  rewrite (Solve_without_a_pass line4_solver 0
             (with_sqp_max_iter 1 line4) HN eq_refl Hm
             (or_introl eq_refl)).
  reflexivity.
Defined.

(** ** Solves, statuses and error lines of a run *)

Lemma statuses_app t1 t2 :
  statuses (t1 ++ t2) = statuses t1 ++ statuses t2.
Proof. apply flat_map_app. Qed.

Lemma Forall_removelast {A : Type} (P : A -> Prop) (l : list A) :
  Forall P l -> Forall P (removelast l).
Proof.
  induction 1 as [|a l Ha Hl IH]; [constructor|].
  cbn [removelast]; destruct l; [constructor|].
  constructor; assumption.
Qed.

Section SolveRuns.

Context {OSQPWorkspace : Type}.
Variable osqp : OSQP OSQPWorkspace.

Lemma statuses_pass_trace w (s : Sqp OSQPWorkspace) :
  statuses (pass_trace osqp w s)
  = statuses (sqp_trace s)
      ++ [info_status_val osqp (solved_in_pass osqp w s)].
Proof. unfold pass_trace; rewrite statuses_app; reflexivity. Qed.

(** X15.  [Solve] stops at the first solve the solver fails: in every run,
    every solve before the last one reported status 1 or 2, and in a run
    that returns [true] or is still looping the last one did too. *)
Theorem Solve_stops_at_the_first_failed_solve
        (fuel : nat) (this : FemPosDeviationSqpOsqpInterface) :
  let trace := snd (Solve osqp fuel this) in
  Forall accepted (removelast (statuses trace)) /\
  match fst (fst (Solve osqp fuel this)) with
  | Returned true | OutOfFuel => Forall accepted (statuses trace)
  | Returned false | Aborted => True
  end.
Proof.
  cbv zeta.
  destruct (Solve_cases osqp fuel this)
    as [(_ & d & _ & ->)|[(_ & ->)|[(_ & _ & ->)|(Hok & ->)]]]; cbn [fst snd].
  - split; [constructor|exact I].
  - split; [constructor|exact I].
  - split; [|exact I].
    unfold entering_the_loop, setup_trace; cbn; constructor.
  - apply (sqp_loop_rule osqp
             (fun s => Forall accepted (statuses (sqp_trace s)))
             (fun r =>
                Forall accepted (removelast (statuses (snd r))) /\
                match fst (fst r) with
                | Returned true | OutOfFuel =>
                    Forall accepted (statuses (snd r))
                | Returned false | Aborted => True
                end)).
    + intros s Hs; cbn [fst snd].
      split; [apply Forall_removelast|]; exact Hs.
    + intros s Hs _; cbn [fst snd].
      split; [|exact I].
      rewrite statuses_app; cbn [statuses flat_map release app].
      rewrite app_nil_r; apply Forall_removelast; exact Hs.
    + intros s b this1 trace Hs _ E; cbn [fst snd].
      destruct (status_cases
                  (info_status_val osqp
                     (solved_in_pass osqp (initial_warm_start this) s)))
        as [Hacc|[H1 H2]].
      * rewrite sqp_iteration_succeeds in E by assumption.
        destruct (_ <? _)%float; [|discriminate].
        injection E as <- _ <-.
        assert (G : Forall accepted
                      (statuses
                         (pass_trace osqp (initial_warm_start this) s
                          ++ release))).
        { rewrite statuses_app, statuses_pass_trace.
          cbn [statuses flat_map release app]; rewrite app_nil_r.
          rewrite Forall_app; split; [exact Hs|].
          constructor; [exact Hacc|constructor]. }
        split; [apply Forall_removelast|]; exact G.
      * rewrite sqp_iteration_fails in E by assumption.
        injection E as <- _ <-.
        split; [|exact I].
        rewrite !statuses_app, statuses_pass_trace.
        cbn [statuses flat_map release app]; rewrite !app_nil_r.
        rewrite removelast_last; exact Hs.
    + intros s s' Hs _ E.
      destruct (status_cases
                  (info_status_val osqp
                     (solved_in_pass osqp (initial_warm_start this) s)))
        as [Hacc|[H1 H2]].
      * rewrite sqp_iteration_succeeds in E by assumption.
        destruct (_ <? _)%float; [discriminate|].
        injection E as <-; cbn [sqp_trace].
        rewrite statuses_pass_trace, Forall_app; split; [exact Hs|].
        constructor; [exact Hacc|constructor].
    * rewrite sqp_iteration_fails in E by assumption; discriminate.
    + unfold entering_the_loop, setup_trace; cbn.
      constructor; [exact Hok|constructor].
Qed.

Lemma pass_trace_never_reports_non_convergence w (s : Sqp OSQPWorkspace) :
  Forall not_the_convergence_error (sqp_trace s) ->
  Forall not_the_convergence_error (pass_trace osqp w s).
Proof.
  intros Hs; unfold pass_trace; rewrite Forall_app; split; [exact Hs|].
  repeat constructor.
Qed.

(** X16.  With [sqp_max_iter_ > 1] no run of [Solve] writes the
    "objective not converged" error line: the loop is entered with [itr = 1]
    and no pass changes [itr], so the exit below the loop is never taken. *)
Theorem Solve_never_reports_non_convergence
        (fuel : nat) (this : FemPosDeviationSqpOsqpInterface) :
  1 < sqp_max_iter_ this ->
  Forall not_the_convergence_error (snd (Solve osqp fuel this)).
Proof.
  intros Hmax.
  destruct (Solve_cases osqp fuel this)
    as [(_ & d & Hd & ->)|[(_ & ->)|[(_ & _ & ->)|(_ & ->)]]];
    cbn [fst snd].
  - constructor; [|constructor].
    destruct d; try contradiction; exact I.
  - repeat constructor.
  - unfold entering_the_loop, setup_trace; cbn [sqp_trace app].
    repeat constructor.
  - apply (sqp_loop_rule osqp
             (fun s =>
                itr s = 1 /\
                sqp_max_iter_ (sqp_this s) = sqp_max_iter_ this /\
                Forall not_the_convergence_error (sqp_trace s))
             (fun r => Forall not_the_convergence_error (snd r))).
    + intros s (_ & _ & Hs); exact Hs.
    + intros s (Hitr & Hm & _) Hexh; exfalso; lia.
    + intros s b this1 trace (_ & _ & Hs) _ E; cbn [snd].
      pose proof (pass_trace_never_reports_non_convergence
                    (initial_warm_start this) s Hs) as Hp.
      destruct (status_cases
                  (info_status_val osqp
                     (solved_in_pass osqp (initial_warm_start this) s)))
        as [Hacc|[H1 H2]].
      * rewrite sqp_iteration_succeeds in E by assumption.
        destruct (_ <? _)%float; [|discriminate].
        injection E as _ _ <-.
        rewrite Forall_app; split; [exact Hp|repeat constructor].
      * rewrite sqp_iteration_fails in E by assumption.
        injection E as _ _ <-.
        rewrite !Forall_app; repeat split; auto; repeat constructor.
    + intros s s' (Hitr & Hm & Hs) _ E.
      destruct (status_cases
                  (info_status_val osqp
                     (solved_in_pass osqp (initial_warm_start this) s)))
        as [Hacc|[H1 H2]].
      * rewrite sqp_iteration_succeeds in E by assumption.
        destruct (_ <? _)%float; [discriminate|].
        injection E as <-; cbn [itr sqp_this sqp_trace].
        split; [exact Hitr|split].
        -- rewrite (proj1 (extract_primal_settings _ _)); exact Hm.
        -- apply pass_trace_never_reports_non_convergence; exact Hs.
      * rewrite sqp_iteration_fails in E by assumption; discriminate.
    + cbn [entering_the_loop itr sqp_this sqp_trace].
      split; [reflexivity|split].
      * rewrite (proj1 (extract_primal_settings _ _)); reflexivity.
      * unfold setup_trace; cbn [app]; repeat constructor.
Qed.

End SolveRuns.

Lemma Solve_never_reports_non_convergence_on_line4 :
  1 < sqp_max_iter_ line4 /\
  Forall not_the_convergence_error (snd (Solve line4_solver 1 line4)).
Proof.
  split; [simpl; lia|].
  apply (Solve_never_reports_non_convergence line4_solver 1 line4).
  simpl; lia.
Defined.

(** ** What the solver is set up with *)

Section SolverSetup.

Context {OSQPWorkspace : Type}.
Variable osqp : OSQP OSQPWorkspace.

(** The loop only appends to the trace. *)
Lemma sqp_loop_extends fuel w (s : Sqp OSQPWorkspace) :
  exists rest, snd (sqp_loop osqp fuel w s) = sqp_trace s ++ rest.
Proof.
  apply (sqp_loop_rule osqp
           (fun s' => exists r, sqp_trace s' = sqp_trace s ++ r)
           (fun r => exists rest, snd r = sqp_trace s ++ rest) w).
  - intros s' Hs'; exact Hs'.
  - intros s' [r Hr] _; cbn [snd].
    eexists; rewrite Hr, <- app_assoc; reflexivity.
  - intros s' b this1 trace [r Hr] _ E; cbn [snd].
    destruct (status_cases
                (info_status_val osqp (solved_in_pass osqp w s')))
      as [Hacc|[H1 H2]].
    + rewrite sqp_iteration_succeeds in E by assumption.
      destruct (_ <? _)%float; [|discriminate].
      injection E as _ _ <-.
      unfold pass_trace; eexists; rewrite Hr, <- !app_assoc; reflexivity.
    + rewrite sqp_iteration_fails in E by assumption.
      injection E as _ _ <-.
      unfold pass_trace; eexists; rewrite Hr, <- !app_assoc; reflexivity.
  - intros s' s'' [r Hr] _ E.
    destruct (status_cases
                (info_status_val osqp (solved_in_pass osqp w s')))
      as [Hacc|[H1 H2]].
    + rewrite sqp_iteration_succeeds in E by assumption.
      destruct (_ <? _)%float; [discriminate|].
      injection E as <-; cbn [sqp_trace].
      unfold pass_trace; eexists; rewrite Hr, <- app_assoc; reflexivity.
    + rewrite sqp_iteration_fails in E by assumption; discriminate.
  - exists []; rewrite app_nil_r; reflexivity.
Qed.

(** X17.  For a valid request of [N >= 4] points every run of [Solve]
    begins with the four builders, the two allocations and the two
    [csc_matrix] calls, one [osqp_setup] and the first warm start, in that
    order.  The problem handed to [osqp_setup] has [3N - 2] variables and
    [4N - 4] constraints; its kernel is declared [(3N-2) x (3N-2)] with
    [6N - 6] stored values and carries [2N + 1] column pointers (those of
    the position columns), and its constraint matrix is declared
    [(4N-4) x (3N-2)] with [3N - 2] stored values and [3N - 1] column
    pointers. *)
Theorem Solve_sets_the_solver_up
        (fuel : nat) (this : FemPosDeviationSqpOsqpInterface) :
  let N := Z.of_nat (length (ref_points_ this)) in
  let data := initial_data this in
  4 <= N <= INT_MAX ->
  length (ref_points_ this) = length (bounds_around_refs_ this) ->
  (exists rest,
      snd (Solve osqp fuel this)
      = setup_trace this
          ++ call_osqp_warm_start_x (initial_warm_start this) :: rest) /\
  (data_n data = 3 * N - 2 /\ data_m data = 4 * N - 4) /\
  (csc_m (data_P data) = 3 * N - 2 /\
   csc_n (data_P data) = 3 * N - 2 /\
   csc_nzmax (data_P data) = 6 * N - 6 /\
   Z.of_nat (length (csc_x (data_P data))) = 6 * N - 6 /\
   Z.of_nat (length (csc_i (data_P data))) = 6 * N - 6 /\
   Z.of_nat (length (csc_p (data_P data))) = 2 * N + 1) /\
  (csc_m (data_A data) = 4 * N - 4 /\
   csc_n (data_A data) = 3 * N - 2 /\
   csc_nzmax (data_A data) = 3 * N - 2 /\
   Z.of_nat (length (csc_x (data_A data))) = 3 * N - 2 /\
   Z.of_nat (length (csc_i (data_A data))) = 3 * N - 2 /\
   Z.of_nat (length (csc_p (data_A data))) = 3 * N - 1).
Proof.
  intros N data HN HL; subst data N.
  set (n := Z.of_nat (length (ref_points_ this))) in *.
  split.
  { destruct (Solve_valid_cases osqp fuel this HN HL)
      as [(_ & _ & ->)|(_ & ->)].
    - cbn [snd entering_the_loop sqp_trace].
      eexists; rewrite <- !app_assoc; cbn [app]; reflexivity.
    - destruct (sqp_loop_extends fuel (initial_warm_start this)
                                 (entering_the_loop osqp this))
        as [rest ->].
      cbn [entering_the_loop sqp_trace].
      eexists; rewrite <- !app_assoc; cbn [app]; reflexivity. }
  pose proof (CalculateKernel_pass_from_four this ltac:(fold n; lia)) as K.
  fold n in K; rewrite emit_columns_spec in K by lia.
  pose proof (kernel_stored_before this (Z.to_nat (2 * n))
                ltac:(fold n; lia) ltac:(fold n; lia)) as Hnz.
  replace (Z.of_nat (Z.to_nat (2 * n))) with (2 * n) in Hnz by lia.
  assert (Hend : kernel_band_start (2 * n) = 6 * n - 6).
  { unfold kernel_band_start.
    destruct (Z.leb_spec (2 * n) 2), (Z.leb_spec (2 * n) 4); lia. }
  pose proof (CalculateAffineConstraint_matrix
                (set_problem_definitions this) (mkAffine [] [] [] [] []))
    as E.
  cbn [A_data A_indices A_indptr] in E.
  rewrite affine_identity_nil in E by (cbn; fold n; lia).
  change (num_of_variables_ (set_problem_definitions this))
    with (n * 2 + (n - 2)) in E.
  fold (initial_affine this) in E.
  injection E as Ed Ei Ep.
  unfold initial_data, initial_kernel; rewrite K.
  unfold load_data.
  cbn [data_n data_m data_P data_A csc_m csc_n csc_nzmax csc_x csc_i csc_p].
  change (num_of_variables_ (set_problem_definitions this))
    with (n * 2 + (n - 2)).
  change (num_of_constraints_ (set_problem_definitions this))
    with (n * 2 + (n - 2) + (n - 2)).
  rewrite Ed, Ei, Ep.
  cbn [length]; rewrite !length_map, !length_seq, repeat_length, Hnz, Hend.
  repeat split; lia.
Qed.

End SolverSetup.

Lemma Solve_sets_the_solver_up_on_line4 :
  (4 <= Z.of_nat (length (ref_points_ line4)) <= INT_MAX /\
   length (ref_points_ line4) = length (bounds_around_refs_ line4)) /\
  (exists rest,
      snd (Solve line4_solver 1 line4)
      = setup_trace line4
          ++ call_osqp_warm_start_x (initial_warm_start line4) :: rest) /\
  Z.of_nat (length (csc_p (data_P (initial_data line4)))) = 9.
Proof.
  assert (HN : 4 <= Z.of_nat (length (ref_points_ line4)) <= INT_MAX)
    by (unfold INT_MAX; simpl; lia).
  split; [split; [exact HN|reflexivity]|].
  destruct (Solve_sets_the_solver_up line4_solver 1 line4 HN eq_refl)
    as (Hrest & _ & (_ & _ & _ & _ & _ & Hp) & _).
  split; [exact Hrest|exact Hp].
Defined.
